(** * wav2vec_extract_features: manifest resolution and feature writing

    A shallow embedding of
    [examples/wav2vec/unsupervised/scripts/wav2vec_extract_features.py].

    The script reads a split manifest ([<data>/<split>.tsv]), copies the
    manifest and its optional label files to the output directory, removes
    a stale [<split>.npy], and then, for each audio file of the manifest in
    order, writes the number of rows of its feature matrix as a line of
    [<split>.lengths] and appends the rows to [<split>.npy] when there is
    at least one.

    Modelling conventions.
    - A Python [str] is a Rocq [string]; a character is a code point below
      256.
    - The file system is a finite map from paths to the contents the files
      have on disk; two paths name the same file when they are the same
      string, and directories are not modelled.
    - The lengths file is opened with the default buffering: what is
      printed to it is held back by its handle and reaches the disk when
      the io library decides, at the latest when the file is closed.
      Inside the [with] block the state is the files on disk together
      with the text held back.
    - An action of the script takes a state and returns the new state,
      the events it performed and either a value or the exception raised.
      Effects done before an exception stay done.
    - The audio decoder ([soundfile.read]), the tensor operations, the
      checkpoint loader with the model it builds, the moments at which the
      io library writes buffered text out, and the failures of
      [NpyAppendArray.append] are collaborators outside the script; they
      are the fields of the record [Collaborators].
    - A run is observed through its events: the state at a point of a run
      is the state after the events done so far. *)

From Stdlib Require Import ZArith Ascii String DecimalString DecimalNat.
From stdpp Require Import gmap strings list fin_maps.

Local Open Scope Z_scope.
Local Open Scope nat_scope.

(** ** Python string primitives *)

Module Py.

Definition LF : ascii := "010"%char.
Definition TAB : ascii := "009"%char.
Definition SLASH : ascii := "/"%char.

(** [len(s)] *)
Definition len (s : string) : nat := String.length s.

(** [s.split(sep)] for a separator of one character: the pieces between
    the occurrences of [sep]; never the empty list. *)
Fixpoint split (sep : ascii) (s : string) : list string :=
  match s with
  | EmptyString => [EmptyString]
  | String c s' =>
      if Ascii.eqb c sep then EmptyString :: split sep s'
      else match split sep s' with
           | [] => [String c EmptyString]
           | w :: ws => String c w :: ws
           end
  end.

(** [str.isspace] on one character, for code points below 256:
    U+0009..U+000D, U+001C..U+0020, U+0085 and U+00A0. *)
Definition isspace (c : ascii) : bool :=
  let n := nat_of_ascii c in
  ((9 <=? n) && (n <=? 13)) || ((28 <=? n) && (n <=? 32))
  || (n =? 133) || (n =? 160).

(** [s.lstrip()] *)
Fixpoint lstrip (s : string) : string :=
  match s with
  | EmptyString => EmptyString
  | String c s' => if isspace c then lstrip s' else s
  end.

(** [s.rstrip()] *)
Fixpoint rstrip (s : string) : string :=
  match s with
  | EmptyString => EmptyString
  | String c s' =>
      match rstrip s' with
      | EmptyString => if isspace c then EmptyString else String c EmptyString
      | r => String c r
      end
  end.

(** [s.strip()] *)
Definition strip (s : string) : string := rstrip (lstrip s).

(** [s.startswith("/")] *)
Definition startswith_sep (s : string) : bool :=
  match s with
  | String c _ => Ascii.eqb c SLASH
  | EmptyString => false
  end.

(** [s.endswith("/")] *)
Fixpoint endswith_sep (s : string) : bool :=
  match s with
  | EmptyString => false
  | String c EmptyString => Ascii.eqb c SLASH
  | String _ s' => endswith_sep s'
  end.

(** [os.path.join(a, b)] of [posixpath]: an absolute [b] replaces [a];
    otherwise [b] is added after [a], with a slash between them unless
    [a] is empty or already ends with one. *)
Definition osp_join (a b : string) : string :=
  if startswith_sep b then b
  else if (len a =? 0) || endswith_sep a then a +:+ b
  else a +:+ String SLASH b.

(** [str(n)] for a non-negative [int]: its decimal digits. *)
Definition str_of_nat (n : nat) : string :=
  NilEmpty.string_of_uint (Nat.to_uint n).

(** [int(s)] restricted to what [str_of_nat] writes: decimal digits. *)
Definition int_of_str (s : string) : option nat :=
  match NilEmpty.uint_of_string s with
  | Some d => Some (Nat.of_uint d)
  | None => None
  end.

(** [sep.join(pieces)] for a separator of one character. *)
Fixpoint join (sep : ascii) (pieces : list string) : string :=
  match pieces with
  | [] => EmptyString
  | [w] => w
  | w :: ws => w +:+ String sep (join sep ws)
  end.

(** Whether the character [c] occurs in [s] ([c in s]). *)
Fixpoint contains (c : ascii) (s : string) : bool :=
  match s with
  | EmptyString => false
  | String c' s' => Ascii.eqb c' c || contains c s'
  end.

(** The last character of a string, if any. *)
Fixpoint last_char (s : string) : option ascii :=
  match s with
  | EmptyString => None
  | String c EmptyString => Some c
  | String _ s' => last_char s'
  end.

(** [s[:k]] *)
Fixpoint slice_to (k : nat) (s : string) : string :=
  match k, s with
  | S k', String c s' => String c (slice_to k' s')
  | _, _ => EmptyString
  end.

(** [s[k:]] *)
Fixpoint slice_from (k : nat) (s : string) : string :=
  match k, s with
  | S k', String _ s' => slice_from k' s'
  | _, _ => s
  end.

(** [math.floor(n / 2)] for an [int] [n], or [None] where Python raises
    [OverflowError].  [n / 2] is the float nearest to the quotient: the
    quotient itself while [n] has at most 53 bits, and otherwise the
    magnitude of [n] cut to its 53 leading bits, rounded to nearest with
    ties to the even significand, and halved; a result of [2^1024] or
    more is beyond the floats.  [math.floor] of a float is exact. *)
Definition floor_half (n : Z) : option Z :=
  let a := Z.abs n in
  if (a <? 2 ^ 53)%Z then Some (n / 2)%Z
  else
    let shift := (Z.log2 a - 52)%Z in
    let q := (a / 2 ^ shift)%Z in
    let r := (a mod 2 ^ shift)%Z in
    let half := (2 ^ (shift - 1))%Z in
    let q' :=
      if (r <? half)%Z then q
      else if (half <? r)%Z then (q + 1)%Z
      else if Z.even q then q else (q + 1)%Z in
    let v := (q' * 2 ^ (shift - 1))%Z in
    if (v <? 2 ^ 1024)%Z then Some (Z.sgn n * v)%Z else None.

End Py.

(** ** Exceptions, files, events and actions *)

Inductive exn : Type :=
| FileNotFoundError
| SameFileError
| UnicodeDecodeError
| IndexError
| OverflowError
| AssertionError
| ExternalError (code : nat).

Inductive result (A : Type) : Type :=
| Ok (a : A)
| Raise (e : exn).
Arguments Ok {A} a.
Arguments Raise {A} e.

(** Pure computations that may raise. *)
Definition rbind {A B} (r : result A) (k : A -> result B) : result B :=
  match r with
  | Ok a => k a
  | Raise e => Raise e
  end.

(** The arguments of the command line ([get_parser]). *)
Record Args : Type := {
  data : string;
  split : string;
  save_dir : string;
  checkpoint : string;
  layer : Z
}.

(** A file holds text or an array of rows.  A row of a feature matrix is
    a vector of floats; the script never looks inside one. *)
Inductive file (Row : Type) : Type :=
| Text (s : string)
| Npy (rows : list Row).
Arguments Text {Row} s.
Arguments Npy {Row} rows.

(** What a run does to the outside, in the order it does it.  [EvFault]
    is an append that raises; [EvDel] is the array file being closed when
    the writer object is destroyed. *)
Inductive event (Row : Type) : Type :=
| EvCopy (src dst : string)
| EvRemove (p : string)
| EvNpaa (p : string)
| EvOpen (p : string)
| EvFeats (fname : string) (m : list Row)
| EvPrint (p : string) (n : nat)
| EvAppend (p : string) (m : list Row)
| EvFault (p : string) (m : list Row)
| EvClose (p : string)
| EvDel (p : string).
Arguments EvCopy {Row} src dst.
Arguments EvRemove {Row} p.
Arguments EvNpaa {Row} p.
Arguments EvOpen {Row} p.
Arguments EvFeats {Row} fname m.
Arguments EvPrint {Row} p n.
Arguments EvAppend {Row} p m.
Arguments EvFault {Row} p m.
Arguments EvClose {Row} p.
Arguments EvDel {Row} p.

(** Whether a handle on [p] is open after the events [l], [cur] being the
    state before them.  [open] takes a handle and the end of the [with]
    block gives it back.  The array writer has no handle when it is
    constructed on a path without a file; an append that succeeds leaves
    it with one (the first creates the file and opens it, the later ones
    use it), and its destructor gives it back. *)
Fixpoint is_open {Row : Type} (p : string) (cur : bool) (l : list (event Row))
  : bool :=
  match l with
  | [] => cur
  | EvOpen q :: l' | EvAppend q _ :: l' =>
      is_open p (if decide (q = p) then true else cur) l'
  | EvClose q :: l' | EvDel q :: l' =>
      is_open p (if decide (q = p) then false else cur) l'
  | _ :: l' => is_open p cur l'
  end.

(** The reader built from a checkpoint: the fields of
    [Wav2VecFeatureReader] that [get_feats] uses. *)
Record Reader (Row Wav : Type) : Type := {
  (** [self.task.cfg.normalize] *)
  normalize : bool;
  (** [self.model(source=source, padding_mask=None)["layer_results"]] on
      [source.view(1, -1)]: a tuple of tensors for each layer, or an
      exception.  A tensor of a tuple is given as the matrix that
      [squeeze(1).cpu()] makes of it. *)
  model : Wav -> result (list (list (list Row)));
  (** [self.layer] *)
  reader_layer : Z
}.
Arguments normalize {Row Wav} _.
Arguments model {Row Wav} _ _.
Arguments reader_layer {Row Wav} _.

(** The collaborators of the script. *)
Record Collaborators (Row Wav : Type) : Type := {
  (** [soundfile.read(fname)]: the samples and the sample rate, or an
      exception (missing or undecodable file). *)
  sf_read : string -> result (Wav * Z);
  (** [torch.from_numpy(x).float().cuda()] *)
  to_device : Wav -> result Wav;
  (** [source.dim()] *)
  dim : Wav -> nat;
  (** [F.layer_norm(source, source.shape)] *)
  layer_norm : Wav -> Wav;
  (** Lines 40-58 of [__init__]: loading the checkpoint, building the
      model and moving it to the device.  Gives the [normalize] flag of
      the task and the model. *)
  load_checkpoint :
    string -> result (bool * (Wav -> result (list (list (list Row)))));
  (** How many characters of the text held back by the handle of the
      lengths file the io library writes out at a [print], given the text
      already on disk and the text held back, the line just printed
      included.  The sizes of the library's buffers decide; a number
      beyond the length of the text stands for all of it. *)
  flushed : string -> string -> nat;
  (** Whether [npaa.append] fails (for instance for lack of space), given
      the rows already in the array and the block to add. *)
  append_fault : list Row -> list Row -> bool;
  (** What an append that fails leaves at the path of the array, given
      the rows already there and the block: a file (a header followed by
      a part of the data, say, which no reader accepts), or [None] when
      the path is left as it was. *)
  append_wreck : list Row -> list Row -> option (file Row)
}.
Arguments sf_read {Row Wav} _ _.
Arguments to_device {Row Wav} _ _.
Arguments dim {Row Wav} _ _.
Arguments layer_norm {Row Wav} _ _.
Arguments load_checkpoint {Row Wav} _ _.
Arguments flushed {Row Wav} _ _ _.
Arguments append_fault {Row Wav} _ _ _.
Arguments append_wreck {Row Wav} _ _ _.

Section Script.

Context {Row Wav : Type}.

(** A feature matrix is the list of its rows; [len(w2v_feats)] is the
    number of rows. *)
Definition Matrix : Type := list Row.

(** An action on a state of type [S]: state in; state, events and
    outcome out. *)
Definition act (S A : Type) : Type := S -> S * list (event Row) * result A.

(** An action of the script outside the [with] block: the state is the
    files on disk. *)
Definition io (A : Type) : Type := act (gmap string (file Row)) A.

(** The state inside [with open(...) as l_f]: the files on disk and the
    text printed to [l_f] that its handle holds back. *)
Definition buffered : Type := gmap string (file Row) * string.

Definition ret {S A} (a : A) : act S A := fun s => (s, [], Ok a).

Definition bind {S A B} (m : act S A) (k : A -> act S B) : act S B :=
  fun s =>
    match m s with
    | (s1, l1, Ok a) =>
        match k a s1 with
        | (s2, l2, r) => (s2, l1 ++ l2, r)
        end
    | (s1, l1, Raise e) => (s1, l1, Raise e)
    end.

(** A computation without effects on the state, which may raise. *)
Definition lift {S A} (r : result A) : act S A := fun s => (s, [], r).

(** An action on the files, done inside the [with] block: the text held
    back stays as it is. *)
Definition on_files {A} (m : io A) : act buffered A :=
  fun st =>
    match m st.1 with
    | (fs, l, r) => ((fs, st.2), l, r)
    end.

Notation "'let*' x := m 'in' k" := (bind m (fun x => k))
  (at level 10, x pattern, m at level 100, k at level 200).
Notation "m >> k" := (bind m (fun _ => k))
  (at level 90, right associativity).

(** *** Contents of a path *)

Definition text_of (fs : gmap string (file Row)) (p : string) : string :=
  match fs !! p with
  | Some (Text s) => s
  | _ => EmptyString
  end.

Definition rows_of (fs : gmap string (file Row)) (p : string) : list Row :=
  match fs !! p with
  | Some (Npy rows) => rows
  | _ => []
  end.

(** The text written so far to the file at [p], inside the [with] block
    that has opened it: what is on disk followed by what the handle
    holds back. *)
Definition written (st : buffered) (p : string) : string :=
  text_of st.1 p +:+ st.2.

(** *** Primitive actions *)

(** [shutil.copyfile(src, dst)].  Two paths name the same file when they
    are the same string. *)
Definition copyfile (src dst : string) : io unit :=
  fun fs =>
    match fs !! src with
    | None => (fs, [], Raise FileNotFoundError)
    | Some c =>
        if decide (src = dst) then (fs, [], Raise SameFileError)
        else (<[dst := c]> fs, [EvCopy src dst], Ok tt)
    end.

(** [os.path.exists(p)] *)
Definition osp_exists (p : string) : io bool :=
  fun fs => (fs, [], Ok (bool_decide (is_Some (fs !! p)))).

(** [os.remove(p)] *)
Definition os_remove (p : string) : io unit :=
  fun fs =>
    match fs !! p with
    | None => (fs, [], Raise FileNotFoundError)
    | Some _ => (delete p fs, [EvRemove p], Ok tt)
    end.

(** [NpyAppendArray(p)]: the writer of the array file at [p], made for a
    path that holds no file, as [create_files] makes it: nothing is
    opened or written before the first [append]. *)
Definition NpyAppendArray (p : string) : io string :=
  fun fs => (fs, [EvNpaa p], Ok p).

(** [open(p, "w")]: the file is created or truncated; the new handle
    holds nothing back. *)
Definition open_w (p : string) (fs : gmap string (file Row)) : buffered :=
  (<[p := Text EmptyString]> fs, EmptyString).

(** Closing a file writes out what its handle holds back. *)
Definition close (p : string) (st : buffered) : gmap string (file Row) :=
  <[p := Text (text_of st.1 p +:+ st.2)]> st.1.

(** [with open(p, "w") as l_f: body]: the file is closed when the body
    returns and when it raises. *)
Definition with_open_w {A} (p : string) (body : string -> act buffered A)
  : io A :=
  fun fs =>
    match body p (open_w p fs) with
    | (st, l, r) => (close p st, EvOpen p :: l ++ [EvClose p], r)
    end.

(** The end of the life of a local that holds the array writer.  The
    writer is destroyed when the frame of the function is released,
    after the function has returned or after the exception that left it
    has been dealt with; its destructor closes the array file if an
    append has opened it, and does nothing otherwise. *)
Definition released {A} (npaa : string) (m : io A) : io A :=
  fun fs =>
    match m fs with
    | (fs1, l, r) =>
        (fs1, if is_open npaa false l then l ++ [EvDel npaa] else l, r)
    end.

(** *** get_iterator, first part *)

(** [lines.pop(0)] *)
Definition pop0 {A} (l : list A) : result (A * list A) :=
  match l with
  | [] => Raise IndexError
  | x :: l' => Ok (x, l')
  end.

(** Lines 86-90: from the text of the manifest to the paths and their
    number. *)
Definition manifest_files (text : string) : result (list string * nat) :=
  let lines := Py.split Py.LF text in
  rbind (pop0 lines) (fun '(first, lines) =>
    let root := Py.strip first in
    let files :=
      map (fun line => Py.osp_join root (hd EmptyString (Py.split Py.TAB line)))
          (filter (fun line => 0 < Py.len line) lines) in
    let num := length files in
    Ok (files, num)).

(** [open(path, "r")] and [fp.read()] *)
Definition read_text (p : string) : io string :=
  fun fs =>
    match fs !! p with
    | None => (fs, [], Raise FileNotFoundError)
    | Some (Npy _) => (fs, [], Raise UnicodeDecodeError)
    | Some (Text s) => (fs, [], Ok s)
    end.

(** [create_files(dest)] *)
Definition create_files (args : Args) (dest : string) : io string :=
  let src := Py.osp_join (data args) (split args) in
  copyfile (src +:+ ".tsv") (dest +:+ ".tsv") >>
  (let* has_wrd := osp_exists (src +:+ ".wrd") in
   if has_wrd : bool
   then copyfile (src +:+ ".wrd") (dest +:+ ".wrd") else ret tt) >>
  (let* has_phn := osp_exists (src +:+ ".phn") in
   if has_phn : bool
   then copyfile (src +:+ ".phn") (dest +:+ ".phn") else ret tt) >>
  (let* stale := osp_exists (dest +:+ ".npy") in
   if stale : bool then os_remove (dest +:+ ".npy") else ret tt) >>
  NpyAppendArray (dest +:+ ".npy").

(** *** The parts that use the collaborators *)

Variable E : Collaborators Row Wav.

(** [print(n, file=l_f)]: the decimal digits of [n] and a newline are
    added to the text the handle holds back; the io library then writes
    out as much of that text, from its start, as it decides to. *)
Definition print_len (l_f : string) (n : nat) : act buffered unit :=
  fun st =>
    let pending := st.2 +:+ Py.str_of_nat n +:+ String Py.LF EmptyString in
    let k := flushed E (text_of st.1 l_f) pending in
    ((<[l_f := Text (text_of st.1 l_f +:+ Py.slice_to k pending)]> st.1,
      Py.slice_from k pending),
     [EvPrint l_f n], Ok tt).

(** [npaa.append(block)]: the rows of [block] are added after the rows
    the file at the writer's path already holds; a missing file is
    created.  An append that fails raises and leaves at the path what
    the collaborators say. *)
Definition npaa_append (npaa : string) (block : Matrix) : io unit :=
  fun fs =>
    if append_fault E (rows_of fs npaa) block
    then (match append_wreck E (rows_of fs npaa) block with
          | Some f => <[npaa := f]> fs
          | None => fs
          end,
          [EvFault npaa block], Raise (ExternalError 0))
    else (<[npaa := Npy (rows_of fs npaa ++ block)]> fs,
          [EvAppend npaa block], Ok tt).

(** [read_audio]: [assert sr == 16e3] on the rate [soundfile] reports,
    an integer; it equals the float [16e3] exactly when it is 16000. *)
Definition read_audio (fname : string) : result Wav :=
  rbind (sf_read E fname) (fun '(wav, sr) =>
    if (sr =? 16000)%Z then Ok wav else Raise AssertionError).

(** [Wav2VecFeatureReader(cp_file, layer)] *)
Definition Wav2VecFeatureReader (cp_file : string) (layer : Z)
  : result (Reader Row Wav) :=
  rbind (load_checkpoint E cp_file) (fun '(norm, mdl) =>
    Ok {| normalize := norm; model := mdl; reader_layer := layer |}).

(** [seq[i]] on a list or a tuple: a negative index counts from the end,
    an index out of range raises. *)
Definition py_index {A} (seq : list A) (i : Z) : result A :=
  let n := Z.of_nat (length seq) in
  let j := if (i <? 0)%Z then (i + n)%Z else i in
  if ((0 <=? j)%Z && (j <? n)%Z)
  then match nth_error seq (Z.to_nat j) with
       | Some x => Ok x
       | None => Raise IndexError
       end
  else Raise IndexError.

(** [math.floor(self.layer / 2)]: a division in floats. *)
Definition floor_half (n : Z) : result Z :=
  match Py.floor_half n with
  | Some i => Ok i
  | None => Raise OverflowError
  end.

(** [get_feats]: the audio is read and checked, moved to the device,
    normalised if the task asks for it (mono audio only), and passed
    through the model; the result is item [(layer % 2) * 2] of the tuple
    at index [math.floor(layer / 2)] of the layer results. *)
Definition get_feats (reader : Reader Row Wav) (loc : string) : result Matrix :=
  rbind (read_audio loc) (fun x =>
  rbind (to_device E x) (fun source =>
  rbind (if normalize reader
         then if dim E source =? 1
              then Ok (layer_norm E source)
              else Raise AssertionError
         else Ok source) (fun source =>
  rbind (model reader source) (fun layer_results =>
  rbind (floor_half (reader_layer reader)) (fun i =>
  rbind (py_index layer_results i) (fun layer_result =>
  py_index layer_result ((reader_layer reader mod 2) * 2)%Z)))))).

(** [get_iterator]; the generator function [iterate] it returns is
    given as the reader and the files it closes over. *)
Definition get_iterator (args : Args)
  : io (Reader Row Wav * list string * nat) :=
  let* text := read_text (Py.osp_join (data args) (split args) +:+ ".tsv") in
  let* (files, num) := lift (manifest_files text) in
  let* reader := lift (Wav2VecFeatureReader (checkpoint args) (layer args)) in
  ret (reader, files, num).

(** The next item of the generator [iterate()]: [reader.get_feats] of
    the next file, computed when the loop asks for it. *)
Definition next_feats {S} (reader : Reader Row Wav) (fname : string)
  : act S Matrix :=
  fun s =>
    match get_feats reader fname with
    | Ok m => (s, [EvFeats fname m], Ok m)
    | Raise e => (s, [], Raise e)
    end.

(** The body of the [for] loop, lines 127-130, for one matrix. *)
Definition body (l_f npaa : string) (w2v_feats : Matrix) : act buffered unit :=
  print_len l_f (length w2v_feats) >>
  if 0 <? length w2v_feats
  then on_files (npaa_append npaa w2v_feats) else ret tt.

(** The [for] loop over the items of the generator. *)
Fixpoint loop (reader : Reader Row Wav) (l_f npaa : string)
    (files : list string) : act buffered unit :=
  match files with
  | [] => ret tt
  | fname :: rest =>
      let* w2v_feats := next_feats reader fname in
      body l_f npaa w2v_feats >>
      loop reader l_f npaa rest
  end.

(** [main]; [os.makedirs] has no counterpart since directories are not
    modelled.  The local [npaa] lives from the return of [create_files]
    to the release of the frame of [main]. *)
Definition main (args : Args) : io unit :=
  let save_path := Py.osp_join (save_dir args) (split args) in
  let* npaa := create_files args save_path in
  released npaa
    (let* (reader, files, num) := get_iterator args in
     with_open_w (save_path +:+ ".lengths")
       (fun l_f => loop reader l_f npaa files)).

(** The three components of what an action returns. *)
Definition fs_of {S A} (o : S * list (event Row) * result A) : S := o.1.1.
Definition log_of {S A} (o : S * list (event Row) * result A)
  : list (event Row) := o.1.2.
Definition res_of {S A} (o : S * list (event Row) * result A)
  : result A := o.2.

(** *** Observing a run

    The state after a part of the events of a run. *)

(** The effect of one event on the files and on the text held back. *)
Definition apply_event (e : event Row) (st : buffered) : buffered :=
  match e with
  | EvCopy src dst =>
      match st.1 !! src with
      | Some c => (<[dst := c]> st.1, st.2)
      | None => st
      end
  | EvRemove p => (delete p st.1, st.2)
  | EvOpen p => open_w p st.1
  | EvPrint p n => fs_of (print_len p n st)
  | EvAppend p m => (<[p := Npy (rows_of st.1 p ++ m)]> st.1, st.2)
  | EvFault p m =>
      match append_wreck E (rows_of st.1 p) m with
      | Some f => (<[p := f]> st.1, st.2)
      | None => st
      end
  | EvClose p => (close p st, EmptyString)
  | EvNpaa _ | EvFeats _ _ | EvDel _ => st
  end.

(** The state at a point of a run: after the events done so far. *)
Definition replay (l : list (event Row)) (st : buffered) : buffered :=
  fold_left (fun st e => apply_event e st) l st.

End Script.

(** The paths of the two outputs of a run. *)
Definition lengths_path (args : Args) : string :=
  Py.osp_join (save_dir args) (split args) +:+ ".lengths".
Definition npy_path (args : Args) : string :=
  Py.osp_join (save_dir args) (split args) +:+ ".npy".
Definition tsv_path (args : Args) : string :=
  Py.osp_join (data args) (split args) +:+ ".tsv".

(** ** What is read off the events and the files

    The notions the properties below are stated with: what a run has
    produced, printed and appended, and what a consumer reads from the
    two outputs. *)

Section Observations.

Context {Row : Type}.

(** The feature matrices the generator has produced, in order. *)
Fixpoint produced (l : list (event Row)) : list (list Row) :=
  match l with
  | [] => []
  | EvFeats _ m :: l' => m :: produced l'
  | _ :: l' => produced l'
  end.

(** The lengths printed to the file at [p], in order. *)
Fixpoint printed (p : string) (l : list (event Row)) : list nat :=
  match l with
  | [] => []
  | EvPrint q n :: l' =>
      if decide (q = p) then n :: printed p l' else printed p l'
  | _ :: l' => printed p l'
  end.

(** The rows appended to the array at [p], in order. *)
Fixpoint appended (p : string) (l : list (event Row)) : list Row :=
  match l with
  | [] => []
  | EvAppend q m :: l' =>
      if decide (q = p) then m ++ appended p l' else appended p l'
  | _ :: l' => appended p l'
  end.

(** The blocks of rows appended to the array at [p], in order. *)
Fixpoint blocks (p : string) (l : list (event Row)) : list (list Row) :=
  match l with
  | [] => []
  | EvAppend q m :: l' =>
      if decide (q = p) then m :: blocks p l' else blocks p l'
  | _ :: l' => blocks p l'
  end.

(** Whether no append has failed. *)
Definition faultless (l : list (event Row)) : Prop :=
  Forall (fun e => match e with EvFault _ _ => False | _ => True end) l.

(** The events of the writing loop on the lengths file [l_f] and the
    array [npaa]. *)
Definition loop_event (l_f npaa : string) (e : event Row) : Prop :=
  match e with
  | EvFeats _ _ => True
  | EvPrint q _ => q = l_f
  | EvAppend q _ | EvFault q _ => q = npaa
  | _ => False
  end.

(** The events of [create_files], with the array writer on [npaa]. *)
Definition setup_event (npaa : string) (e : event Row) : Prop :=
  match e with
  | EvCopy _ _ | EvRemove _ => True
  | EvNpaa q => q = npaa
  | _ => False
  end.

(** The events that end a run: the lengths file [l_f] is closed, then
    the file of the array [npaa] if it was opened. *)
Definition end_event (l_f npaa : string) (e : event Row) : Prop :=
  e = EvClose l_f \/ e = EvDel npaa.

(** The events that write to an output: opening the lengths file,
    printing a length, appending rows, whether the append succeeds or
    not. *)
Definition write_event (e : event Row) : Prop :=
  match e with
  | EvOpen _ | EvPrint _ _ | EvAppend _ _ | EvFault _ _ => True
  | _ => False
  end.

(** The matrices with at least one row. *)
Definition nonempty (ms : list (list Row)) : list (list Row) :=
  filter (fun m : list Row => 0 < length m) ms.

(** Cutting the array into consecutive segments of the given lengths. *)
Fixpoint slices (lens : list nat) (rows : list Row) : list (list Row) :=
  match lens with
  | [] => []
  | n :: lens' => take n rows :: slices lens' (drop n rows)
  end.

End Observations.

(** The path made of a line of the manifest under the root [root]: the
    root joined with the line's first tab-delimited field. *)
Definition path_of (root line : string) : string :=
  Py.osp_join root (hd EmptyString (Py.split Py.TAB line)).

(** The lines of a list that are not empty. *)
Definition kept (lines : list string) : list string :=
  filter (fun line => 0 < Py.len line) lines.

(** The text of a Lengths Manifest with the given values. *)
Fixpoint lengths_text (lens : list nat) : string :=
  match lens with
  | [] => EmptyString
  | n :: lens' =>
      Py.str_of_nat n +:+ String Py.LF (lengths_text lens')
  end.

(** The lines of a text: the pieces that end with a newline. *)
Definition text_lines (text : string) : list string :=
  removelast (Py.split Py.LF text).

(** The values a consumer reads from a Lengths Manifest. *)
Definition read_lengths (text : string) : option (list nat) :=
  mapM Py.int_of_str (text_lines text).

(** How many of the segments announced by [lens] a consumer finds whole
    in an array of [nrows] rows, cutting from the start. *)
Fixpoint segments_present (lens : list nat) (nrows : nat) : nat :=
  match lens with
  | [] => 0
  | n :: lens' =>
      if n <=? nrows then S (segments_present lens' (nrows - n)) else 0
  end.

(** The lengths file is level with the array or one line ahead of it:
    the lines written are as many as the segments present, or one more. *)
Definition level_or_one_ahead (lens : list nat) (nrows : nat) : Prop :=
  length lens = segments_present lens nrows
  \/ length lens = S (segments_present lens nrows).

(** The lines of non-empty matrices are level with the blocks of the
    array or one ahead: the values printed that are not zero are as many
    as the blocks appended, or one more. *)
Definition blocks_level_or_one_ahead (lens : list nat) (nblocks : nat) : Prop :=
  length (filter (fun n => 0 < n) lens) = nblocks
  \/ length (filter (fun n => 0 < n) lens) = S nblocks.

(** The array at [npaa] and the lengths file at [l_f] agree with the
    matrices [ms]: the array is the concatenation of the non-empty ones,
    the lengths file lists the row count of each, the rows of the array
    are as many as the sum of the values listed (and as the sum of those
    that are not zero), and cutting the array at the values listed
    gives the matrices back. *)
Definition consistent {Row : Type} (fs : gmap string (file Row)) (l_f npaa : string)
    (ms : list (list Row)) : Prop :=
  rows_of fs npaa = concat (nonempty ms)
  /\ exists lens,
       read_lengths (text_of fs l_f) = Some lens
       /\ lens = map length ms
       /\ length (rows_of fs npaa) = sum_list lens
       /\ length (rows_of fs npaa) = sum_list (filter (fun n => 0 < n) lens)
       /\ slices lens (rows_of fs npaa) = ms.


(** ** A run of the script on two files

    The split [train] of [/in] lists [a.wav] and [b.wav] under [/data];
    the first file gives a matrix of shape (5, 768), the second one of
    shape (0, 768).  The output directory [/out] holds an array of 100
    rows and a lengths file of an earlier run. *)

Module Scenario.

Definition Row : Type := list Z.
Definition Wav : Type := nat.

Definition line (s : string) : string := s +:+ String Py.LF EmptyString.
Definition fields (a b : string) : string := a +:+ String Py.TAB b.

Definition manifest : string :=
  line "/data" +:+ line (fields "a.wav" "foo") +:+ line (fields "b.wav" "bar").

Definition matrix (t : nat) : list Row := repeat (repeat 0%Z 768) t.

(** Audio of [t] time steps is a number; [a.wav] has 5, [b.wav] none,
    [c.wav] 3, and [bad.wav] is sampled at 8 kHz.  The model has 12
    layers; the first tensor of each layer's tuple has a row for each
    time step.  The io library writes the text it holds back out, all of
    it, once more than 8192 characters are held back; no append
    fails. *)
Definition E : Collaborators Row Wav := {|
  sf_read p :=
    if decide (p = "/data/a.wav") then Ok (5, 16000%Z)
    else if decide (p = "/data/b.wav") then Ok (0, 16000%Z)
    else if decide (p = "/data/c.wav") then Ok (3, 16000%Z)
    else if decide (p = "/data/bad.wav") then Ok (7, 8000%Z)
    else Raise FileNotFoundError;
  to_device t := Ok t;
  dim _ := 1;
  layer_norm t := t;
  load_checkpoint _ := Ok (true, fun t => Ok (repeat [matrix t; []; []] 12));
  flushed _ pending :=
    if 2 ^ 13 <? String.length pending then String.length pending else 0;
  append_fault _ _ := false;
  append_wreck _ _ := None
|}.

(** The reader that [E] builds for layer 14. *)
Definition reader : Reader Row Wav := {|
  normalize := true;
  model t := Ok (repeat [matrix t; []; []] 12);
  reader_layer := 14
|}.

(** The same collaborators with an array writer that always fails, for
    lack of space, and leaves a file that is not an array. *)
Definition E_full : Collaborators Row Wav := {|
  sf_read := sf_read E;
  to_device := to_device E;
  dim := dim E;
  layer_norm := layer_norm E;
  load_checkpoint := load_checkpoint E;
  flushed := flushed E;
  append_fault _ _ := true;
  append_wreck _ _ := Some (Text "NUMPY")
|}.

Definition args : Args := {|
  data := "/in"; split := "train"; save_dir := "/out";
  checkpoint := "/models/w2v.pt"; layer := 14
|}.

Definition fs : gmap string (file Row) :=
  <["/in/train.tsv" := Text manifest]>
  (<["/in/train.wrd" := Text (line "hello" +:+ line "world")]>
  (<["/out/train.npy" := Npy (matrix 100)]>
  (<["/out/train.lengths" := Text (line "60" +:+ line "40")]> ∅))).

(** The two outputs of the run. *)
Definition lengths : string := "/out/train.lengths".
Definition npy : string := "/out/train.npy".

(** A manifest of the files [a.wav] and [c.wav], of 5 and 3 rows. *)
Definition manifest2 : string :=
  line "/data" +:+ line (fields "a.wav" "foo") +:+ line (fields "c.wav" "bar").

Definition fs2 : gmap string (file Row) :=
  <["/in/train.tsv" := Text manifest2]> fs.

End Scenario.

(** ** Further notions

    What the properties of the whole script are stated with. *)

(** The array file a run leaves when it starts without one and appends
    the matrices [ms]: none if no matrix has a row. *)
Definition npy_file_of {Row : Type} (ms : list (list Row)) : option (file Row) :=
  match nonempty ms with
  | [] => None
  | _ :: _ => Some (Npy (concat ms))
  end.

(** The five paths a run writes to. *)
Definition output_paths (args : Args) : list string :=
  let dest := Py.osp_join (save_dir args) (split args) in
  [dest +:+ ".tsv"; dest +:+ ".wrd"; dest +:+ ".phn";
   dest +:+ ".npy"; dest +:+ ".lengths"].

(** ** Further cases of the scenario *)

Module Cases.

Import Scenario.

(** A checkpoint that cannot be loaded. *)
Definition E_no_checkpoint : Collaborators Row Wav := {|
  sf_read := sf_read E;
  to_device := to_device E;
  dim := dim E;
  layer_norm := layer_norm E;
  load_checkpoint _ := Raise (ExternalError 1);
  flushed := flushed E;
  append_fault := append_fault E;
  append_wreck := append_wreck E
|}.

(** Audio seen as stereo. *)
Definition E_stereo : Collaborators Row Wav := {|
  sf_read := sf_read E;
  to_device := to_device E;
  dim _ := 2;
  layer_norm := layer_norm E;
  load_checkpoint := load_checkpoint E;
  flushed := flushed E;
  append_fault := append_fault E;
  append_wreck := append_wreck E
|}.

(** A reader of the same model for an odd layer, and one whose task does
    not normalise. *)
Definition reader_odd : Reader Row Wav := {|
  normalize := true;
  model t := Ok (repeat [matrix t; []; matrix (t + 1)] 12);
  reader_layer := 13
|}.

Definition reader_raw : Reader Row Wav := {|
  normalize := false;
  model := model reader;
  reader_layer := 14
|}.

(** A reader for a layer beyond the floats. *)
Definition reader_huge : Reader Row Wav := {|
  normalize := true;
  model := model reader;
  reader_layer := 2 ^ 1025
|}.

(** A manifest whose second file cannot be read, and the files of a run
    on it. *)
Definition manifest_bad : string :=
  line "/data" +:+ line (fields "a.wav" "foo") +:+ line (fields "gone.wav" "bar")
  +:+ line (fields "c.wav" "baz").

Definition fs_bad : gmap string (file Row) :=
  <["/in/train.tsv" := Text manifest_bad]> fs.

(** A manifest of files without rows. *)
Definition manifest_empty : string :=
  line "/data" +:+ line (fields "b.wav" "foo") +:+ line (fields "b.wav" "bar").

Definition fs_empty : gmap string (file Row) :=
  <["/in/train.tsv" := Text manifest_empty]> fs.

(** Arguments whose output directory is the data directory. *)
Definition args_in_place : Args := {|
  data := "/in"; split := "train"; save_dir := "/in";
  checkpoint := "/models/w2v.pt"; layer := 14
|}.

End Cases.

(** ** Facts on the string primitives *)

Module PyFacts.

Example split_tabs :
  Py.split Py.TAB (String "a" (String Py.TAB (String "b" (String Py.TAB "c"))))
  = ["a"; "b"; "c"].
Proof. reflexivity. Qed.

Example split_lines :
  Py.split Py.LF (String "r" (String Py.LF (String "x" (String Py.LF EmptyString))))
  = ["r"; "x"; EmptyString]
  /\ Py.split Py.LF EmptyString = [EmptyString].
Proof. split; reflexivity. Qed.

Example strip_root : Py.strip " /data/  " = "/data/".
Proof. reflexivity. Qed.

Example join_relative : Py.osp_join "/data" "a.wav" = "/data/a.wav".
Proof. reflexivity. Qed.

Example join_after_slash : Py.osp_join "/data/" "a.wav" = "/data/a.wav".
Proof. reflexivity. Qed.

Example join_absolute : Py.osp_join "/data" "/x/a.wav" = "/x/a.wav".
Proof. reflexivity. Qed.

Example str_of_lengths :
  Py.str_of_nat 5 = "5" /\ Py.str_of_nat 0 = "0" /\ Py.str_of_nat 768 = "768".
Proof. repeat split; reflexivity. Qed.

Example segments_of_two :
  segments_present [5; 0] 5 = 2 /\ segments_present [5; 3] 5 = 1
  /\ segments_present [0; 0] 0 = 2 /\ segments_present [5] 0 = 0.
Proof. repeat split; reflexivity. Qed.

Lemma app_nil (s : string) : EmptyString +:+ s = s.
Proof. reflexivity. Qed.

Lemma app_cons (c : ascii) (s t : string) :
  String c s +:+ t = String c (s +:+ t).
Proof. reflexivity. Qed.

Lemma app_empty_r (s : string) : s +:+ EmptyString = s.
Proof.
  induction s as [|c s IH]; [done |]. by rewrite app_cons, IH.
Qed.

Lemma app_assoc (a b c : string) : (a +:+ b) +:+ c = a +:+ (b +:+ c).
Proof.
  induction a as [|x a IH]; [done |]. by rewrite !app_cons, IH.
Qed.

Lemma split_cons (sep : ascii) (s : string) :
  exists w ws, Py.split sep s = w :: ws.
Proof.
  induction s as [|c s [w [ws IH]]]; simpl; [by eauto |].
  destruct (Ascii.eqb c sep); [by eauto |]. rewrite IH. by eauto.
Qed.

Lemma split_without (sep : ascii) (s : string) :
  Py.contains sep s = false -> Py.split sep s = [s].
Proof.
  induction s as [|c s IH]; simpl; [done |].
  intros [Hc Hs]%orb_false_iff. rewrite Hc, (IH Hs). done.
Qed.

Lemma split_app (sep : ascii) (a b : string) :
  Py.contains sep a = false ->
  Py.split sep (a +:+ String sep b) = a :: Py.split sep b.
Proof.
  induction a as [|c a IH].
  - intros _. rewrite app_nil. simpl. by rewrite Ascii.eqb_refl.
  - rewrite app_cons. simpl.
    intros [Hc Ha]%orb_false_iff. rewrite Hc, (IH Ha). done.
Qed.

Lemma contains_app (c : ascii) (a b : string) :
  Py.contains c (a +:+ b) = Py.contains c a || Py.contains c b.
Proof.
  induction a as [|x a IH]; [done |].
  rewrite app_cons. simpl. rewrite IH. by rewrite orb_assoc.
Qed.

(** Splitting undoes joining when no piece holds the separator. *)
Lemma split_join (sep : ascii) (w : string) (ws : list string) :
  Forall (fun x => Py.contains sep x = false) (w :: ws) ->
  Py.split sep (Py.join sep (w :: ws)) = w :: ws.
Proof.
  revert w. induction ws as [|v ws IH]; intros w Hall.
  - simpl. apply split_without. by inversion Hall.
  - inversion Hall as [|? ? Hw Hrest]; subst.
    change (Py.join sep (w :: v :: ws))
      with (w +:+ String sep (Py.join sep (v :: ws))).
    rewrite (split_app _ _ _ Hw). by rewrite (IH v Hrest).
Qed.

Lemma split_pieces (sep : ascii) (s : string) :
  Forall (fun w => Py.contains sep w = false) (Py.split sep s).
Proof.
  induction s as [|c s IH]; simpl; [by repeat constructor |].
  destruct (Ascii.eqb c sep) eqn:Hc; [by constructor |].
  destruct (Py.split sep s) as [|w ws]; [by repeat constructor; simpl; rewrite Hc |].
  inversion IH as [|? ? Hw Hws]; subst.
  constructor; [| done]. simpl. by rewrite Hc, Hw.
Qed.

(** Joining undoes splitting. *)
Lemma join_split (sep : ascii) (s : string) :
  Py.join sep (Py.split sep s) = s.
Proof.
  induction s as [|c s IH]; simpl; [done |].
  destruct (split_cons sep s) as [w [ws Hs]]. rewrite Hs in IH |- *.
  destruct (Ascii.eqb_spec c sep) as [-> | Hc].
  - change (Py.join sep (EmptyString :: w :: ws))
      with (EmptyString +:+ String sep (Py.join sep (w :: ws))).
    by rewrite IH.
  - destruct ws as [|v ws]; simpl in *; [by rewrite IH |].
    by rewrite app_cons, IH.
Qed.

(** The digits of a number hold no newline. *)
Lemma digits_without_LF (d : Decimal.uint) :
  Py.contains Py.LF (NilEmpty.string_of_uint d) = false.
Proof. induction d; simpl; auto. Qed.

Lemma str_of_nat_without_LF (n : nat) :
  Py.contains Py.LF (Py.str_of_nat n) = false.
Proof. apply digits_without_LF. Qed.

Lemma int_of_str_of_nat (n : nat) : Py.int_of_str (Py.str_of_nat n) = Some n.
Proof.
  unfold Py.int_of_str, Py.str_of_nat.
  rewrite NilEmpty.usu. by rewrite DecimalNat.Unsigned.of_to.
Qed.

Lemma last_char_app (a b : string) :
  b <> EmptyString -> Py.last_char (a +:+ b) = Py.last_char b.
Proof.
  intros Hb. induction a as [|c a IH]; [done |].
  rewrite app_cons. simpl. rewrite IH.
  destruct (a +:+ b) eqn:Hab; [| done].
  destruct a; [rewrite app_nil in Hab; by subst | discriminate].
Qed.

(** Two paths with extensions that end differently are different. *)
Lemma ext_ne (a b ea eb : string) :
  ea <> EmptyString -> eb <> EmptyString ->
  Py.last_char ea <> Py.last_char eb ->
  a +:+ ea <> b +:+ eb.
Proof.
  intros Ha Hb Hne Heq. apply Hne.
  rewrite <- (last_char_app a ea Ha), <- (last_char_app b eb Hb).
  by rewrite Heq.
Qed.

Lemma lengths_text_app (l1 l2 : list nat) :
  lengths_text (l1 ++ l2) = lengths_text l1 +:+ lengths_text l2.
Proof.
  induction l1 as [|n l1 IH]; simpl; [done |].
  rewrite IH. by rewrite app_assoc, app_cons.
Qed.

Lemma split_lengths_text (lens : list nat) :
  Py.split Py.LF (lengths_text lens) = map Py.str_of_nat lens ++ [EmptyString].
Proof.
  induction lens as [|n lens IH]; simpl; [done |].
  rewrite split_app by apply str_of_nat_without_LF. by rewrite IH.
Qed.

Lemma text_lines_lengths_text (lens : list nat) :
  text_lines (lengths_text lens) = map Py.str_of_nat lens.
Proof.
  unfold text_lines. rewrite split_lengths_text. apply removelast_last.
Qed.

(** Reading back a Lengths Manifest gives the values written. *)
Lemma read_lengths_text (lens : list nat) :
  read_lengths (lengths_text lens) = Some lens.
Proof.
  unfold read_lengths. rewrite text_lines_lengths_text.
  induction lens as [|n lens IH]; simpl; [done |].
  rewrite int_of_str_of_nat. simpl. by rewrite IH.
Qed.


(** Cutting a text in two and putting the parts together. *)
Lemma slice_app (k : nat) (s : string) :
  Py.slice_to k s +:+ Py.slice_from k s = s.
Proof.
  revert s. induction k as [|k IH]; intros [|c s]; simpl; try done.
  by rewrite app_cons, IH.
Qed.

End PyFacts.

(** ** The Manifest Resolver *)

Section Resolver.

(** [lines.pop(0)] never raises: a split has a first piece. *)
Lemma manifest_files_eq (text : string) :
  exists first rest,
    Py.split Py.LF text = first :: rest
    /\ manifest_files text
       = Ok (map (path_of (Py.strip first)) (kept rest), length (kept rest)).
Proof.
  destruct (PyFacts.split_cons Py.LF text) as [first [rest Hs]].
  exists first, rest. split; [done |].
  unfold manifest_files. rewrite Hs. simpl. unfold kept. by rewrite length_map.
Qed.

Lemma manifest_files_lines (first : string) (rest : list string) :
  Forall (fun l => Py.contains Py.LF l = false) (first :: rest) ->
  manifest_files (Py.join Py.LF (first :: rest))
  = Ok (map (path_of (Py.strip first)) (kept rest), length (kept rest)).
Proof.
  intros Hall. unfold manifest_files.
  rewrite (PyFacts.split_join _ _ _ Hall). simpl. unfold kept.
  by rewrite length_map.
Qed.

Lemma first_field (field more : string) :
  Py.contains Py.TAB field = false ->
  hd EmptyString (Py.split Py.TAB (field +:+ String Py.TAB more)) = field.
Proof. intros H. by rewrite (PyFacts.split_app _ _ _ H). Qed.

(** C3: every manifest is made of a first line and of later lines; the
    first line, stripped, is the root; every later line that is not
    empty gives one path, the root joined with the line's first
    tab-delimited field; the paths come in the order of the lines and
    the count is their number.  The manifest with root [/data] and lines
    [a.wav<TAB>foo], [b.wav<TAB>bar] gives [/data/a.wav], [/data/b.wav]
    and 2. *)
Theorem manifest_resolver :
  (forall text : string,
      exists (first : string) (rest : list string),
        text = Py.join Py.LF (first :: rest)
        /\ Forall (fun l => Py.contains Py.LF l = false) (first :: rest)
        /\ manifest_files text
           = Ok (map (path_of (Py.strip first)) (kept rest), length (kept rest)))
  /\ (forall root field more : string,
         Py.contains Py.TAB field = false ->
         path_of root (field +:+ String Py.TAB more) = Py.osp_join root field)
  /\ manifest_files Scenario.manifest
     = Ok (["/data/a.wav"; "/data/b.wav"], 2).
Proof.
  split; [| split; [| reflexivity]].
  - intros text.
    destruct (manifest_files_eq text) as (first & rest & Hs & Hm).
    exists first, rest. split; [| split; [| done]].
    + by rewrite <- Hs, PyFacts.join_split.
    + rewrite <- Hs. apply PyFacts.split_pieces.
  - intros root field more H. unfold path_of. by rewrite first_field.
Qed.

Lemma manifest_resolver_witness :
  Py.contains Py.TAB "a.wav" = false
  /\ path_of "/data" ("a.wav" +:+ String Py.TAB "foo") = "/data/a.wav"
  /\ exists (first : string) (rest : list string),
       Scenario.manifest = Py.join Py.LF (first :: rest)
       /\ Forall (fun l => Py.contains Py.LF l = false) (first :: rest)
       /\ manifest_files Scenario.manifest
          = Ok (map (path_of (Py.strip first)) (kept rest), length (kept rest)).
Proof.
  split; [reflexivity |].
  split; [exact (proj1 (proj2 manifest_resolver) "/data" "a.wav" "foo" eq_refl) |].
  exact (proj1 manifest_resolver Scenario.manifest).
Defined.

(** C9: a later line of the manifest that is not empty and holds no tab
    is not rejected: it gives the path made of the root joined with the
    whole line, at the line's place among the paths. *)
Theorem tabless_line_passes (first line : string) (before after : list string) :
  Forall (fun l => Py.contains Py.LF l = false)
         (first :: before ++ line :: after) ->
  Py.contains Py.TAB line = false ->
  0 < Py.len line ->
  Py.split Py.TAB line = [line]
  /\ manifest_files (Py.join Py.LF (first :: before ++ line :: after))
     = Ok (map (path_of (Py.strip first)) (kept before)
             ++ Py.osp_join (Py.strip first) line
             :: map (path_of (Py.strip first)) (kept after),
           length (kept before) + S (length (kept after))).
Proof.
  intros Hall Htab Hlen.
  assert (Hs : Py.split Py.TAB line = [line])
    by (by apply PyFacts.split_without).
  split; [exact Hs |].
  rewrite (manifest_files_lines _ _ Hall).
  unfold kept. rewrite filter_app, filter_cons_True by done.
  rewrite map_app, length_app. simpl. unfold path_of at 2. by rewrite Hs.
Qed.

Lemma tabless_line_passes_witness :
  Forall (fun l => Py.contains Py.LF l = false)
         ("/data" :: [Scenario.fields "a.wav" "foo"] ++ "b.wav" :: [EmptyString])
  /\ Py.contains Py.TAB "b.wav" = false
  /\ 0 < Py.len "b.wav"
  /\ manifest_files
       (Py.join Py.LF
          ("/data" :: [Scenario.fields "a.wav" "foo"] ++ "b.wav" :: [EmptyString]))
     = Ok (["/data/a.wav"; "/data/b.wav"], 2).
Proof.
  assert (H : Forall (fun l => Py.contains Py.LF l = false)
                ("/data" :: [Scenario.fields "a.wav" "foo"]
                   ++ "b.wav" :: [EmptyString]))
    by (repeat constructor).
  assert (Hlen : 0 < Py.len "b.wav") by (vm_compute; lia).
  split; [exact H |]. split; [reflexivity |]. split; [exact Hlen |].
  exact (proj2 (tabless_line_passes "/data" "b.wav"
                  [Scenario.fields "a.wav" "foo"] [EmptyString]
                  H eq_refl Hlen)).
Defined.

End Resolver.

(** ** Events and the state they leave *)

Section Traces.

Context {Row Wav : Type}.
Variable E : Collaborators Row Wav.
Implicit Types (l pre : list (event Row)) (fs : gmap string (file Row)).
Implicit Types (st : buffered (Row:=Row)) (p l_f npaa : string).

Lemma replay_app l1 l2 st : replay E (l1 ++ l2) st = replay E l2 (replay E l1 st).
Proof. unfold replay. apply fold_left_app. Qed.

Lemma replay_cons (e : event Row) l st :
  replay E (e :: l) st = replay E l (apply_event E e st).
Proof. reflexivity. Qed.

Lemma printed_app p l1 l2 : printed p (l1 ++ l2) = printed p l1 ++ printed p l2.
Proof.
  induction l1 as [|e l1 IH]; [done |].
  destruct e; simpl; try done. case_decide; simpl; by rewrite IH.
Qed.

Lemma appended_app p l1 l2 :
  appended p (l1 ++ l2) = appended p l1 ++ appended p l2.
Proof.
  induction l1 as [|e l1 IH]; [done |].
  destruct e; simpl; try done.
  case_decide; simpl; rewrite IH; [by rewrite <- List.app_assoc | done].
Qed.

Lemma produced_app l1 l2 : produced (l1 ++ l2) = produced l1 ++ produced l2.
Proof.
  induction l1 as [|e l1 IH]; [done |].
  destruct e; simpl; try done. by rewrite IH.
Qed.

Lemma blocks_app p l1 l2 : blocks p (l1 ++ l2) = blocks p l1 ++ blocks p l2.
Proof.
  induction l1 as [|e l1 IH]; [done |].
  destruct e; simpl; try done. case_decide; simpl; by rewrite IH.
Qed.

(** The rows appended are the rows of the blocks appended. *)
Lemma appended_blocks p l : appended p l = concat (blocks p l).
Proof.
  induction l as [|e l IH]; [done |].
  destruct e; simpl; try done. case_decide; simpl; by rewrite ?IH.
Qed.

Lemma setup_silent npaa p l :
  Forall (setup_event npaa) l ->
  printed p l = [] /\ appended p l = [] /\ produced l = [].
Proof.
  induction 1 as [|e l He _ IH]; [done |]. by destruct e.
Qed.

Lemma setup_no_blocks npaa p l : Forall (setup_event npaa) l -> blocks p l = [].
Proof.
  induction 1 as [|e l He _ IH]; [done |]. by destruct e.
Qed.

Lemma setup_faultless npaa l : Forall (setup_event npaa) l -> faultless l.
Proof.
  unfold faultless. induction 1 as [|e l He _ IH]; [done |].
  constructor; [by destruct e | done].
Qed.

Lemma rows_of_insert_text fs p q (s : string) :
  p <> q -> rows_of (<[q := Text s]> fs) p = rows_of fs p.
Proof. intros Hne. unfold rows_of. by rewrite lookup_insert_ne. Qed.

Lemma text_of_insert_npy fs p q (rows : list Row) :
  p <> q -> text_of (<[q := Npy rows]> fs) p = text_of fs p.
Proof. intros Hne. unfold text_of. by rewrite lookup_insert_ne. Qed.

Lemma rows_of_insert fs p (rows : list Row) :
  rows_of (<[p := Npy rows]> fs) p = rows.
Proof. unfold rows_of. by rewrite lookup_insert_eq. Qed.

Lemma text_of_insert fs p (s : string) :
  text_of (<[p := Text s]> fs) p = s.
Proof. unfold text_of. by rewrite lookup_insert_eq. Qed.

Lemma text_of_insert_ne fs p q (c : file Row) :
  p <> q -> text_of (<[q := c]> fs) p = text_of fs p.
Proof. intros Hne. unfold text_of. by rewrite lookup_insert_ne. Qed.

(** A [print] adds its line to the text written, whatever reaches the
    disk. *)
Lemma written_print l_f (n : nat) st :
  written (fs_of (print_len E l_f n st)) l_f
  = written st l_f +:+ Py.str_of_nat n +:+ String Py.LF EmptyString.
Proof.
  unfold written, print_len, fs_of. cbn [fst snd].
  rewrite text_of_insert, PyFacts.app_assoc, PyFacts.slice_app.
  by rewrite PyFacts.app_assoc.
Qed.

(** A [print] touches the lengths file only. *)
Lemma lookup_print l_f (n : nat) st p :
  l_f <> p -> (fs_of (print_len E l_f n st)).1 !! p = st.1 !! p.
Proof. intros Hne. unfold print_len, fs_of. cbn [fst snd]. by rewrite lookup_insert_ne. Qed.

(** The events of the loop leave every path but the lengths file and the
    array as it is. *)
Lemma replay_loop_frame l_f npaa p l st :
  Forall (loop_event l_f npaa) l ->
  l_f <> p -> npaa <> p ->
  (replay E l st).1 !! p = st.1 !! p.
Proof.
  intros Hall Hl Hn. revert st.
  induction Hall as [|e l He _ IH]; intros st; [done |].
  rewrite replay_cons, IH.
  destruct e; simpl in He; try done; subst.
  - by apply lookup_print.
  - simpl. by rewrite lookup_insert_ne.
  - simpl. destruct (append_wreck E _ _); [| done].
    simpl. by rewrite lookup_insert_ne.
Qed.

(** During the loop the text written to the lengths file is what was
    written before and the lines printed since. *)
Lemma written_replay_loop l_f npaa l st :
  l_f <> npaa ->
  Forall (loop_event l_f npaa) l ->
  written (replay E l st) l_f = written st l_f +:+ lengths_text (printed l_f l).
Proof.
  intros Hne Hall. revert st.
  induction Hall as [|e l He _ IH]; intros st.
  - simpl. by rewrite PyFacts.app_empty_r.
  - rewrite replay_cons, IH. destruct e; simpl in He; try done; subst.
    + simpl. rewrite decide_True by done.
      change (apply_event E (EvPrint l_f n) st) with (fs_of (print_len E l_f n st)).
      rewrite written_print. simpl. by rewrite !PyFacts.app_assoc.
    + simpl. unfold written. simpl.
      by rewrite text_of_insert_npy by congruence.
    + simpl. unfold written.
      destruct (append_wreck E _ _); [| done].
      simpl. by rewrite text_of_insert_ne by congruence.
Qed.

(** During the loop, while no append fails, the array holds what it held
    before and the rows appended since. *)
Lemma rows_of_replay_loop l_f npaa l st :
  l_f <> npaa ->
  Forall (loop_event l_f npaa) l ->
  faultless l ->
  rows_of (replay E l st).1 npaa = rows_of st.1 npaa ++ appended npaa l.
Proof.
  intros Hne Hall. revert st.
  induction Hall as [|e l He _ IH]; intros st Hf.
  - simpl. by rewrite List.app_nil_r.
  - apply Forall_cons in Hf as [He' Hf].
    rewrite replay_cons, IH by done.
    destruct e; simpl in He, He'; try done; subst.
    + simpl. by rewrite rows_of_insert_text by congruence.
    + simpl. rewrite decide_True by done.
      by rewrite rows_of_insert, <- List.app_assoc.
Qed.

(** The file of the array after events of the loop without a failed
    append: as it was when no block was appended, and otherwise what it
    held followed by the blocks. *)
Lemma replay_loop_npy l_f npaa l st :
  l_f <> npaa ->
  Forall (loop_event l_f npaa) l ->
  faultless l ->
  (replay E l st).1 !! npaa
  = match blocks npaa l with
    | [] => st.1 !! npaa
    | _ :: _ => Some (Npy (rows_of st.1 npaa ++ concat (blocks npaa l)))
    end.
Proof.
  intros Hne Hall. revert st.
  induction Hall as [|e l He _ IH]; intros st Hf; [done |].
  apply Forall_cons in Hf as [He' Hf].
  rewrite replay_cons, IH by done.
  destruct e; simpl in He, He'; try done; subst.
  - change (apply_event E (EvPrint l_f n) st)
      with (fs_of (print_len E l_f n st)).
    cbn [blocks]. unfold rows_of. by rewrite !lookup_print.
  - simpl. rewrite decide_True by done.
    rewrite rows_of_insert, lookup_insert_eq.
    destruct (blocks npaa l); simpl;
      by rewrite ?List.app_nil_r, <- ?List.app_assoc.
Qed.

(** The events of the setup leave the text held back as it is. *)
Lemma replay_setup_pending npaa l st :
  Forall (setup_event npaa) l -> (replay E l st).2 = st.2.
Proof.
  intros Hall. revert st.
  induction Hall as [|e l He _ IH]; intros st; [done |].
  rewrite replay_cons, IH. destruct e; simpl in He; try done.
  simpl. by destruct (st.1 !! src).
Qed.

Lemma prefix_snoc_inv {A} (xs ys : list A) (x : A) :
  xs `prefix_of` ys ++ [x] -> xs `prefix_of` ys \/ xs = ys ++ [x].
Proof.
  intros [k Hk]. destruct (decide (k = [])) as [-> | Hne].
  - right. by rewrite List.app_nil_r in Hk.
  - left. destruct (exists_last Hne) as [k' [y ->]].
    rewrite List.app_assoc in Hk. apply app_inj_tail in Hk as [-> _].
    by exists k'.
Qed.

Lemma prefix_app_split {A} (xs ys zs : list A) :
  xs `prefix_of` ys ++ zs ->
  xs `prefix_of` ys \/ exists xs2, xs = ys ++ xs2 /\ xs2 `prefix_of` zs.
Proof.
  revert xs. induction ys as [|y ys IH]; intros xs Hp.
  - right. by exists xs.
  - destruct xs as [|x xs]; [left; apply prefix_nil |].
    simpl in Hp. pose proof (prefix_cons_inv_1 _ _ _ _ Hp) as ->.
    apply prefix_cons_inv_2 in Hp. destruct (IH _ Hp) as [H | [xs2 [-> H]]].
    + left. by apply prefix_cons.
    + right. by exists xs2.
Qed.

Lemma prefix_is_take {A} (xs ys : list A) :
  xs `prefix_of` ys -> xs = take (length xs) ys.
Proof. intros [k ->]. by rewrite take_app_length. Qed.

Lemma Forall_prefix {A} (P : A -> Prop) (xs ys : list A) :
  xs `prefix_of` ys -> Forall P ys -> Forall P xs.
Proof. intros [k ->] H. by apply Forall_app in H as [? _]. Qed.

Lemma is_open_app p (cur : bool) l1 l2 :
  is_open p cur (l1 ++ l2) = is_open p (is_open p cur l1) l2.
Proof.
  revert cur. induction l1 as [|e l1 IH]; intros cur; [done |].
  destruct e; simpl; by rewrite IH.
Qed.



(** After the loop the array writer has a handle if it had one or a
    block was appended. *)
Lemma is_open_loop_npaa l_f npaa (cur : bool) l :
  Forall (loop_event l_f npaa) l ->
  is_open npaa cur l = match blocks npaa l with [] => cur | _ :: _ => true end.
Proof.
  intros Hall. revert cur.
  induction Hall as [|e l He _ IH]; intros cur; [done |].
  destruct e; simpl in *; try done. subst.
  rewrite !decide_True by done. rewrite IH. by destruct (blocks npaa l).
Qed.

End Traces.

(** ** Paths with different extensions *)

Module Paths.

Lemma length_app (a b : string) :
  String.length (a +:+ b) = String.length a + String.length b.
Proof.
  induction a as [|c a IH]; [done |].
  rewrite PyFacts.app_cons. simpl. by rewrite IH.
Qed.

(** Two paths with the same extension are equal only if they are equal
    before it. *)
Lemma app_cancel_r (a b e : string) : a +:+ e = b +:+ e -> a = b.
Proof.
  revert b. induction a as [|x a IH]; intros [|y b] H; [done | | |].
  - apply (f_equal String.length) in H.
    rewrite PyFacts.app_nil, length_app in H. simpl in H. lia.
  - apply (f_equal String.length) in H.
    rewrite PyFacts.app_nil, length_app in H. simpl in H. lia.
  - rewrite !PyFacts.app_cons in H. injection H as -> H.
    by rewrite (IH _ H).
Qed.

Ltac ext_ne :=
  apply PyFacts.ext_ne; [discriminate | discriminate | vm_compute; discriminate].

(** Lookups in a file system built by inserts and deletes at paths that
    differ by their extensions. *)
Ltac fs_lookup :=
  repeat first
    [ rewrite lookup_insert_eq
    | rewrite lookup_delete_eq
    | rewrite lookup_insert_ne by (first [done | ext_ne])
    | rewrite lookup_delete_ne by (first [done | ext_ne]) ].

(** An event that is not among the few events of a list. *)
Ltac not_in_events :=
  simpl; intros Hin;
  repeat (destruct Hin as [Hin | Hin]);
  try done;
  try (exfalso; injection Hin; intros _ Hpath; revert Hpath;
       apply PyFacts.ext_ne; [discriminate | discriminate | vm_compute; discriminate]).

(** The components of an outcome given as a triple. *)
Ltac outcome :=
  repeat match goal with
  | |- context [fs_of (?a, ?b, ?c)] => change (fs_of (a, b, c)) with a
  | |- context [log_of (?a, ?b, ?c)] => change (log_of (a, b, c)) with b
  | |- context [res_of (?a, ?b, ?c)] => change (res_of (a, b, c)) with c
  end.

Ltac outcome_in H :=
  repeat match type of H with
  | context [fs_of (?a, ?b, ?c)] => change (fs_of (a, b, c)) with a in H
  | context [log_of (?a, ?b, ?c)] => change (log_of (a, b, c)) with b in H
  | context [res_of (?a, ?b, ?c)] => change (res_of (a, b, c)) with c in H
  end.

Lemma lengths_ne_npy (args : Args) : lengths_path args <> npy_path args.
Proof. unfold lengths_path, npy_path. ext_ne. Qed.


End Paths.

(** ** The setup of a run: create_files and get_iterator *)

Section Setup.

Context {Row Wav : Type}.
Implicit Types (fs : gmap string (file Row)) (args : Args) (dest : string).

Lemma bind_eq {S A B} (m : act (Row:=Row) S A) (k : A -> act S B) (s : S) :
  bind m k s
  = match m s with
    | (s1, l1, Ok a) =>
        match k a s1 with
        | (s2, l2, r) => (s2, l1 ++ l2, r)
        end
    | (s1, l1, Raise e) => (s1, l1, Raise e)
    end.
Proof. reflexivity. Qed.

Lemma copyfile_eq (src dst : string) fs (c : file Row) :
  fs !! src = Some c -> src <> dst ->
  copyfile src dst fs = (<[dst := c]> fs, [EvCopy src dst], Ok tt).
Proof. intros H Hne. unfold copyfile. by rewrite H, decide_False. Qed.

(** [if osp.exists(src): copyfile(src, dst)] *)
Lemma copy_if_exists_eq (src dst : string) fs :
  src <> dst ->
  bind (osp_exists src)
       (fun has : bool => if has then copyfile src dst else ret tt) fs
  = match fs !! src with
    | Some w => (<[dst := w]> fs, [EvCopy src dst], Ok tt)
    | None => (fs, [], Ok tt)
    end.
Proof.
  intros Hne. rewrite bind_eq. unfold osp_exists.
  destruct (fs !! src) as [w|] eqn:H.
  - rewrite bool_decide_eq_true_2 by eauto.
    by rewrite (copyfile_eq _ _ _ _ H Hne).
  - by rewrite bool_decide_eq_false_2 by (by intros [? ?]).
Qed.

(** [if osp.exists(p): os.remove(p)] *)
Lemma remove_if_exists_eq (p : string) fs :
  bind (osp_exists p)
       (fun stale : bool => if stale then os_remove p else ret tt) fs
  = match fs !! p with
    | Some _ => (delete p fs, [EvRemove p], Ok tt)
    | None => (fs, [], Ok tt)
    end.
Proof.
  rewrite bind_eq. unfold osp_exists.
  destruct (fs !! p) as [w|] eqn:H.
  - rewrite bool_decide_eq_true_2 by eauto.
    unfold os_remove. by rewrite H.
  - by rewrite bool_decide_eq_false_2 by (by intros [? ?]).
Qed.

(** What [create_files] does, written out: the manifest is copied, then
    each label file the data directory holds, then a stale array is
    removed. *)
Lemma create_files_eq args dest fs :
  let src := Py.osp_join (data args) (split args) in
  create_files (Row:=Row) args dest fs
  = match fs !! (src +:+ ".tsv") with
    | None => (fs, [], Raise FileNotFoundError)
    | Some c =>
        if decide (src +:+ ".tsv" = dest +:+ ".tsv")
        then (fs, [], Raise SameFileError)
        else
          let fs1 := <[dest +:+ ".tsv" := c]> fs in
          let '(fs2, l2) :=
            match fs !! (src +:+ ".wrd") with
            | Some w => (<[dest +:+ ".wrd" := w]> fs1,
                         [EvCopy (src +:+ ".wrd") (dest +:+ ".wrd")])
            | None => (fs1, [])
            end in
          let '(fs3, l3) :=
            match fs !! (src +:+ ".phn") with
            | Some w => (<[dest +:+ ".phn" := w]> fs2,
                         [EvCopy (src +:+ ".phn") (dest +:+ ".phn")])
            | None => (fs2, [])
            end in
          let '(fs4, l4) :=
            match fs !! (dest +:+ ".npy") with
            | Some _ => (delete (dest +:+ ".npy") fs3,
                         [EvRemove (dest +:+ ".npy")])
            | None => (fs3, [])
            end in
          (fs4,
           EvCopy (src +:+ ".tsv") (dest +:+ ".tsv")
             :: l2 ++ l3 ++ l4 ++ [EvNpaa (dest +:+ ".npy")],
           Ok (dest +:+ ".npy"))
    end.
Proof.
  intros src. unfold create_files. fold src. rewrite bind_eq.
  unfold copyfile at 1.
  destruct (fs !! (src +:+ ".tsv")) as [c|] eqn:Htsv; [| done].
  destruct (decide (src +:+ ".tsv" = dest +:+ ".tsv")) as [Heq | Hne]; [done |].
  assert (Hsd : src <> dest) by (intros ->; done).
  rewrite bind_eq, copy_if_exists_eq
    by (intros H%Paths.app_cancel_r; done).
  rewrite (lookup_insert_ne fs (dest +:+ ".tsv") (src +:+ ".wrd"))
    by Paths.ext_ne.
  set (fs1 := <[dest +:+ ".tsv" := c]> fs).
  assert (Hphn : forall fs2,
    (fs2 = fs1 \/ exists w, fs2 = <[dest +:+ ".wrd" := w]> fs1) ->
    bind (bind (osp_exists (src +:+ ".phn"))
            (fun has : bool =>
               if has then copyfile (src +:+ ".phn") (dest +:+ ".phn")
               else ret tt))
      (fun _ =>
         bind (bind (osp_exists (dest +:+ ".npy"))
                 (fun stale : bool =>
                    if stale then os_remove (dest +:+ ".npy") else ret tt))
           (fun _ => NpyAppendArray (dest +:+ ".npy"))) fs2
    = (let '(fs3, l3) :=
         match fs !! (src +:+ ".phn") with
         | Some w => (<[dest +:+ ".phn" := w]> fs2,
                      [EvCopy (src +:+ ".phn") (dest +:+ ".phn")])
         | None => (fs2, [])
         end in
       let '(fs4, l4) :=
         match fs !! (dest +:+ ".npy") with
         | Some _ => (delete (dest +:+ ".npy") fs3,
                      [EvRemove (dest +:+ ".npy")])
         | None => (fs3, [])
         end in
       (fs4, l3 ++ l4 ++ [EvNpaa (dest +:+ ".npy")],
        Ok (dest +:+ ".npy")))).
  { intros fs2 Hfs2.
    assert (Hl : forall q, q <> dest +:+ ".tsv" -> q <> dest +:+ ".wrd" ->
                           fs2 !! q = fs !! q).
    { intros q Hq1 Hq2. destruct Hfs2 as [-> | [w ->]]; unfold fs1.
      - by rewrite lookup_insert_ne.
      - by rewrite !lookup_insert_ne. }
    rewrite bind_eq, copy_if_exists_eq
      by (intros H%Paths.app_cancel_r; done).
    rewrite (Hl (src +:+ ".phn")) by Paths.ext_ne.
    destruct (fs !! (src +:+ ".phn")) as [ph|] eqn:Hph.
    - rewrite bind_eq, remove_if_exists_eq.
      rewrite (lookup_insert_ne _ (dest +:+ ".phn") (dest +:+ ".npy"))
        by Paths.ext_ne.
      rewrite (Hl (dest +:+ ".npy")) by Paths.ext_ne.
      destruct (fs !! (dest +:+ ".npy")); done.
    - rewrite bind_eq, remove_if_exists_eq.
      rewrite (Hl (dest +:+ ".npy")) by Paths.ext_ne.
      destruct (fs !! (dest +:+ ".npy")); done. }
  destruct (fs !! (src +:+ ".wrd")) as [w|] eqn:Hwrd.
  - rewrite Hphn by eauto.
    destruct (fs !! (src +:+ ".phn")), (fs !! (dest +:+ ".npy")); done.
  - rewrite Hphn by eauto.
    destruct (fs !! (src +:+ ".phn")), (fs !! (dest +:+ ".npy")); done.
Qed.

(** The events of [create_files] are setup events, and when it returns
    normally no file is left at the path of the array while the manifest
    of the data directory is as it was. *)
Lemma create_files_facts args dest fs :
  let src := Py.osp_join (data args) (split args) in
  let o := create_files (Row:=Row) args dest fs in
  Forall (setup_event (dest +:+ ".npy")) (log_of o)
  /\ (forall npaa, res_of o = Ok npaa ->
        npaa = dest +:+ ".npy"
        /\ In (EvNpaa (dest +:+ ".npy")) (log_of o)
        /\ fs_of o !! (dest +:+ ".npy") = None
        /\ fs_of o !! (src +:+ ".tsv") = fs !! (src +:+ ".tsv")
        /\ (is_Some (fs !! (dest +:+ ".npy")) ->
            In (EvRemove (dest +:+ ".npy")) (log_of o))).
Proof.
  intros src o. subst o. rewrite create_files_eq. fold src.
  destruct (fs !! (src +:+ ".tsv")) as [c|] eqn:Hc; [| by repeat split].
  destruct (decide (src +:+ ".tsv" = dest +:+ ".tsv")) as [Heq | Hne];
    [by repeat split |].
  assert (Hne' : dest +:+ ".tsv" <> src +:+ ".tsv") by congruence.
  destruct (fs !! (src +:+ ".wrd")) as [w|] eqn:Hw;
    destruct (fs !! (src +:+ ".phn")) as [ph|] eqn:Hp;
    destruct (fs !! (dest +:+ ".npy")) as [old|] eqn:Hn;
    unfold log_of, fs_of, res_of; cbn [fst snd app];
    (split; [by repeat constructor |]);
    intros npaa [= <-];
    (split; [done |]);
    (split; [simpl; tauto |]);
    (split; [by Paths.fs_lookup |]);
    (split; [by Paths.fs_lookup |]);
    try (by intros [? ?]);
    intros _; simpl; tauto.
Qed.

(** The files after [create_files] are the files after its events; the
    text held back plays no part. *)
Lemma create_files_replay (E : Collaborators Row Wav) args dest fs (b : string) :
  let o := create_files (Row:=Row) args dest fs in
  replay E (log_of o) (fs, b) = (fs_of o, b).
Proof.
  intros o. subst o. rewrite create_files_eq. cbv zeta.
  set (src := Py.osp_join (data args) (split args)).
  destruct (fs !! (src +:+ ".tsv")) as [c|] eqn:Hc; [| done].
  destruct (decide (src +:+ ".tsv" = dest +:+ ".tsv")) as [Heq | Hne]; [done |].
  destruct (fs !! (src +:+ ".wrd")) as [w|] eqn:Hw;
    destruct (fs !! (src +:+ ".phn")) as [ph|] eqn:Hp;
    destruct (fs !! (dest +:+ ".npy")) as [old|] eqn:Hn;
    unfold log_of, fs_of; cbn [fst snd app];
    unfold replay; cbn [fold_left apply_event fst snd];
    rewrite ?Hc; cbn [fst snd]; Paths.fs_lookup; rewrite ?Hw;
    cbn [fst snd]; Paths.fs_lookup; by rewrite ?Hp.
Qed.

(** C6: [create_files] copies the manifest without asking whether it
    exists (a missing manifest aborts the run); when that copy is done it
    copies [<split>.wrd] and [<split>.phn] if and only if the data
    directory holds them, and it returns normally whether they are there
    or not. *)
Theorem label_files_copied args dest fs :
  let src := Py.osp_join (data args) (split args) in
  (fs !! (src +:+ ".tsv") = None ->
   create_files (Row:=Row) args dest fs = (fs, [], Raise FileNotFoundError))
  /\ (forall c,
        fs !! (src +:+ ".tsv") = Some c ->
        src +:+ ".tsv" <> dest +:+ ".tsv" ->
        exists fs' log,
          create_files args dest fs = (fs', log, Ok (dest +:+ ".npy"))
          /\ In (EvCopy (src +:+ ".tsv") (dest +:+ ".tsv")) log
          /\ fs' !! (dest +:+ ".tsv") = Some c
          /\ (In (EvCopy (src +:+ ".wrd") (dest +:+ ".wrd")) log
              <-> is_Some (fs !! (src +:+ ".wrd")))
          /\ fs' !! (dest +:+ ".wrd")
             = match fs !! (src +:+ ".wrd") with
               | Some w => Some w
               | None => fs !! (dest +:+ ".wrd")
               end
          /\ (In (EvCopy (src +:+ ".phn") (dest +:+ ".phn")) log
              <-> is_Some (fs !! (src +:+ ".phn")))
          /\ fs' !! (dest +:+ ".phn")
             = match fs !! (src +:+ ".phn") with
               | Some w => Some w
               | None => fs !! (dest +:+ ".phn")
               end).
Proof.
  intros src. split.
  - intros H. rewrite create_files_eq. fold src. by rewrite H.
  - intros c Hc Hne. rewrite create_files_eq. fold src.
    rewrite Hc, decide_False by done.
    destruct (fs !! (src +:+ ".wrd")) as [w|] eqn:Hw;
      destruct (fs !! (src +:+ ".phn")) as [ph|] eqn:Hp;
      destruct (fs !! (dest +:+ ".npy")) as [old|] eqn:Hn;
      eexists _, _; (split; [reflexivity |]);
      (split; [by left |]);
      (split; [by Paths.fs_lookup |]);
      (split; [split; [first [by eauto | Paths.not_in_events]
                      | first [by intros [? ?] | intros _; simpl; tauto]] |]);
      (split; [by Paths.fs_lookup |]);
      (split; [split; [first [by eauto | Paths.not_in_events]
                      | first [by intros [? ?] | intros _; simpl; tauto]] |]);
      by Paths.fs_lookup.
Qed.

(** [create_files] leaves every path but its four outputs as it is. *)
Lemma create_files_frame args (dest p : string) fs :
  dest +:+ ".tsv" <> p -> dest +:+ ".wrd" <> p ->
  dest +:+ ".phn" <> p -> dest +:+ ".npy" <> p ->
  fs_of (create_files args dest fs) !! p = fs !! p.
Proof.
  intros Ht Hw Hp Hn. rewrite create_files_eq.
  destruct (fs !! (_ +:+ ".tsv")) as [c|]; [| done].
  destruct (decide _); [done |].
  destruct (fs !! (_ +:+ ".wrd")), (fs !! (_ +:+ ".phn")),
    (fs !! (dest +:+ ".npy"));
    unfold fs_of; cbn [fst];
    rewrite ?lookup_delete_ne, ?lookup_insert_ne by done; done.
Qed.

(** The four outputs of [create_files] when the copy of the manifest
    succeeds. *)
Lemma create_files_outputs args (dest : string) fs (c : file Row) :
  let src := Py.osp_join (data args) (split args) in
  fs !! (src +:+ ".tsv") = Some c ->
  src +:+ ".tsv" <> dest +:+ ".tsv" ->
  let o := create_files args dest fs in
  res_of o = Ok (dest +:+ ".npy")
  /\ fs_of o !! (dest +:+ ".tsv") = Some c
  /\ fs_of o !! (dest +:+ ".wrd")
     = match fs !! (src +:+ ".wrd") with
       | Some w => Some w
       | None => fs !! (dest +:+ ".wrd")
       end
  /\ fs_of o !! (dest +:+ ".phn")
     = match fs !! (src +:+ ".phn") with
       | Some w => Some w
       | None => fs !! (dest +:+ ".phn")
       end
  /\ fs_of o !! (dest +:+ ".npy") = None.
Proof.
  intros src Hc Hne o. subst o. rewrite create_files_eq. fold src.
  rewrite Hc, decide_False by done.
  destruct (fs !! (src +:+ ".wrd")) as [w|] eqn:Hw;
    destruct (fs !! (src +:+ ".phn")) as [ph|] eqn:Hp;
    destruct (fs !! (dest +:+ ".npy")) as [old|] eqn:Hn;
    unfold fs_of, res_of; cbn [fst snd];
    (split; [done |]); repeat split; by Paths.fs_lookup.
Qed.

End Setup.

(** ** Segments of the array *)

Section Segments.

Context {Row : Type}.
Implicit Types (ms : list (list Row)) (lens : list nat).

Lemma concat_nonempty ms : concat (nonempty ms) = concat ms.
Proof.
  induction ms as [|m ms IH]; [done |]. unfold nonempty in *.
  destruct (decide (0 < length m)) as [Hm | Hm].
  - rewrite filter_cons_True by done. simpl. by rewrite IH.
  - rewrite filter_cons_False by done. rewrite IH.
    destruct m; [done | simpl in Hm; lia].
Qed.

Lemma length_concat_sum ms :
  length (concat ms) = sum_list (map length ms).
Proof.
  induction ms as [|m ms IH]; [done |].
  simpl. by rewrite length_app, IH.
Qed.

Lemma sum_list_nonzero lens :
  sum_list (filter (fun n => 0 < n) lens) = sum_list lens.
Proof.
  induction lens as [|n lens IH]; [done |].
  destruct (decide (0 < n)) as [Hn | Hn].
  - rewrite filter_cons_True by done. simpl. by rewrite IH.
  - rewrite filter_cons_False by done. rewrite IH. simpl. lia.
Qed.

(** Cutting the concatenation at the lengths gives the matrices back. *)
Lemma slices_concat ms : slices (map length ms) (concat ms) = ms.
Proof.
  induction ms as [|m ms IH]; [done |].
  simpl. by rewrite take_app_length, drop_app_length, IH.
Qed.

Lemma segments_present_cons (n : nat) lens (r : nat) :
  segments_present (n :: lens) (n + r) = S (segments_present lens r).
Proof.
  simpl. rewrite (proj2 (Nat.leb_le n (n + r))) by lia.
  by replace (n + r - n) with r by lia.
Qed.

Lemma level_cons (n : nat) lens (r : nat) :
  level_or_one_ahead lens r -> level_or_one_ahead (n :: lens) (n + r).
Proof.
  unfold level_or_one_ahead. rewrite segments_present_cons. simpl. lia.
Qed.

Lemma level_nil (r : nat) : level_or_one_ahead [] r.
Proof. by left. Qed.

Lemma level_one (n r : nat) : r = 0 \/ r = n -> level_or_one_ahead [n] r.
Proof.
  unfold level_or_one_ahead. simpl. intros [-> | ->].
  - destruct n; simpl; lia.
  - rewrite (proj2 (Nat.leb_le n n)) by lia. lia.
Qed.

Lemma consistent_intro (fs : gmap string (file Row)) (l_f npaa : string) ms :
  rows_of fs npaa = concat ms ->
  text_of fs l_f = lengths_text (map length ms) ->
  consistent fs l_f npaa ms.
Proof.
  intros Hrows Htext. split; [by rewrite concat_nonempty |].
  exists (map length ms). rewrite Htext, Hrows.
  split; [apply PyFacts.read_lengths_text |].
  split; [done |].
  split; [apply length_concat_sum |].
  split; [by rewrite sum_list_nonzero, length_concat_sum |].
  apply slices_concat.
Qed.

End Segments.

(** ** The writing loop *)

Section Loop.

Context {Row Wav : Type}.
Variable E : Collaborators Row Wav.
Variable reader : Reader Row Wav.
Implicit Types (st : buffered (Row:=Row)) (l_f npaa : string).
Implicit Types (m : list Row) (files : list string).

(** One pass through the body of the loop, written out. *)
Lemma body_eq l_f npaa m st :
  body E l_f npaa m st
  = let st1 := fs_of (print_len E l_f (length m) st) in
    if 0 <? length m then
      if append_fault E (rows_of st1.1 npaa) m
      then (apply_event E (EvFault npaa m) st1,
            [EvPrint l_f (length m); EvFault npaa m],
            Raise (ExternalError 0))
      else ((<[npaa := Npy (rows_of st1.1 npaa ++ m)]> st1.1, st1.2),
            [EvPrint l_f (length m); EvAppend npaa m], Ok tt)
    else (st1, [EvPrint l_f (length m)], Ok tt).
Proof.
  unfold body. rewrite bind_eq. cbv zeta.
  unfold print_len, fs_of. cbn [fst snd].
  destruct (0 <? length m); [| reflexivity].
  unfold on_files, npaa_append, apply_event. cbn [fst snd].
  destruct (append_fault E _ m); [| reflexivity].
  destruct (append_wreck E _ m); reflexivity.
Qed.

(** One iteration of the loop, written out. *)
Lemma loop_cons_eq l_f npaa (fname : string) files st :
  loop E reader l_f npaa (fname :: files) st
  = match get_feats E reader fname with
    | Raise e => (st, [], Raise e)
    | Ok m =>
        match body E l_f npaa m st with
        | (st1, l1, Ok _) =>
            match loop E reader l_f npaa files st1 with
            | (st2, l2, r) => (st2, EvFeats fname m :: l1 ++ l2, r)
            end
        | (st1, l1, Raise e) => (st1, EvFeats fname m :: l1, Raise e)
        end
    end.
Proof.
  simpl. rewrite bind_eq. unfold next_feats.
  destruct (get_feats E reader fname) as [m | e]; [| done].
  rewrite bind_eq.
  destruct (body E l_f npaa m st) as [[st1 l1] [[] | e]]; [| done].
  by destruct (loop E reader l_f npaa files st1) as [[st2 l2] r].
Qed.

(** The events of the body are events of the loop, and the state after
    it is the state after these events. *)
Lemma body_events l_f npaa m st :
  Forall (loop_event l_f npaa) (log_of (body E l_f npaa m st))
  /\ fs_of (body E l_f npaa m st) = replay E (log_of (body E l_f npaa m st)) st.
Proof.
  rewrite body_eq. cbv zeta.
  destruct (0 <? length m); [destruct (append_fault E _ m) |];
    split; by repeat constructor.
Qed.

Lemma loop_events l_f npaa files st :
  Forall (loop_event l_f npaa) (log_of (loop E reader l_f npaa files st))
  /\ fs_of (loop E reader l_f npaa files st)
     = replay E (log_of (loop E reader l_f npaa files st)) st.
Proof.
  revert st. induction files as [|fname files IH]; intros st; [done |].
  rewrite loop_cons_eq.
  destruct (get_feats E reader fname) as [m | e]; [| done].
  pose proof (body_events l_f npaa m st) as [Hb1 Hb2].
  destruct (body E l_f npaa m st) as [[st1 l1] [[] | e]];
    unfold log_of, fs_of in *; simpl in *.
  - pose proof (IH st1) as [H1 H2].
    destruct (loop E reader l_f npaa files st1) as [[st2 l2] r];
      unfold log_of, fs_of in *; simpl in *.
    split.
    + constructor; [done |]. by apply Forall_app.
    + change (st2 = replay E (l1 ++ l2) st). by rewrite replay_app, <- Hb2.
  - split; [by constructor | done].
Qed.

Lemma loop_app l_f npaa files1 files2 st :
  loop E reader l_f npaa (files1 ++ files2) st
  = match loop E reader l_f npaa files1 st with
    | (st1, l1, Ok _) =>
        match loop E reader l_f npaa files2 st1 with
        | (st2, l2, r) => (st2, l1 ++ l2, r)
        end
    | (st1, l1, Raise e) => (st1, l1, Raise e)
    end.
Proof.
  revert st. induction files1 as [|fname files1 IH]; intros st.
  - simpl. by destruct (loop E reader l_f npaa files2 st) as [[st2 l2] r].
  - rewrite <- List.app_comm_cons, !loop_cons_eq.
    destruct (get_feats E reader fname) as [m | e]; [| done].
    destruct (body E l_f npaa m st) as [[st1 l1] [[] | e]]; [| done].
    rewrite IH.
    destruct (loop E reader l_f npaa files1 st1) as [[st2 l2] [[] | e]]; [| done].
    destruct (loop E reader l_f npaa files2 st2) as [[st3 l3] r].
    by rewrite List.app_comm_cons, !List.app_assoc.
Qed.

(** The three ways the loop ends: every file is done; or [get_feats]
    raises at a file, the files before it being done; or the append of
    the last matrix produced fails, its length being printed.  A matrix
    was produced for each file of a prefix of the files, a length was
    printed for each matrix, and the blocks appended are the matrices
    with rows, but the last one when its append failed. *)
Lemma loop_outcome l_f npaa files st :
  l_f <> npaa ->
  let o := loop E reader l_f npaa files st in
  let ms := produced (log_of o) in
  Forall2 (fun fname m => get_feats E reader fname = Ok m)
    (take (length ms) files) ms
  /\ printed l_f (log_of o) = map length ms
  /\ ((res_of o = Ok tt
       /\ length ms = length files
       /\ faultless (log_of o)
       /\ blocks npaa (log_of o) = nonempty ms)
      \/ (exists fname e,
             files !! length ms = Some fname
             /\ get_feats E reader fname = Raise e
             /\ res_of o = Raise e
             /\ faultless (log_of o)
             /\ blocks npaa (log_of o) = nonempty ms)
      \/ (exists ms' m l',
             ms = ms' ++ [m]
             /\ 0 < length m
             /\ append_fault E (rows_of st.1 npaa ++ concat ms') m = true
             /\ res_of o = Raise (ExternalError 0)
             /\ log_of o = l' ++ [EvFault npaa m]
             /\ faultless l'
             /\ blocks npaa l' = nonempty ms')).
Proof.
  intros Hne. cbv zeta. revert st.
  induction files as [|fname files IH]; intros st.
  - simpl. split; [constructor |]. split; [done |]. left.
    by repeat split; try constructor.
  - rewrite loop_cons_eq.
    destruct (get_feats E reader fname) as [m | e] eqn:Hm.
    2:{ unfold log_of, res_of. simpl. split; [constructor |].
        split; [done |]. right. left. exists fname, e.
        by repeat split; try constructor. }
    rewrite body_eq. cbv zeta.
    set (st1 := fs_of (print_len E l_f (length m) st)).
    assert (Hrows : rows_of st1.1 npaa = rows_of st.1 npaa).
    { unfold rows_of, st1. by rewrite lookup_print. }
    destruct (0 <? length m) eqn:Hlen;
      [apply Nat.ltb_lt in Hlen;
       destruct (append_fault E (rows_of st1.1 npaa) m) eqn:Hfault |].
    + unfold log_of, res_of. cbn [fst snd produced printed length take].
      rewrite decide_True by done.
      split; [by repeat constructor |]. split; [done |].
      right. right.
      exists [], m, [EvFeats fname m; EvPrint l_f (length m)]. simpl.
      rewrite List.app_nil_r, <- Hrows.
      by repeat split; try (repeat constructor).
    + set (st2 := (<[npaa := Npy (rows_of st1.1 npaa ++ m)]> st1.1, st1.2)).
      assert (Hrows2 : rows_of st2.1 npaa = rows_of st.1 npaa ++ m)
        by (unfold st2; cbn [fst]; by rewrite rows_of_insert, Hrows).
      specialize (IH st2). rewrite Hrows2 in IH.
      destruct (loop E reader l_f npaa files st2) as [[st3 l3] r].
      unfold log_of, res_of in *. simpl in *.
      rewrite !decide_True by done.
      destruct IH as (Hall & Hpr & Hcases).
      split; [by constructor |]. split; [by rewrite Hpr |].
      unfold nonempty in *. rewrite filter_cons_True by done.
      destruct Hcases
        as [(-> & Hl & Hfl & Hb)
           | [(f & e & Hf & He & -> & Hfl & Hb)
             | (ms' & m' & l' & Hms & Hm' & Hft & -> & -> & Hfl & Hb)]].
      * left. repeat split; [by rewrite Hl | | by rewrite Hb].
        by repeat constructor.
      * right. left. exists f, e. repeat split; try done; [| by rewrite Hb].
        by repeat constructor.
      * right. right.
        exists (m :: ms'), m',
          (EvFeats fname m :: EvPrint l_f (length m) :: EvAppend npaa m :: l').
        rewrite Hms. simpl.
        rewrite decide_True by done.
        rewrite List.app_assoc, Hb, filter_cons_True by done.
        by repeat split; try (repeat constructor).
    + apply Nat.ltb_ge in Hlen.
      assert (Hnil : m = []) by (destruct m; [done | simpl in Hlen; lia]).
      specialize (IH st1). rewrite Hrows in IH.
      destruct (loop E reader l_f npaa files st1) as [[st3 l3] r].
      unfold log_of, res_of in *. simpl in *.
      rewrite !decide_True by done.
      destruct IH as (Hall & Hpr & Hcases).
      split; [by constructor |]. split; [by rewrite Hpr |].
      unfold nonempty in *. rewrite filter_cons_False by lia.
      destruct Hcases
        as [(-> & Hl & Hfl & Hb)
           | [(f & e & Hf & He & -> & Hfl & Hb)
             | (ms' & m' & l' & Hms & Hm' & Hft & -> & -> & Hfl & Hb)]].
      * left. repeat split; [by rewrite Hl | | done].
        by repeat constructor.
      * right. left. exists f, e. repeat split; try done.
        by repeat constructor.
      * right. right.
        exists (m :: ms'), m',
          (EvFeats fname m :: EvPrint l_f (length m) :: l').
        rewrite Hms. subst m. simpl.
        rewrite Hb, filter_cons_False by (simpl; lia).
        by repeat split; try (repeat constructor).
Qed.

(** One iteration leaves the lengths file level with the array or one
    line ahead of it, at each of its points, whether its append succeeds
    or not. *)
Lemma iteration_level l_f npaa (fname : string) m (last : event Row)
    (pre : list (event Row)) :
  last = EvAppend npaa m \/ last = EvFault npaa m ->
  pre `prefix_of` [EvFeats fname m; EvPrint l_f (length m); last] ->
  level_or_one_ahead (printed l_f pre) (length (appended npaa pre))
  /\ (0 < length m ->
      blocks_level_or_one_ahead (printed l_f pre) (length (blocks npaa pre))).
Proof.
  intros Hlast Hp. rewrite (prefix_is_take _ _ Hp).
  unfold blocks_level_or_one_ahead.
  destruct (length pre) as [|[|[|k]]]; simpl.
  - split; [apply level_nil | by left].
  - split; [apply level_nil | by left].
  - rewrite decide_True by done. split; [apply level_one; by left |].
    intros Hm. rewrite filter_cons_True by done. by right.
  - rewrite decide_True by done.
    destruct Hlast as [-> | ->]; simpl; rewrite take_nil; simpl.
    + rewrite !decide_True by done. split.
      * apply level_one. right. by rewrite List.app_nil_r.
      * intros Hm. rewrite filter_cons_True by done. by left.
    + split; [apply level_one; by left |].
      intros Hm. rewrite filter_cons_True by done. by right.
Qed.

(** At every point of the loop the lines printed are level with the
    rows appended or one line ahead of them, and the lines of matrices
    with rows are level with the blocks appended or one ahead. *)
Lemma loop_level l_f npaa files st (pre : list (event Row)) :
  pre `prefix_of` log_of (loop E reader l_f npaa files st) ->
  level_or_one_ahead (printed l_f pre) (length (appended npaa pre))
  /\ blocks_level_or_one_ahead (printed l_f pre) (length (blocks npaa pre)).
Proof.
  revert st pre. induction files as [|fname files IH]; intros st pre.
  - simpl. intros ->%prefix_nil_inv. split; [apply level_nil | by left].
  - rewrite loop_cons_eq.
    destruct (get_feats E reader fname) as [m | e];
      [| intros ->%prefix_nil_inv; split; [apply level_nil | by left]].
    rewrite body_eq. cbv zeta.
    set (st1 := fs_of (print_len E l_f (length m) st)).
    destruct (0 <? length m) eqn:Hlen;
      [apply Nat.ltb_lt in Hlen;
       destruct (append_fault E (rows_of st1.1 npaa) m) |].
    + unfold log_of. cbn [fst snd]. intros Hp.
      destruct (iteration_level l_f npaa fname m (EvFault npaa m) pre) as [H1 H2];
        [by right | done |]. split; [done | by apply H2].
    + set (st2 := (<[npaa := _]> st1.1, st1.2)).
      specialize (IH st2).
      destruct (loop E reader l_f npaa files st2) as [[st3 l2] r].
      unfold log_of in *. cbn [fst snd] in *. intros Hp.
      change (EvFeats fname m :: [EvPrint l_f (length m); EvAppend npaa m] ++ l2)
        with ([EvFeats fname m; EvPrint l_f (length m); EvAppend npaa m] ++ l2)
        in Hp.
      apply prefix_app_split in Hp as [Hp | [pre2 [-> Hp]]].
      { destruct (iteration_level l_f npaa fname m (EvAppend npaa m) pre)
          as [H1 H2]; [by left | done |]. split; [done | by apply H2]. }
      destruct (IH _ Hp) as [IH1 IH2].
      simpl. rewrite !decide_True by done. split.
      * rewrite length_app. by apply level_cons.
      * unfold blocks_level_or_one_ahead in *.
        rewrite filter_cons_True by done. simpl.
        destruct IH2 as [H | H]; rewrite H; auto.
    + specialize (IH st1).
      destruct (loop E reader l_f npaa files st1) as [[st3 l2] r].
      unfold log_of in *. cbn [fst snd] in *. intros Hp.
      apply Nat.ltb_ge in Hlen.
      assert (Hm : length m = 0) by lia.
      change (EvFeats fname m :: [EvPrint l_f (length m)] ++ l2)
        with ([EvFeats fname m; EvPrint l_f (length m)] ++ l2) in Hp.
      apply prefix_app_split in Hp as [Hp | [pre2 [-> Hp]]].
      * destruct (iteration_level l_f npaa fname m (EvAppend npaa m) pre)
          as [H1 _]; [by left | |].
        { etrans; [exact Hp |]. by exists [EvAppend npaa m]. }
        split; [done |]. unfold blocks_level_or_one_ahead.
        rewrite (prefix_is_take _ _ Hp).
        destruct (length pre) as [|[|k]]; simpl; [by left | by left |].
        rewrite take_nil. simpl. rewrite decide_True by done.
        rewrite filter_cons_False by lia. by left.
      * destruct (IH _ Hp) as [IH1 IH2].
        simpl. rewrite !decide_True by done. split.
        -- rewrite Hm. by apply (level_cons 0).
        -- unfold blocks_level_or_one_ahead in *.
           by rewrite filter_cons_False by lia.
Qed.

(** In the loop an append, whether it succeeds or fails, comes right
    after the length of its block has been printed. *)
Lemma loop_print_first l_f npaa files st (pre post : list (event Row))
    (last : event Row) (q : string) m :
  last = EvAppend q m \/ last = EvFault q m ->
  log_of (loop E reader l_f npaa files st) = pre ++ last :: post ->
  exists pre', pre = pre' ++ [EvPrint l_f (length m)].
Proof.
  intros Hlast. revert st pre.
  induction files as [|fname files IH]; intros st pre.
  - simpl. by destruct pre.
  - rewrite loop_cons_eq.
    destruct (get_feats E reader fname) as [m0 | e]; [| by destruct pre].
    rewrite body_eq. cbv zeta.
    set (st1 := fs_of (print_len E l_f (length m0) st)).
    destruct (0 <? length m0);
      [destruct (append_fault E (rows_of st1.1 npaa) m0) |].
    + unfold log_of. cbn [fst snd]. intros H.
      destruct pre as [|e0 [|e1 [|e2 pre]]];
        destruct Hlast as [-> | ->]; simplify_eq/=.
      * by exists [EvFeats fname m].
      * by destruct pre.
      * by destruct pre.
    + set (st2 := (<[npaa := _]> st1.1, st1.2)).
      specialize (IH st2).
      destruct (loop E reader l_f npaa files st2) as [[st3 l2] r].
      unfold log_of in *. cbn [fst snd] in *. intros H.
      destruct pre as [|e0 [|e1 [|e2 pre]]];
        destruct Hlast as [-> | ->]; simplify_eq/=.
      * by exists [EvFeats fname m].
      * destruct (IH _ eq_refl) as [pre' ->].
        by exists (EvFeats fname m0 :: EvPrint l_f (length m0)
                    :: EvAppend npaa m0 :: pre').
      * destruct (IH _ eq_refl) as [pre' ->].
        by exists (EvFeats fname m0 :: EvPrint l_f (length m0)
                    :: EvAppend npaa m0 :: pre').
    + specialize (IH st1).
      destruct (loop E reader l_f npaa files st1) as [[st3 l2] r].
      unfold log_of in *. cbn [fst snd] in *. intros H.
      destruct pre as [|e0 [|e1 pre]];
        destruct Hlast as [-> | ->]; simplify_eq/=.
      * destruct (IH _ eq_refl) as [pre' ->].
        by exists (EvFeats fname m0 :: EvPrint l_f (length m0) :: pre').
      * destruct (IH _ eq_refl) as [pre' ->].
        by exists (EvFeats fname m0 :: EvPrint l_f (length m0) :: pre').
Qed.

(** What the loop does and how it ends depend on the state only through
    the rows of the array. *)
Lemma loop_depends l_f npaa files stA stB :
  l_f <> npaa ->
  rows_of stA.1 npaa = rows_of stB.1 npaa ->
  log_of (loop E reader l_f npaa files stA)
  = log_of (loop E reader l_f npaa files stB)
  /\ res_of (loop E reader l_f npaa files stA)
     = res_of (loop E reader l_f npaa files stB).
Proof.
  intros Hne. revert stA stB.
  induction files as [|fname files IH]; intros stA stB Hrows; [done |].
  rewrite !loop_cons_eq.
  destruct (get_feats E reader fname) as [m | e]; [| done].
  rewrite !body_eq. cbv zeta.
  set (stA1 := fs_of (print_len E l_f (length m) stA)).
  set (stB1 := fs_of (print_len E l_f (length m) stB)).
  assert (HA : rows_of stA1.1 npaa = rows_of stA.1 npaa)
    by (unfold rows_of, stA1; by rewrite lookup_print).
  assert (HB : rows_of stB1.1 npaa = rows_of stB.1 npaa)
    by (unfold rows_of, stB1; by rewrite lookup_print).
  rewrite HA, HB, <- Hrows.
  destruct (0 <? length m);
    [destruct (append_fault E (rows_of stA.1 npaa) m); [done |] |].
  - specialize (IH (<[npaa := Npy (rows_of stA.1 npaa ++ m)]> stA1.1, stA1.2)
                   (<[npaa := Npy (rows_of stA.1 npaa ++ m)]> stB1.1, stB1.2)).
    cbn [fst] in IH. rewrite !rows_of_insert in IH.
    destruct (IH eq_refl) as [Hl Hr].
    destruct (loop E reader l_f npaa files
                (<[npaa := Npy (rows_of stA.1 npaa ++ m)]> stA1.1, stA1.2))
      as [[? ?] ?].
    destruct (loop E reader l_f npaa files
                (<[npaa := Npy (rows_of stA.1 npaa ++ m)]> stB1.1, stB1.2))
      as [[? ?] ?].
    unfold log_of, res_of in *. simpl in *. by subst.
  - specialize (IH stA1 stB1). rewrite HA, HB in IH.
    destruct (IH Hrows) as [Hl Hr].
    destruct (loop E reader l_f npaa files stA1) as [[? ?] ?].
    destruct (loop E reader l_f npaa files stB1) as [[? ?] ?].
    unfold log_of, res_of in *. simpl in *. by subst.
Qed.

End Loop.

(** ** A whole run *)

Section Main.

Context {Row Wav : Type}.
Variable E : Collaborators Row Wav.
Implicit Types (fs : gmap string (file Row)) (args : Args).
Implicit Types (st : buffered (Row:=Row)).

Lemma get_iterator_eq args fs :
  get_iterator E args fs
  = match fs !! tsv_path args with
    | None => (fs, [], Raise FileNotFoundError)
    | Some (Npy _) => (fs, [], Raise UnicodeDecodeError)
    | Some (Text t) =>
        match manifest_files t with
        | Raise e => (fs, [], Raise e)
        | Ok (files, num) =>
            match Wav2VecFeatureReader E (checkpoint args) (layer args) with
            | Raise e => (fs, [], Raise e)
            | Ok reader => (fs, [], Ok (reader, files, num))
            end
        end
    end.
Proof.
  unfold get_iterator, tsv_path. rewrite bind_eq. unfold read_text.
  destruct (fs !! _) as [[t | rows] |]; [| done | done].
  rewrite bind_eq. unfold lift at 1.
  destruct (manifest_files t) as [[files num] | e]; [| done].
  rewrite bind_eq. unfold lift, ret.
  by destruct (Wav2VecFeatureReader E _ _) as [reader | e].
Qed.

(** The events that end a run hold no text back if none was. *)
Lemma replay_end_pending l_f npaa (tail : list (event Row)) st :
  Forall (end_event l_f npaa) tail ->
  st.2 = EmptyString -> (replay E tail st).2 = EmptyString.
Proof.
  intros Hall. revert st.
  induction Hall as [|e tail He _ IH]; intros st Hst; [done |].
  rewrite replay_cons. apply IH. by destruct He as [-> | ->].
Qed.

(** The events that end a run leave the text written to the lengths
    file, the array and every other file as they are; once the lengths
    file is closed nothing is held back. *)
Lemma replay_end l_f npaa (tail : list (event Row)) st :
  l_f <> npaa ->
  Forall (end_event l_f npaa) tail ->
  written (replay E tail st) l_f = written st l_f
  /\ (forall p, l_f <> p -> (replay E tail st).1 !! p = st.1 !! p)
  /\ (In (EvClose l_f) tail -> (replay E tail st).2 = EmptyString)
  /\ printed l_f tail = [] /\ appended npaa tail = [] /\ blocks npaa tail = []
  /\ produced tail = [] /\ faultless tail.
Proof.
  intros Hne Hall. revert st.
  induction Hall as [|e tail He Hall IH]; intros st.
  - repeat split; try done. constructor.
  - rewrite replay_cons.
    destruct (IH (apply_event E e st)) as (H1 & H2 & H3 & H4 & H5 & H6 & H7 & H8).
    destruct He as [-> | ->].
    + change (apply_event E (EvClose l_f) st) with (close l_f st, EmptyString) in *.
      split.
      { rewrite H1. unfold written, close. cbn [fst snd].
        by rewrite text_of_insert, PyFacts.app_empty_r. }
      split.
      { intros p Hp. rewrite H2 by done. unfold close. cbn [fst].
        by rewrite lookup_insert_ne. }
      split; [intros _; by apply (replay_end_pending l_f npaa) |].
      cbn [printed appended blocks produced].
      repeat split; try done. by constructor.
    + change (apply_event E (EvDel npaa) st) with st in *.
      split; [done |]. split; [done |].
      split; [by intros [Hin | Hin]; [discriminate Hin | apply H3] |].
      cbn [printed appended blocks produced].
      repeat split; try done. by constructor.
Qed.

(** A whole run, written out. *)
Lemma main_unfolded args fs :
  let dest := Py.osp_join (save_dir args) (split args) in
  main E args fs
  = match fs !! tsv_path args with
    | None => (fs, [], Raise FileNotFoundError)
    | Some c =>
        if decide (tsv_path args = dest +:+ ".tsv")
        then (fs, [], Raise SameFileError)
        else
          let o1 := create_files args dest fs in
          match c with
          | Npy _ => (fs_of o1, log_of o1, Raise UnicodeDecodeError)
          | Text t =>
              match manifest_files t with
              | Raise e => (fs_of o1, log_of o1, Raise e)
              | Ok (files, _) =>
                  match Wav2VecFeatureReader E (checkpoint args) (layer args) with
                  | Raise e => (fs_of o1, log_of o1, Raise e)
                  | Ok reader =>
                      match loop E reader (lengths_path args) (npy_path args) files
                              (open_w (lengths_path args) (fs_of o1))
                      with
                      | (st3, l3, r) =>
                          (close (lengths_path args) st3,
                           log_of o1 ++ EvOpen (lengths_path args)
                             :: l3 ++ EvClose (lengths_path args)
                             :: match blocks (npy_path args) l3 with
                                | [] => []
                                | _ :: _ => [EvDel (npy_path args)]
                                end,
                           r)
                      end
                  end
              end
          end
    end.
Proof.
  intros dest. unfold main. cbv zeta. fold dest. rewrite bind_eq.
  unfold tsv_path.
  pose proof (create_files_eq (Row:=Row) args dest fs) as Hcf. cbv zeta in Hcf.
  destruct (fs !! _) as [c|] eqn:Hc; [| by rewrite Hcf].
  destruct (decide _) as [Heq | Hne]; [by rewrite Hcf |]. clear Hcf.
  pose proof (create_files_outputs args dest fs c Hc Hne) as (Hres & _).
  pose proof (create_files_facts (Row:=Row) args dest fs) as (Hset & Hok).
  cbv zeta in Hres, Hset, Hok.
  destruct (create_files args dest fs) as [[fs1 l1] r1].
  unfold fs_of, log_of, res_of in *. cbn [fst snd] in *. subst r1.
  destruct (Hok _ eq_refl) as (_ & _ & _ & Hsrc & _).
  unfold released. rewrite bind_eq, get_iterator_eq. unfold tsv_path.
  rewrite Hsrc, Hc.
  destruct c as [t | rows]; [| by rewrite List.app_nil_r].
  destruct (manifest_files t) as [[files num] | e];
    [| by rewrite List.app_nil_r].
  destruct (Wav2VecFeatureReader E _ _) as [reader | e];
    [| by rewrite List.app_nil_r].
  unfold with_open_w.
  change (dest +:+ ".lengths") with (lengths_path args).
  change (dest +:+ ".npy") with (npy_path args).
  pose proof (loop_events E reader (lengths_path args) (npy_path args) files
                (open_w (lengths_path args) fs1)) as [Hev _].
  destruct (loop E reader _ _ files _) as [[st3 l3] r].
  unfold log_of in Hev. cbn [fst snd] in Hev.
  cbn [app]. f_equal. f_equal.
  assert (Hopen : is_open (npy_path args) false
                    (EvOpen (lengths_path args)
                       :: l3 ++ [EvClose (lengths_path args)])
                  = match blocks (npy_path args) l3 with
                    | [] => false
                    | _ :: _ => true
                    end).
  { cbn [is_open]. rewrite decide_False by apply Paths.lengths_ne_npy.
    rewrite is_open_app, (is_open_loop_npaa _ _ _ _ Hev). cbn [is_open].
    by rewrite decide_False by apply Paths.lengths_ne_npy. }
  rewrite Hopen. destruct (blocks (npy_path args) l3); [done |].
  by rewrite <- List.app_assoc.
Qed.

Lemma npy_file_of_blocks (ms : list (list Row)) :
  match nonempty ms with
  | [] => None
  | _ :: _ => Some (Npy (concat (nonempty ms)))
  end = npy_file_of ms.
Proof. unfold npy_file_of. by rewrite concat_nonempty. Qed.

(** How the loop ends and what it leaves, when it starts without an
    array: the text written to the lengths file has a line for each
    matrix produced, the other files are as they were, and the array is
    made of the matrices produced, or is what the failed append of the
    last one has left. *)
Lemma loop_ends reader (l_f npaa : string) (files : list string) st :
  l_f <> npaa ->
  st.1 !! npaa = None ->
  let o := loop E reader l_f npaa files st in
  let ms := produced (log_of o) in
  Forall2 (fun fname m => get_feats E reader fname = Ok m)
    (take (length ms) files) ms
  /\ printed l_f (log_of o) = map length ms
  /\ written (fs_of o) l_f = written st l_f +:+ lengths_text (map length ms)
  /\ (forall p, l_f <> p -> npaa <> p -> (fs_of o).1 !! p = st.1 !! p)
  /\ ((res_of o = Ok tt
       /\ length ms = length files
       /\ faultless (log_of o)
       /\ blocks npaa (log_of o) = nonempty ms
       /\ (fs_of o).1 !! npaa = npy_file_of ms)
      \/ (exists fname e,
             files !! length ms = Some fname
             /\ get_feats E reader fname = Raise e
             /\ res_of o = Raise e
             /\ faultless (log_of o)
             /\ blocks npaa (log_of o) = nonempty ms
             /\ (fs_of o).1 !! npaa = npy_file_of ms)
      \/ (exists ms' m,
             ms = ms' ++ [m]
             /\ 0 < length m
             /\ append_fault E (concat ms') m = true
             /\ res_of o = Raise (ExternalError 0)
             /\ last (log_of o) = Some (EvFault npaa m)
             /\ blocks npaa (log_of o) = nonempty ms'
             /\ (fs_of o).1 !! npaa
                = match append_wreck E (concat ms') m with
                  | Some f => Some f
                  | None => npy_file_of ms'
                  end)).
Proof.
  intros Hne Hnone o ms. subst o ms.
  pose proof (loop_outcome E reader l_f npaa files st Hne) as (Hall & Hpr & Hcases).
  pose proof (loop_events E reader l_f npaa files st) as [Hev Hst].
  assert (Hrows : rows_of st.1 npaa = []) by (unfold rows_of; by rewrite Hnone).
  rewrite Hrows in Hcases. cbn [app] in Hcases.
  split; [done |]. split; [done |].
  split; [by rewrite Hst, (written_replay_loop E l_f npaa) by done; rewrite Hpr |].
  split; [intros p Hp1 Hp2; rewrite Hst; by apply (replay_loop_frame E l_f npaa) |].
  assert (Hnpy : forall l : list (event Row),
             Forall (loop_event l_f npaa) l -> faultless l ->
             forall bs, blocks npaa l = nonempty bs ->
             (replay E l st).1 !! npaa = npy_file_of bs
             /\ rows_of (replay E l st).1 npaa = concat bs).
  { intros l Hl Hf bs Hb. split.
    - rewrite (replay_loop_npy E l_f npaa) by done.
      rewrite Hnone, Hrows, Hb. cbn [app]. apply npy_file_of_blocks.
    - rewrite (rows_of_replay_loop E l_f npaa) by done.
      by rewrite Hrows, appended_blocks, Hb, concat_nonempty. }
  destruct Hcases
    as [(Hr & Hl & Hfl & Hb)
       | [(f & e & Hf & He & Hr & Hfl & Hb)
         | (ms' & m & l' & Hms & Hm & Hft & Hr & Hlog & Hfl & Hb)]].
  - left. repeat split; try done. rewrite Hst. by apply Hnpy.
  - right. left. exists f, e. repeat split; try done. rewrite Hst. by apply Hnpy.
  - right. right. exists ms', m.
    rewrite Hlog in Hev, Hst, Hms |- *.
    apply Forall_app in Hev as [Hev' _].
    destruct (Hnpy l' Hev' Hfl ms' Hb) as [Hlook Hrw].
    split; [done |]. split; [done |]. split; [done |]. split; [done |].
    split; [apply last_snoc |].
    split; [by rewrite blocks_app, Hb, List.app_nil_r |].
    rewrite Hst, replay_app. cbn [replay fold_left apply_event].
    rewrite Hrw. destruct (append_wreck E (concat ms') m); [| done].
    cbn [fst]. by rewrite lookup_insert_eq.
Qed.

(** The two ways a run goes: it stops before the lengths file is
    opened, with the files and the events of [create_files], or it
    reaches the loop. *)
Lemma main_cases args fs :
  let dest := Py.osp_join (save_dir args) (split args) in
  let o1 := create_files (Row:=Row) args dest fs in
  (exists e, main E args fs = (fs_of o1, log_of o1, Raise e))
  \/ (exists (t : string) reader (files : list string) st3 l3 r,
        fs !! tsv_path args = Some (Text t)
        /\ tsv_path args <> dest +:+ ".tsv"
        /\ manifest_files t = Ok (files, length files)
        /\ Wav2VecFeatureReader E (checkpoint args) (layer args) = Ok reader
        /\ loop E reader (lengths_path args) (npy_path args) files
             (open_w (lengths_path args) (fs_of o1))
           = (st3, l3, r)
        /\ main E args fs
           = (close (lengths_path args) st3,
              log_of o1 ++ EvOpen (lengths_path args)
                :: l3 ++ EvClose (lengths_path args)
                :: match blocks (npy_path args) l3 with
                   | [] => []
                   | _ :: _ => [EvDel (npy_path args)]
                   end,
              r)).
Proof.
  intros dest o1. subst o1.
  pose proof (main_unfolded args fs) as Hu. cbv zeta in Hu. fold dest in Hu.
  pose proof (create_files_eq (Row:=Row) args dest fs) as Hcf. cbv zeta in Hcf.
  unfold tsv_path in *.
  destruct (fs !! _) as [c|] eqn:Hc;
    [| left; exists FileNotFoundError; by rewrite Hu, Hcf].
  destruct (decide _) as [Heq | Hne];
    [left; exists SameFileError; by rewrite Hu, Hcf |].
  clear Hcf. rewrite Hu.
  destruct c as [t | rows]; [| left; by eauto].
  destruct (manifest_files_eq t) as (first & rest & _ & Hm). rewrite Hm.
  destruct (Wav2VecFeatureReader E _ _) as [reader | e] eqn:Hrd;
    [| left; by eauto].
  destruct (loop E reader _ _ _ _) as [[st3 l3] r] eqn:Hloop.
  right.
  exists t, reader, (map (path_of (Py.strip first)) (kept rest)), st3, l3, r.
  rewrite length_map. by repeat split.
Qed.

(** The events of a run that stops before the lengths file is opened and
    the first events of a run that reaches the loop are those of
    [create_files]. *)
Lemma setup_log args fs :
  let dest := Py.osp_join (save_dir args) (split args) in
  let o1 := create_files (Row:=Row) args dest fs in
  Forall (setup_event (npy_path args)) (log_of o1)
  /\ forall b : string, replay E (log_of o1) (fs, b) = (fs_of o1, b).
Proof.
  intros dest o1. split.
  - by pose proof (create_files_facts (Row:=Row) args dest fs) as (H & _).
  - intros b. apply create_files_replay.
Qed.

(** A run that has opened the lengths file has reached the loop; the
    loop starts on an empty lengths file and no array; the run ends as
    the loop does, and it leaves the files the loop leaves, the text
    held back being written out. *)
Lemma main_run args fs :
  In (EvOpen (lengths_path args)) (log_of (main E args fs)) ->
  let dest := Py.osp_join (save_dir args) (split args) in
  let o1 := create_files (Row:=Row) args dest fs in
  exists (t : string) reader (files : list string),
    fs !! tsv_path args = Some (Text t)
    /\ tsv_path args <> dest +:+ ".tsv"
    /\ manifest_files t = Ok (files, length files)
    /\ Wav2VecFeatureReader E (checkpoint args) (layer args) = Ok reader
    /\ fs_of o1 !! npy_path args = None
    /\ let o := loop E reader (lengths_path args) (npy_path args) files
                  (open_w (lengths_path args) (fs_of o1)) in
       res_of (main E args fs) = res_of o
       /\ log_of (main E args fs)
          = log_of o1 ++ EvOpen (lengths_path args)
              :: log_of o ++ EvClose (lengths_path args)
              :: match blocks (npy_path args) (log_of o) with
                 | [] => []
                 | _ :: _ => [EvDel (npy_path args)]
                 end
       /\ produced (log_of (main E args fs)) = produced (log_of o)
       /\ printed (lengths_path args) (log_of (main E args fs))
          = printed (lengths_path args) (log_of o)
       /\ blocks (npy_path args) (log_of (main E args fs))
          = blocks (npy_path args) (log_of o)
       /\ fs_of (main E args fs) !! lengths_path args
          = Some (Text (lengths_text (printed (lengths_path args) (log_of o))))
       /\ (forall p, lengths_path args <> p ->
             fs_of (main E args fs) !! p = (fs_of o).1 !! p).
Proof.
  intros Hopen dest o1.
  destruct (setup_log args fs) as [Hset _]. fold dest o1 in Hset.
  destruct (main_cases args fs)
    as [(e & H)
       | (t & reader & files & st3 & l3 & r & Ht & Hne & Hm & Hrd & Hloop & H)];
    fold dest o1 in H; rewrite H in Hopen |- *.
  { exfalso. unfold log_of at 1 in Hopen. cbn [fst snd] in Hopen.
    rewrite Forall_forall in Hset.
    by apply list_elem_of_In, Hset in Hopen. }
  fold dest o1 in Hloop.
  exists t, reader, files.
  pose proof (create_files_outputs args dest fs _ Ht Hne) as (_ & _ & _ & _ & Hnone).
  fold o1 in Hnone.
  split; [done |]. split; [done |]. split; [done |]. split; [done |].
  split; [done |].
  rewrite Hloop. cbv zeta. Paths.outcome.
  pose proof (Paths.lengths_ne_npy args) as Hln.
  pose proof (loop_ends reader _ _ files (open_w (lengths_path args) (fs_of o1))
                Hln) as Hends.
  cbv zeta in Hends. rewrite Hloop in Hends.
  unfold log_of, fs_of in Hends. cbn [fst snd] in Hends.
  destruct Hends as (_ & Hpr & Hw & _).
  { unfold open_w. cbn [fst]. by rewrite lookup_insert_ne. }
  set (tail := match blocks (npy_path args) l3 with
               | [] => []
               | _ :: _ => [EvDel (npy_path args)]
               end).
  assert (Htail : printed (lengths_path args) tail = []
                  /\ produced tail = [] /\ blocks (npy_path args) tail = [])
    by (unfold tail; by destruct (blocks (npy_path args) l3)).
  destruct Htail as (Ht1 & Ht2 & Ht3).
  destruct (setup_silent _ (lengths_path args) _ Hset) as (Hs1 & _ & Hs2).
  pose proof (setup_no_blocks _ (npy_path args) _ Hset) as Hs3.
  split; [done |]. split; [done |].
  split.
  { rewrite produced_app, Hs2. cbn [app produced].
    rewrite produced_app. cbn [produced]. by rewrite Ht2, List.app_nil_r. }
  split.
  { rewrite printed_app, Hs1. cbn [app printed].
    rewrite printed_app. cbn [printed]. by rewrite Ht1, List.app_nil_r. }
  split.
  { rewrite blocks_app, Hs3. cbn [app blocks].
    rewrite blocks_app. cbn [blocks]. by rewrite Ht3, List.app_nil_r. }
  split.
  { unfold close. rewrite lookup_insert_eq. f_equal. f_equal.
    change (text_of st3.1 (lengths_path args) +:+ st3.2)
      with (written st3 (lengths_path args)).
    rewrite Hw, Hpr. unfold written, open_w. cbn [fst snd].
    by rewrite text_of_insert. }
  intros p Hp. unfold close. by rewrite lookup_insert_ne.
Qed.

(** A run that ends normally has opened the lengths file. *)
Lemma main_ok_opened args fs fs' (log : list (event Row)) :
  main E args fs = (fs', log, Ok tt) ->
  In (EvOpen (lengths_path args)) (log_of (main E args fs)).
Proof.
  intros Hmain.
  destruct (main_cases args fs)
    as [(e & H)
       | (t & reader & files & st3 & l3 & r & _ & _ & _ & _ & _ & H)];
    rewrite H in Hmain |- *; [done |].
  Paths.outcome. apply in_elt.
Qed.

Lemma rows_of_npy_file_of fs (p : string) (ms : list (list Row)) :
  fs !! p = npy_file_of ms -> rows_of fs p = concat ms.
Proof.
  intros H. unfold rows_of. rewrite H. unfold npy_file_of.
  rewrite <- (concat_nonempty ms). by destruct (nonempty ms).
Qed.

(** What a run that ends normally has done and what it leaves. *)
Lemma main_completed args fs fs' (log : list (event Row)) :
  main E args fs = (fs', log, Ok tt) ->
  let dest := Py.osp_join (save_dir args) (split args) in
  exists (t : string) reader (files : list string),
    fs !! tsv_path args = Some (Text t)
    /\ tsv_path args <> dest +:+ ".tsv"
    /\ manifest_files t = Ok (files, length files)
    /\ Wav2VecFeatureReader E (checkpoint args) (layer args) = Ok reader
    /\ Forall2 (fun fname m => get_feats E reader fname = Ok m) files (produced log)
    /\ printed (lengths_path args) log = map length (produced log)
    /\ blocks (npy_path args) log = nonempty (produced log)
    /\ fs' !! lengths_path args
       = Some (Text (lengths_text (map length (produced log))))
    /\ fs' !! npy_path args = npy_file_of (produced log)
    /\ (forall p, lengths_path args <> p -> npy_path args <> p ->
          fs' !! p = fs_of (create_files args dest fs) !! p).
Proof.
  intros Hmain dest.
  pose proof (main_ok_opened _ _ _ _ Hmain) as Hopen.
  destruct (main_run args fs Hopen)
    as (t & reader & files & Ht & Hne & Hm & Hrd & Hnone & Hrun).
  fold dest in Hne, Hnone, Hrun. cbv zeta in Hrun.
  destruct Hrun as (Hres & _ & Hprod & Hprt & Hblk & Hlen & Hoth).
  pose proof (Paths.lengths_ne_npy args) as Hln.
  pose proof (loop_ends reader _ _ files
                (open_w (lengths_path args) (fs_of (create_files args dest fs)))
                Hln) as Hends.
  cbv zeta in Hends.
  destruct Hends as (Hall & Hpr & _ & Hframe & Hcases).
  { unfold open_w. cbn [fst]. by rewrite lookup_insert_ne. }
  rewrite <- Hres, <- Hprod, <- Hblk in Hcases.
  rewrite <- Hprod in Hall. rewrite <- Hprt, <- Hprod in Hpr.
  rewrite <- Hprt in Hlen.
  rewrite Hmain in Hcases, Hall, Hpr, Hlen, Hoth.
  Paths.outcome_in Hcases. Paths.outcome_in Hall. Paths.outcome_in Hpr.
  Paths.outcome_in Hlen. Paths.outcome_in Hoth.
  destruct Hcases
    as [(_ & Hl & _ & Hb & Hnpy)
       | [(f & e & _ & _ & Hr & _) | (ms' & m & _ & _ & _ & Hr & _)]];
    [| discriminate Hr | discriminate Hr].
  rewrite Hl, firstn_all in Hall.
  exists t, reader, files.
  split; [done |]. split; [done |]. split; [done |]. split; [done |].
  split; [done |]. split; [done |]. split; [done |].
  split; [by rewrite Hlen, Hpr |].
  split; [by rewrite Hoth by done |].
  intros p Hp1 Hp2. rewrite Hoth, Hframe by done.
  unfold open_w. cbn [fst]. by rewrite lookup_insert_ne.
Qed.

(** A point of a run is in the setup, or in the loop, or at the end. *)
Lemma main_prefix args fs (pre : list (event Row)) :
  pre `prefix_of` log_of (main E args fs) ->
  let dest := Py.osp_join (save_dir args) (split args) in
  let o1 := create_files (Row:=Row) args dest fs in
  Forall (setup_event (npy_path args)) pre
  \/ exists reader (files : list string) pre3 tail,
       pre = log_of o1 ++ EvOpen (lengths_path args) :: pre3 ++ tail
       /\ fs_of o1 !! npy_path args = None
       /\ pre3 `prefix_of`
            log_of (loop E reader (lengths_path args) (npy_path args) files
                      (open_w (lengths_path args) (fs_of o1)))
       /\ Forall (end_event (lengths_path args) (npy_path args)) tail.
Proof.
  intros Hp dest o1.
  destruct (setup_log args fs) as [Hset _]. fold dest o1 in Hset.
  destruct (main_cases args fs)
    as [(e & H)
       | (t & reader & files & st3 & l3 & r & Ht & Hne & _ & _ & Hloop & H)];
    fold dest o1 in H; rewrite H in Hp; revert Hp; Paths.outcome; intros Hp.
  { left. by apply (Forall_prefix _ _ _ Hp). }
  fold dest o1 in Hloop.
  pose proof (create_files_outputs args dest fs _ Ht Hne) as (_ & _ & _ & _ & Hnone).
  fold o1 in Hnone.
  apply prefix_app_split in Hp as [Hp | [pre2 [-> Hp]]];
    [left; by apply (Forall_prefix _ _ _ Hp) |].
  destruct pre2 as [|e0 pre2]; [left; by rewrite List.app_nil_r |].
  pose proof (prefix_cons_inv_1 _ _ _ _ Hp) as ->.
  apply prefix_cons_inv_2, prefix_app_split in Hp.
  right. exists reader, files. rewrite Hloop. Paths.outcome.
  destruct Hp as [Hp | [tail [-> Hp]]].
  - exists pre2, []. rewrite List.app_nil_r. by repeat split.
  - exists l3, tail. repeat split; try done.
    apply (Forall_prefix _ _ _ Hp).
    constructor; [by left |].
    destruct (blocks (npy_path args) l3); [constructor |].
    constructor; [by right | constructor].
Qed.

(** The state at a point of a run that has opened the lengths file: the
    text written to the file is made of the lengths printed so far, the
    array of the rows appended so far while no append has failed, and
    nothing is held back once the file is closed. *)
Lemma main_prefix_state args fs (pre : list (event Row)) :
  pre `prefix_of` log_of (main E args fs) ->
  In (EvOpen (lengths_path args)) pre ->
  let st := replay E pre (fs, EmptyString) in
  written st (lengths_path args) = lengths_text (printed (lengths_path args) pre)
  /\ (faultless pre ->
      rows_of st.1 (npy_path args) = appended (npy_path args) pre)
  /\ (In (EvClose (lengths_path args)) pre -> st.2 = EmptyString).
Proof.
  intros Hp Hin st. subst st.
  destruct (setup_log args fs) as [Hset Hrep].
  pose proof (Paths.lengths_ne_npy args) as Hln.
  destruct (main_prefix args fs pre Hp)
    as [Hsetup | (reader & files & pre3 & tail & -> & Hnone & Hp3 & Htail)].
  { exfalso. rewrite Forall_forall in Hsetup.
    by apply list_elem_of_In, Hsetup in Hin. }
  set (o1 := create_files args _ fs) in *.
  pose proof (loop_events E reader (lengths_path args) (npy_path args) files
                (open_w (lengths_path args) (fs_of o1))) as [Hev _].
  apply (Forall_prefix _ _ _ Hp3) in Hev.
  destruct (setup_silent _ (lengths_path args) _ Hset) as (Hpr & _ & _).
  destruct (setup_silent _ (npy_path args) _ Hset) as (_ & Hap & _).
  rewrite printed_app, appended_app, Hpr, Hap. cbn [app printed appended].
  rewrite printed_app, appended_app.
  rewrite replay_app, Hrep, replay_cons, replay_app.
  change (apply_event E (EvOpen (lengths_path args)) (fs_of o1, EmptyString))
    with (open_w (lengths_path args) (fs_of o1)).
  set (start := open_w (lengths_path args) (fs_of o1)).
  destruct (replay_end (lengths_path args) (npy_path args) tail
              (replay E pre3 start) Hln Htail)
    as (Hw & Hoth & Hpend & Hpt & Hat & _ & _ & _).
  rewrite Hpt, Hat, !List.app_nil_r.
  split.
  { rewrite Hw, (written_replay_loop E _ (npy_path args)) by done.
    unfold written, start, open_w. cbn [fst snd].
    by rewrite text_of_insert. }
  split.
  { intros Hf. unfold rows_of. rewrite Hoth by done.
    change (rows_of (replay E pre3 start).1 (npy_path args)
            = appended (npy_path args) pre3).
    rewrite (rows_of_replay_loop E (lengths_path args)); [| done | done |].
    - unfold rows_of, start, open_w. cbn [fst].
      by rewrite lookup_insert_ne, Hnone.
    - apply Forall_app in Hf as [_ Hf]. apply Forall_cons in Hf as [_ Hf].
      by apply Forall_app in Hf as [Hf _]. }
  intros Hclose. apply Hpend.
  apply in_app_or in Hclose as [Hclose | [Hclose | Hclose]].
  - exfalso. rewrite Forall_forall in Hset.
    by apply list_elem_of_In, Hset in Hclose.
  - discriminate Hclose.
  - apply in_app_or in Hclose as [Hclose | Hclose]; [| done].
    exfalso. rewrite Forall_forall in Hev.
    by apply list_elem_of_In, Hev in Hclose.
Qed.

(** The files a run leaves are the files after all its events, with
    nothing held back. *)
Lemma main_replay args fs :
  replay E (log_of (main E args fs)) (fs, EmptyString)
  = (fs_of (main E args fs), EmptyString).
Proof.
  destruct (setup_log args fs) as [_ Hrep].
  destruct (main_cases args fs)
    as [(e & H)
       | (t & reader & files & st3 & l3 & r & _ & _ & _ & _ & Hloop & H)];
    rewrite H; Paths.outcome; [apply Hrep |].
  rewrite replay_app, Hrep, replay_cons, replay_app.
  change (apply_event E (EvOpen (lengths_path args)) (_, EmptyString))
    with (open_w (lengths_path args)
            (fs_of (create_files args
                      (Py.osp_join (save_dir args) (split args)) fs))).
  pose proof (loop_events E reader (lengths_path args) (npy_path args) files
                (open_w (lengths_path args)
                   (fs_of (create_files args
                             (Py.osp_join (save_dir args) (split args)) fs))))
    as [_ Hst].
  rewrite Hloop in Hst. revert Hst. Paths.outcome. intros <-.
  by destruct (blocks (npy_path args) l3).
Qed.

End Main.

(** ** The Feature Writer *)

Section Writer.

Context {Row Wav : Type}.
Variable E : Collaborators Row Wav.
Implicit Types (fs : gmap string (file Row)) (args : Args).
Implicit Types (st : buffered (Row:=Row)) (l_f npaa : string) (m : list Row).

(** C1: for each matrix the body of the loop writes the row count as a
    new line to the lengths file, whatever the count: the line is added
    to the text written to the file, of which the io library puts a
    leading part on disk and holds the rest back.  The body appends to
    the array only when the count is positive, and then it appends the
    rows of the matrix after those already there; a matrix without rows
    leaves the array as it was.  In the run of the scenario, with
    matrices of shapes (5, 768) and (0, 768), the lengths file holds the
    lines 5 and 0 and the array has exactly 5 rows. *)
Theorem feature_writer_step :
  (forall l_f npaa m st,
      l_f <> npaa ->
      let o := body E l_f npaa m st in
      let line := Py.str_of_nat (length m) +:+ String Py.LF EmptyString in
      let k := flushed E (text_of st.1 l_f) (st.2 +:+ line) in
      written (fs_of o) l_f = written st l_f +:+ line
      /\ text_of (fs_of o).1 l_f
         = text_of st.1 l_f +:+ Py.slice_to k (st.2 +:+ line)
      /\ (fs_of o).2 = Py.slice_from k (st.2 +:+ line)
      /\ hd_error (log_of o) = Some (EvPrint l_f (length m))
      /\ (In (EvAppend npaa m) (log_of o) -> 0 < length m)
      /\ (length m = 0 ->
          o = ((<[l_f := Text (text_of st.1 l_f
                                 +:+ Py.slice_to k (st.2 +:+ line))]> st.1,
                Py.slice_from k (st.2 +:+ line)),
               [EvPrint l_f 0], Ok tt)
          /\ rows_of (fs_of o).1 npaa = rows_of st.1 npaa)
      /\ (0 < length m ->
          append_fault E (rows_of st.1 npaa) m = false ->
          res_of o = Ok tt
          /\ log_of o = [EvPrint l_f (length m); EvAppend npaa m]
          /\ rows_of (fs_of o).1 npaa = rows_of st.1 npaa ++ m))
  /\ (let o := main Scenario.E Scenario.args Scenario.fs in
      res_of o = Ok tt
      /\ map length (produced (log_of o)) = [5; 0]
      /\ text_of (fs_of o) "/out/train.lengths"
         = String "5" (String Py.LF (String "0" (String Py.LF EmptyString)))
      /\ length (rows_of (fs_of o) "/out/train.npy") = 5).
Proof.
  split; [| by vm_compute].
  intros l_f npaa m st Hne o line k. subst o. rewrite body_eq. cbv zeta.
  set (st1 := fs_of (print_len E l_f (length m) st)).
  assert (Hw : written st1 l_f = written st l_f +:+ line)
    by apply written_print.
  assert (Ht : text_of st1.1 l_f
               = text_of st.1 l_f +:+ Py.slice_to k (st.2 +:+ line))
    by apply text_of_insert.
  assert (Hp : st1.2 = Py.slice_from k (st.2 +:+ line)) by done.
  assert (Hrows : rows_of st1.1 npaa = rows_of st.1 npaa)
    by (unfold rows_of, st1; by rewrite lookup_print).
  rewrite Hrows.
  destruct (0 <? length m) eqn:Hlen.
  - apply Nat.ltb_lt in Hlen.
    destruct (append_fault E (rows_of st.1 npaa) m) eqn:Hfault; Paths.outcome.
    + assert (Hw' : written (apply_event E (EvFault npaa m) st1) l_f
                    = written st1 l_f
                    /\ text_of (apply_event E (EvFault npaa m) st1).1 l_f
                       = text_of st1.1 l_f
                    /\ (apply_event E (EvFault npaa m) st1).2 = st1.2).
      { unfold written. cbn [apply_event].
        destruct (append_wreck E _ m); [| done]. cbn [fst snd].
        by rewrite text_of_insert_ne by done. }
      destruct Hw' as (-> & -> & ->).
      split; [done |]. split; [done |]. split; [done |]. split; [done |].
      split; [done |]. split; [lia |]. done.
    + unfold written. cbn [fst snd].
      rewrite text_of_insert_npy, rows_of_insert by done.
      split; [done |]. split; [done |]. split; [done |]. split; [done |].
      split; [done |]. split; [lia |]. done.
  - apply Nat.ltb_ge in Hlen. Paths.outcome.
    assert (Hm : length m = 0) by lia.
    split; [done |]. split; [done |]. split; [done |]. split; [done |].
    split; [cbn [In]; by intros [H | []] |].
    split; [| lia]. intros _. split; [| done].
    subst st1 line k. rewrite Hm. reflexivity.
Qed.

(** C5: after a run that ends normally on a manifest made of a first
    line and of later lines, the lengths file has one line for each file
    entry of the manifest, an entry being a later line that is not
    empty, in the order of the entries: the line of an entry is the row
    count of the matrix of its file, zero included. *)
Theorem lengths_line_per_entry args fs fs' (log : list (event Row))
    (first : string) (rest : list string) :
  Forall (fun l => Py.contains Py.LF l = false) (first :: rest) ->
  fs !! tsv_path args = Some (Text (Py.join Py.LF (first :: rest))) ->
  main E args fs = (fs', log, Ok tt) ->
  let entries := filter (fun line => 0 < Py.len line) rest in
  exists reader (ms : list (list Row)),
    Wav2VecFeatureReader E (checkpoint args) (layer args) = Ok reader
    /\ Forall2 (fun line m =>
                  get_feats E reader (path_of (Py.strip first) line) = Ok m)
         entries ms
    /\ fs' !! lengths_path args = Some (Text (lengths_text (map length ms)))
    /\ read_lengths (text_of fs' (lengths_path args)) = Some (map length ms)
    /\ length (text_lines (text_of fs' (lengths_path args))) = length entries.
Proof.
  intros Hlines Ht Hmain entries.
  destruct (main_completed E _ _ _ _ Hmain)
    as (t' & reader & files & Ht' & _ & Hm & Hrd & Hall & _ & _ & Hlen & _).
  assert (Heq : t' = Py.join Py.LF (first :: rest)) by congruence. subst t'.
  rewrite (manifest_files_lines _ _ Hlines) in Hm.
  assert (Hfiles : files = map (path_of (Py.strip first)) (kept rest))
    by congruence.
  subst files.
  exists reader, (produced log).
  split; [done |].
  split; [by apply Forall2_fmap_l in Hall |].
  split; [done |].
  unfold text_of. rewrite Hlen.
  split; [apply PyFacts.read_lengths_text |].
  rewrite PyFacts.text_lines_lengths_text, !length_map.
  apply Forall2_length in Hall. by rewrite length_map in Hall.
Qed.

(** Events of the setup come first: what precedes a write event in the
    events of a run holds all the setup events. *)
Lemma setup_before_writes (npaa : string)
    (l1 l2 pre post : list (event Row)) (e : event Row) :
  Forall (setup_event npaa) l1 ->
  write_event e ->
  l1 ++ l2 = pre ++ e :: post ->
  exists pre2, pre = l1 ++ pre2.
Proof.
  intros Hl1 He. revert pre.
  induction Hl1 as [|x l1 Hx _ IH]; intros pre Heq; [by exists pre |].
  destruct pre as [|y pre].
  - injection Heq as -> _. by destruct e.
  - injection Heq as -> Heq. destruct (IH _ Heq) as [pre2 ->].
    by exists pre2.
Qed.

(** C4: when [create_files] returns, no file is left at the path of the
    array, whatever was there; in a run that found a file there, the
    removal comes before the lengths file is opened and before anything
    is printed or appended; after a run that ends normally the array
    holds the rows of the matrices of this run and nothing else.  In the
    scenario the output directory holds an array of 100 rows; a run on
    files of 5 and 3 rows leaves 8 rows. *)
Theorem stale_array_removed :
  (forall args (dest : string) fs fs1 (l1 : list (event Row)) (npaa : string),
      create_files args dest fs = (fs1, l1, Ok npaa) ->
      npaa = dest +:+ ".npy" /\ fs1 !! npaa = None)
  /\ (forall args fs (pre post : list (event Row)) (e : event Row),
        is_Some (fs !! npy_path args) ->
        log_of (main E args fs) = pre ++ e :: post ->
        write_event e ->
        In (EvRemove (npy_path args)) pre)
  /\ (forall args fs fs' (log : list (event Row)),
        main E args fs = (fs', log, Ok tt) ->
        rows_of fs' (npy_path args) = concat (produced log))
  /\ (let o := main Scenario.E Scenario.args Scenario.fs2 in
      length (rows_of Scenario.fs2 "/out/train.npy") = 100
      /\ res_of o = Ok tt
      /\ map length (produced (log_of o)) = [5; 3]
      /\ length (rows_of (fs_of o) "/out/train.npy") = 8).
Proof.
  split; [| split; [| split; [| by vm_compute]]].
  - intros args dest fs fs1 l1 npaa Hcf.
    pose proof (create_files_facts (Row:=Row) args dest fs) as (_ & Hok).
    cbv zeta in Hok. rewrite Hcf in Hok. Paths.outcome_in Hok.
    destruct (Hok npaa eq_refl) as (-> & _ & Hnone & _). done.
  - intros args fs pre post e Hstale Hlog He.
    destruct (setup_log E args fs) as [Hset _].
    destruct (main_cases E args fs)
      as [(e' & H)
         | (t & reader & files & st3 & l3 & r & Ht & Hne & _ & _ & _ & H)];
      rewrite H in Hlog; Paths.outcome_in Hlog.
    + exfalso. rewrite <- (List.app_nil_r (log_of _)) in Hlog.
      destruct (setup_before_writes _ _ _ _ _ _ Hset He Hlog) as [pre2 ->].
      rewrite <- List.app_assoc in Hlog. apply app_inv_head in Hlog.
      by destruct pre2.
    + destruct (setup_before_writes _ _ _ _ _ _ Hset He Hlog) as [pre2 ->].
      apply in_or_app. left.
      pose proof (create_files_facts (Row:=Row) args
                    (Py.osp_join (save_dir args) (split args)) fs) as (_ & Hok).
      cbv zeta in Hok.
      pose proof (create_files_outputs args _ fs _ Ht Hne) as (Hres & _).
      destruct (Hok _ Hres) as (_ & _ & _ & _ & Hrm). by apply Hrm.
  - intros args fs fs' log Hmain.
    destruct (main_completed E _ _ _ _ Hmain)
      as (t & reader & files & _ & _ & _ & _ & _ & _ & _ & _ & Hnpy & _).
    by apply rows_of_npy_file_of.
Qed.

(** C2, as amended: after a run that ends normally the array and the
    lengths file agree with the matrices produced: the array is the
    concatenation, in input order, of the non-empty ones, its row count
    is the sum of the values of the lengths file, and cutting it at
    these values gives the matrices back.  During a run this holds of
    the array and not of the lengths file on disk: when the loop,
    started on an empty lengths file and no array (the state in which
    [main] starts it), has done its first [k] iterations, the array is
    the concatenation of the non-empty matrices produced so far, and the
    lines written for these matrices are split between the disk, which
    holds a leading part of them, and the handle, which holds the rest
    back.  In the run of the scenario, after the first iteration the
    array has 5 rows and the lengths file on disk is empty. *)
Theorem array_agrees_at_boundaries :
  (forall args fs fs' (log : list (event Row)),
      main E args fs = (fs', log, Ok tt) ->
      consistent fs' (lengths_path args) (npy_path args) (produced log))
  /\ (forall reader l_f npaa (files : list string) (k : nat) st st_k
             (log_k : list (event Row)),
        l_f <> npaa ->
        rows_of st.1 npaa = [] ->
        written st l_f = EmptyString ->
        loop E reader l_f npaa (take k files) st = (st_k, log_k, Ok tt) ->
        log_k `prefix_of` log_of (loop E reader l_f npaa files st)
        /\ st_k = replay E log_k st
        /\ Forall2 (fun fname m => get_feats E reader fname = Ok m)
             (take k files) (produced log_k)
        /\ rows_of st_k.1 npaa = concat (nonempty (produced log_k))
        /\ text_of st_k.1 l_f +:+ st_k.2
           = lengths_text (map length (produced log_k)))
  /\ (forall args fs (pre post : list (event Row)) (p : string),
        log_of (main E args fs) = pre ++ EvOpen p :: post ->
        let st := replay E (pre ++ [EvOpen p]) (fs, EmptyString) in
        p = lengths_path args
        /\ rows_of st.1 (npy_path args) = []
        /\ written st (lengths_path args) = EmptyString)
  /\ (let log := log_of (main Scenario.E Scenario.args Scenario.fs) in
      let st := replay Scenario.E (take 8 log) (Scenario.fs, EmptyString) in
      last (take 8 log) = Some (EvAppend "/out/train.npy" (Scenario.matrix 5))
      /\ length (rows_of st.1 "/out/train.npy") = 5
      /\ text_of st.1 "/out/train.lengths" = EmptyString
      /\ st.2 = String "5" (String Py.LF EmptyString)).
Proof.
  split; [| split; [| split; [| by vm_compute]]].
  - intros args fs fs' log Hmain.
    destruct (main_completed E _ _ _ _ Hmain)
      as (t & reader & files & _ & _ & _ & _ & _ & _ & _ & Hlen & Hnpy & _).
    apply consistent_intro; [by apply rows_of_npy_file_of |].
    unfold text_of. by rewrite Hlen.
  - intros reader l_f npaa files k st st_k log_k Hne Hrows Htext Hloop.
    split.
    { rewrite <- (take_drop k files) at 1. rewrite loop_app, Hloop.
      destruct (loop E reader l_f npaa (drop k files) st_k) as [[st2 l2] r].
      Paths.outcome. by exists l2. }
    pose proof (loop_events E reader l_f npaa (take k files) st) as [Hev Hst].
    pose proof (loop_outcome E reader l_f npaa (take k files) st Hne)
      as (Hall & Hpr & Hcases).
    rewrite Hloop in Hev, Hst, Hall, Hpr, Hcases.
    Paths.outcome_in Hev. Paths.outcome_in Hst. Paths.outcome_in Hall.
    Paths.outcome_in Hpr. Paths.outcome_in Hcases.
    destruct Hcases
      as [(_ & Hl & Hfl & Hb)
         | [(f & e & _ & _ & Hr & _) | (ms' & m & l' & _ & _ & _ & Hr & _)]];
      [| discriminate Hr | discriminate Hr].
    rewrite Hl, firstn_all in Hall.
    split; [done |]. split; [done |]. subst st_k. split.
    + rewrite (rows_of_replay_loop E l_f npaa) by done.
      by rewrite Hrows, appended_blocks, Hb.
    + change (written (replay E log_k st) l_f
              = lengths_text (map length (produced log_k))).
      rewrite (written_replay_loop E l_f npaa) by done.
      by rewrite Htext, Hpr.
  - intros args fs pre post p Hlog st. subst st.
    assert (Hp : (pre ++ [EvOpen p]) `prefix_of` log_of (main E args fs)).
    { rewrite Hlog. exists post. by rewrite <- List.app_assoc. }
    destruct (setup_log E args fs) as [Hset Hrep].
    destruct (main_prefix E args fs _ Hp)
      as [Hsetup | (reader & files & pre3 & tail & Heq & Hnone & Hp3 & Htail)].
    { apply Forall_app in Hsetup as [_ Hsetup]. by inversion Hsetup. }
    set (o1 := create_files args _ fs) in *.
    assert (Htl : pre3 ++ tail = [] /\ p = lengths_path args /\ pre = log_of o1).
    { pose proof (loop_events E reader (lengths_path args) (npy_path args) files
                    (open_w (lengths_path args) (fs_of o1))) as [Hev _].
      apply (Forall_prefix _ _ _ Hp3) in Hev.
      destruct (setup_before_writes _ (log_of o1)
                  (EvOpen (lengths_path args) :: pre3 ++ tail)
                  pre [] (EvOpen p) Hset I (eq_sym Heq)) as [pre2 ->].
      rewrite <- List.app_assoc in Heq. apply app_inv_head in Heq.
      destruct pre2 as [|e0 pre2]; simpl in Heq.
      - injection Heq as -> Heq. by rewrite List.app_nil_r.
      - exfalso. injection Heq as -> Heq.
        assert (Hin : In (@EvOpen Row p) (pre3 ++ tail))
          by (rewrite <- Heq; apply in_elt).
        apply in_app_or in Hin as [Hin | Hin].
        + rewrite Forall_forall in Hev.
          by apply list_elem_of_In, Hev in Hin.
        + rewrite Forall_forall in Htail.
          apply list_elem_of_In, Htail in Hin. by destruct Hin. }
    destruct Htl as (Hnil & -> & ->).
    split; [done |].
    rewrite replay_app, Hrep. cbn [replay fold_left apply_event].
    unfold written, rows_of, open_w. cbn [fst snd].
    rewrite lookup_insert_ne by apply Paths.lengths_ne_npy.
    by rewrite Hnone, text_of_insert.
Qed.

(** C10, as amended: in every run, whatever its outcome, an append to
    the array, whether it succeeds or fails, comes right after the
    length of its block has been printed to the lengths file.  So at
    every point of the run the lines printed are as many as the segments
    appended to the array, or one more, and never fewer; the segments
    appended are those the array file holds while no append has failed.
    The lines printed are not on disk at once: while the lengths file is
    open the disk holds a leading part of them and the handle the rest,
    so that the file on disk can be behind the array; in the run of the
    scenario, after the first append the array holds one segment and
    the lengths file on disk holds no line.  Once the run has ended, by
    an exception or not, the lengths file on disk holds every line
    printed, hence as many lines as the segments appended or one
    more. *)
Theorem lengths_line_first args fs :
  let o := main E args fs in
  (forall (pre post : list (event Row)) (last : event Row) (q : string) m,
      last = EvAppend q m \/ last = EvFault q m ->
      log_of o = pre ++ last :: post ->
      exists pre', pre = pre' ++ [EvPrint (lengths_path args) (length m)])
  /\ (forall pre : list (event Row),
        pre `prefix_of` log_of o ->
        let lens := printed (lengths_path args) pre in
        let st := replay E pre (fs, EmptyString) in
        level_or_one_ahead lens (length (appended (npy_path args) pre))
        /\ segments_present lens (length (appended (npy_path args) pre))
           <= length lens
        /\ blocks_level_or_one_ahead lens (length (blocks (npy_path args) pre))
        /\ (In (EvOpen (lengths_path args)) pre ->
            text_of st.1 (lengths_path args) +:+ st.2 = lengths_text lens
            /\ (faultless pre ->
                rows_of st.1 (npy_path args) = appended (npy_path args) pre)
            /\ (In (EvClose (lengths_path args)) pre ->
                read_lengths (text_of st.1 (lengths_path args)) = Some lens)))
  /\ replay E (log_of o) (fs, EmptyString) = (fs_of o, EmptyString)
  /\ (In (EvOpen (lengths_path args)) (log_of o) ->
      let lens := printed (lengths_path args) (log_of o) in
      fs_of o !! lengths_path args = Some (Text (lengths_text lens))
      /\ read_lengths (text_of (fs_of o) (lengths_path args)) = Some lens
      /\ blocks_level_or_one_ahead lens
           (length (blocks (npy_path args) (log_of o)))
      /\ (faultless (log_of o) ->
          level_or_one_ahead lens
            (length (rows_of (fs_of o) (npy_path args)))))
  /\ (let log := log_of (main Scenario.E Scenario.args Scenario.fs) in
      let st := replay Scenario.E (take 8 log) (Scenario.fs, EmptyString) in
      printed "/out/train.lengths" (take 8 log) = [5]
      /\ blocks "/out/train.npy" (take 8 log) = [Scenario.matrix 5]
      /\ length (rows_of st.1 "/out/train.npy") = 5
      /\ text_lines (text_of st.1 "/out/train.lengths") = []).
Proof.
  intros o. subst o.
  destruct (setup_log E args fs) as [Hset _].
  pose proof (Paths.lengths_ne_npy args) as Hln.
  assert (Hpoints : forall pre : list (event Row),
             pre `prefix_of` log_of (main E args fs) ->
             level_or_one_ahead (printed (lengths_path args) pre)
               (length (appended (npy_path args) pre))
             /\ blocks_level_or_one_ahead (printed (lengths_path args) pre)
                  (length (blocks (npy_path args) pre))).
  { intros pre Hp.
    destruct (main_prefix E args fs pre Hp)
      as [Hsetup | (reader & files & pre3 & tail & -> & Hnone & Hp3 & Htail)].
    { destruct (setup_silent _ (lengths_path args) pre Hsetup) as (-> & _).
      rewrite (setup_no_blocks _ _ _ Hsetup).
      split; [apply level_nil | by left]. }
    destruct (setup_silent _ (lengths_path args) _ Hset) as (Hpr & _ & _).
    destruct (setup_silent _ (npy_path args) _ Hset) as (_ & Hap & _).
    rewrite printed_app, appended_app, blocks_app, Hpr, Hap.
    rewrite (setup_no_blocks _ _ _ Hset). cbn [app printed appended blocks].
    rewrite printed_app, appended_app, blocks_app.
    destruct (replay_end E (lengths_path args) (npy_path args) tail
                (fs, EmptyString) Hln Htail)
      as (_ & _ & _ & -> & -> & -> & _).
    rewrite !List.app_nil_r.
    exact (loop_level E reader _ _ files _ pre3 Hp3). }
  split.
  { intros pre post last q m Hlast Hlog.
    assert (Hw : write_event last) by (by destruct Hlast as [-> | ->]).
    destruct (main_cases E args fs)
      as [(e & H)
         | (t & reader & files & st3 & l3 & r & _ & _ & _ & _ & Hloop & H)];
      rewrite H in Hlog; Paths.outcome_in Hlog.
    - exfalso. rewrite <- (List.app_nil_r (log_of _)) in Hlog.
      destruct (setup_before_writes _ _ _ _ _ _ Hset Hw Hlog) as [pre2 ->].
      rewrite <- List.app_assoc in Hlog. apply app_inv_head in Hlog.
      by destruct pre2.
    - destruct (setup_before_writes _ _ _ _ _ _ Hset Hw Hlog) as [pre2 ->].
      rewrite <- List.app_assoc in Hlog. apply app_inv_head in Hlog.
      destruct pre2 as [|e0 pre2];
        [destruct Hlast as [-> | ->]; discriminate Hlog |].
      injection Hlog as <- Hlog.
      assert (Hl3 : exists post', l3 = pre2 ++ last :: post').
      { assert (Hcut : forall (xs ys zs : list (event Row)),
                   xs ++ ys = pre2 ++ last :: zs ->
                   Forall (end_event (lengths_path args) (npy_path args)) ys ->
                   exists post', xs = pre2 ++ last :: post').
        { intros xs ys. revert xs.
          induction ys as [|y ys IHy] using rev_ind; intros xs zs Heq Hys.
          - rewrite List.app_nil_r in Heq. by exists zs.
          - apply Forall_app in Hys as [Hys Hy].
            apply Forall_cons in Hy as [Hy _].
            destruct zs as [|z zs _] using rev_ind.
            + exfalso. rewrite List.app_assoc in Heq.
              apply app_inj_tail in Heq as [_ ->].
              destruct Hy as [Hy | Hy], Hlast as [-> | ->]; discriminate Hy.
            + rewrite List.app_assoc, List.app_comm_cons, List.app_assoc in Heq.
              apply app_inj_tail in Heq as [Heq _].
              by apply (IHy xs zs). }
        apply (Hcut l3 _ post Hlog).
        constructor; [by left |].
        destruct (blocks (npy_path args) l3); [constructor |].
        constructor; [by right | constructor]. }
      destruct Hl3 as [post' Hl3].
      pose proof (loop_print_first E reader (lengths_path args) (npy_path args)
                    files
                    (open_w (lengths_path args)
                       (fs_of (create_files args
                                 (Py.osp_join (save_dir args) (split args)) fs)))
                    pre2 post' last q m Hlast) as Hfirst.
      rewrite Hloop in Hfirst. destruct (Hfirst Hl3) as [pre' ->].
      exists (log_of (create_files args
                        (Py.osp_join (save_dir args) (split args)) fs)
              ++ EvOpen (lengths_path args) :: pre').
      by rewrite <- List.app_assoc. }
  split.
  { intros pre Hp lens st. subst lens st.
    destruct (Hpoints pre Hp) as [Hlevel Hblocks].
    split; [done |]. split; [destruct Hlevel as [H | H]; lia |].
    split; [done |]. intros Hin.
    destruct (main_prefix_state E args fs pre Hp Hin) as (Hw & Hrows & Hpend).
    split; [done |]. split; [done |].
    intros Hclose. unfold written in Hw. rewrite (Hpend Hclose) in Hw.
    rewrite PyFacts.app_empty_r in Hw. rewrite Hw.
    apply PyFacts.read_lengths_text. }
  split; [apply main_replay |]. split; [| by vm_compute].
  intros Hopen lens. subst lens.
  destruct (main_run E args fs Hopen)
    as (t & reader & files & _ & _ & _ & _ & _ & Hrun).
  cbv zeta in Hrun. destruct Hrun as (_ & _ & _ & Hprt & _ & Hlen & _).
  rewrite <- Hprt in Hlen.
  split; [done |].
  split; [unfold text_of; rewrite Hlen; apply PyFacts.read_lengths_text |].
  destruct (Hpoints (log_of (main E args fs))) as [Hlevel Hblocks]; [done |].
  split; [done |]. intros Hf.
  assert (Hin : In (EvOpen (lengths_path args)) (log_of (main E args fs)))
    by done.
  destruct (main_prefix_state E args fs _ (reflexivity _) Hin) as (_ & Hrows & _).
  rewrite main_replay in Hrows. cbn [fst] in Hrows.
  by rewrite (Hrows Hf).
Qed.


(** C7: when [soundfile] reads a file, [read_audio] raises if and only
    if the sample rate is not 16000; at a rate of 16000 it returns the
    samples; at another rate the assertion fails, [get_feats] raises
    before the network runs, and the loop stops at this file without a
    line printed or a row appended for it. *)
Theorem sample_rate_checked (fname : string) (wav : Wav) (sr : Z) :
  sf_read E fname = Ok (wav, sr) ->
  (sr = 16000%Z -> read_audio E fname = Ok wav)
  /\ (sr <> 16000%Z ->
      read_audio E fname = Raise AssertionError
      /\ forall reader,
           get_feats E reader fname = Raise AssertionError
           /\ forall l_f npaa (rest : list string) st,
                loop E reader l_f npaa (fname :: rest) st
                = (st, [], Raise AssertionError))
  /\ ((exists e, read_audio E fname = Raise e) <-> sr <> 16000%Z).
Proof.
  intros Hread.
  assert (Hra : read_audio E fname
                = if (sr =? 16000)%Z then Ok wav else Raise AssertionError)
    by (unfold read_audio; by rewrite Hread).
  destruct (Z.eqb_spec sr 16000) as [-> | Hsr].
  - split; [done |]. split; [done |].
    rewrite Hra. split; [by intros [e He] | done].
  - split; [done |]. split; [| split; [done | by eauto]].
    intros _. split; [done |]. intros reader.
    assert (Hgf : get_feats E reader fname = Raise AssertionError)
      by (unfold get_feats; by rewrite Hra).
    split; [done |].
    intros l_f npaa rest st. by rewrite loop_cons_eq, Hgf.
Qed.

End Writer.

(** ** The scenario, step by step *)

Section ScenarioRun.

Import Scenario Cases.

Lemma feature_writer_step_witness :
  lengths <> npy
  /\ 0 < length (matrix 5)
  /\ append_fault E (rows_of fs npy) (matrix 5) = false
  /\ rows_of (fs_of (body E lengths npy (matrix 5) (fs, EmptyString))).1 npy
     = rows_of fs npy ++ matrix 5
  /\ length (matrix 0) = 0
  /\ rows_of (fs_of (body E lengths npy (matrix 0) (fs, EmptyString))).1 npy
     = rows_of fs npy.
Proof.
  assert (Hne : lengths <> npy) by discriminate.
  assert (Hlen : 0 < length (matrix 5)) by (vm_compute; lia).
  assert (Hf : append_fault E (rows_of fs npy)
                 (matrix 5) = false) by reflexivity.
  assert (H0 : length (matrix 0) = 0) by reflexivity.
  split; [exact Hne |]. split; [exact Hlen |]. split; [exact Hf |].
  split.
  - destruct (proj1 (feature_writer_step E)
                lengths npy (matrix 5) (fs, EmptyString) Hne)
      as (_ & _ & _ & _ & _ & _ & H).
    exact (proj2 (proj2 (H Hlen Hf))).
  - split; [exact H0 |].
    destruct (proj1 (feature_writer_step E)
                lengths npy (matrix 0) (fs, EmptyString) Hne)
      as (_ & _ & _ & _ & _ & H & _).
    exact (proj2 (H H0)).
Defined.

(** C2, as stated, fails during a run.  In the run of the scenario,
    right after the matrix of the first file has been produced, the
    array does not hold its rows yet.  And at the end of the first
    iteration, when the length 5 has been printed and the 5 rows have
    been appended, the array holds the 5 rows while the lengths file on
    disk is still empty, the line being held back by the handle: the
    values recorded in it sum to 0, and a consumer cutting the array at
    them finds no segment. *)
Lemma array_ahead_of_lengths_on_disk :
  let log := log_of (main E args fs) in
  (let pre := take 6 log in
   let st := replay E pre (fs, EmptyString) in
   pre `prefix_of` log
   /\ produced pre = [matrix 5]
   /\ rows_of st.1 npy = []
   /\ rows_of st.1 npy <> concat (nonempty (produced pre)))
  /\ (let pre := take 8 log in
      let st := replay E pre (fs, EmptyString) in
      pre `prefix_of` log
      /\ last pre = Some (EvAppend npy (matrix 5))
      /\ produced pre = [matrix 5]
      /\ length (rows_of st.1 npy) = 5
      /\ text_of st.1 lengths = EmptyString
      /\ read_lengths (text_of st.1 lengths) = Some []
      /\ length (rows_of st.1 npy) <> sum_list []
      /\ ~ consistent st.1 lengths npy (produced pre)).
Proof.
  split.
  - split; [apply prefix_take |]. split; [reflexivity |].
    split; [by vm_compute |]. by vm_compute.
  - split; [apply prefix_take |]. split; [reflexivity |].
    split; [reflexivity |]. split; [by vm_compute |].
    split; [by vm_compute |]. split; [by vm_compute |].
    split; [by vm_compute |].
    intros [_ (lens & Hr & Hl & _)].
    vm_compute in Hr. injection Hr as <-. vm_compute in Hl. discriminate Hl.
Qed.

Lemma array_agrees_at_boundaries_witness :
  let files := ["/data/a.wav"; "/data/b.wav"] in
  let st : buffered := (∅, EmptyString) in
  let o := loop E reader lengths npy (take 1 files) st in
  let o' := main E args fs in
  lengths <> npy
  /\ rows_of st.1 npy = []
  /\ written st lengths = EmptyString
  /\ o = (fs_of o, log_of o, Ok tt)
  /\ rows_of (fs_of o).1 npy = concat (nonempty (produced (log_of o)))
  /\ text_of (fs_of o).1 lengths +:+ (fs_of o).2
     = lengths_text (map length (produced (log_of o)))
  /\ o' = (fs_of o', log_of o', Ok tt)
  /\ consistent (fs_of o') (lengths_path args) (npy_path args)
       (produced (log_of o')).
Proof.
  intros files st o o'.
  assert (Hne : lengths <> npy) by discriminate.
  assert (Hr : rows_of st.1 npy = []) by reflexivity.
  assert (Hw : written st lengths = EmptyString) by reflexivity.
  assert (Ho : o = (fs_of o, log_of o, Ok tt)) by reflexivity.
  assert (Ho' : o' = (fs_of o', log_of o', Ok tt)) by reflexivity.
  split; [exact Hne |]. split; [exact Hr |]. split; [exact Hw |].
  split; [exact Ho |].
  pose proof (proj1 (proj2 (array_agrees_at_boundaries E))
                reader lengths npy files 1 st (fs_of o) (log_of o)
                Hne Hr Hw Ho) as (_ & _ & _ & H1 & H2).
  split; [exact H1 |]. split; [exact H2 |].
  split; [exact Ho' |].
  exact (proj1 (array_agrees_at_boundaries E)
           args fs (fs_of o') (log_of o') Ho').
Defined.

Lemma stale_array_removed_witness :
  let o := main E args fs2 in
  let c := create_files (Row:=Row) args "/out/train" fs2 in
  is_Some (fs2 !! npy_path args)
  /\ c = (fs_of c, log_of c, Ok npy)
  /\ fs_of c !! npy = None
  /\ o = (fs_of o, log_of o, Ok tt)
  /\ rows_of (fs_of o) (npy_path args) = concat (produced (log_of o))
  /\ log_of o = take 4 (log_of o) ++ EvOpen lengths :: drop 5 (log_of o)
  /\ In (EvRemove (npy_path args)) (take 4 (log_of o)).
Proof.
  intros o c.
  assert (Hstale : is_Some (fs2 !! npy_path args)) by (by vm_compute; eauto).
  assert (Hc : c = (fs_of c, log_of c, Ok npy)) by reflexivity.
  assert (Ho : o = (fs_of o, log_of o, Ok tt)) by reflexivity.
  assert (Hlog : log_of o = take 4 (log_of o) ++ EvOpen lengths :: drop 5 (log_of o))
    by reflexivity.
  split; [exact Hstale |]. split; [exact Hc |].
  split; [exact (proj2 (proj1 (stale_array_removed E) args _ fs2 _ _ _ Hc)) |].
  split; [exact Ho |].
  split; [exact (proj1 (proj2 (proj2 (stale_array_removed E)))
                   args fs2 _ _ Ho) |].
  split; [exact Hlog |].
  exact (proj1 (proj2 (stale_array_removed E))
           args fs2 _ _ (EvOpen lengths) Hstale Hlog I).
Defined.

Lemma lengths_line_per_entry_witness :
  let o := main E args fs in
  let rest := [fields "a.wav" "foo"; fields "b.wav" "bar"; EmptyString] in
  Forall (fun l => Py.contains Py.LF l = false) ("/data" :: rest)
  /\ fs !! tsv_path args = Some (Text (Py.join Py.LF ("/data" :: rest)))
  /\ o = (fs_of o, log_of o, Ok tt)
  /\ length (filter (fun line => 0 < Py.len line) rest) = 2
  /\ length (text_lines (text_of (fs_of o) (lengths_path args))) = 2
  /\ fs_of o !! lengths_path args
     = Some (Text (String "5" (String Py.LF (String "0" (String Py.LF EmptyString)))))
  /\ exists reader (ms : list (list Row)),
       Wav2VecFeatureReader E (checkpoint args) (layer args) = Ok reader
       /\ Forall2 (fun line m =>
                     get_feats E reader (path_of (Py.strip "/data") line) = Ok m)
            (filter (fun line => 0 < Py.len line) rest) ms
       /\ fs_of o !! lengths_path args
          = Some (Text (lengths_text (map length ms)))
       /\ read_lengths (text_of (fs_of o) (lengths_path args))
          = Some (map length ms)
       /\ length (text_lines (text_of (fs_of o) (lengths_path args)))
          = length (filter (fun line => 0 < Py.len line) rest).
Proof.
  intros o rest.
  assert (Hl : Forall (fun l => Py.contains Py.LF l = false) ("/data" :: rest))
    by (repeat constructor).
  assert (Ht : fs !! tsv_path args
               = Some (Text (Py.join Py.LF ("/data" :: rest)))) by reflexivity.
  assert (Ho : o = (fs_of o, log_of o, Ok tt)) by reflexivity.
  split; [exact Hl |]. split; [exact Ht |]. split; [exact Ho |].
  split; [reflexivity |]. split; [reflexivity |]. split; [reflexivity |].
  exact (lengths_line_per_entry E args fs _ _ "/data" rest Hl Ht Ho).
Defined.

Lemma label_files_copied_witness :
  let src := Py.osp_join (data args) (split args) in
  let c := create_files (Row:=Row) args "/out/train" fs in
  fs !! (src +:+ ".tsv") = Some (Text manifest)
  /\ src +:+ ".tsv" <> "/out/train" +:+ ".tsv"
  /\ is_Some (fs !! (src +:+ ".wrd"))
  /\ fs !! (src +:+ ".phn") = None
  /\ res_of c = Ok npy
  /\ In (EvCopy (src +:+ ".wrd") ("/out/train" +:+ ".wrd")) (log_of c)
  /\ ~ In (EvCopy (src +:+ ".phn") ("/out/train" +:+ ".phn")) (log_of c).
Proof.
  intros src c.
  assert (Ht : fs !! (src +:+ ".tsv") = Some (Text manifest)) by reflexivity.
  assert (Hne : src +:+ ".tsv" <> "/out/train" +:+ ".tsv") by discriminate.
  assert (Hw : is_Some (fs !! (src +:+ ".wrd"))) by (by vm_compute; eauto).
  assert (Hp : fs !! (src +:+ ".phn") = None) by reflexivity.
  split; [exact Ht |]. split; [exact Hne |]. split; [exact Hw |].
  split; [exact Hp |].
  destruct (proj2 (label_files_copied (Row:=Row) args "/out/train" fs) _ Ht Hne)
    as (fs' & log & Hc & _ & _ & Hwrd & _ & Hphn & _).
  subst c. rewrite Hc. unfold res_of, log_of. simpl.
  split; [reflexivity |].
  split; [exact (proj2 Hwrd Hw) |].
  intros Hin. destruct (proj1 Hphn Hin) as [x Hx].
  change (fs !! (src +:+ ".phn") = Some x) in Hx. congruence.
Defined.

Lemma sample_rate_checked_witness :
  sf_read E "/data/bad.wav" = Ok (7, 8000%Z)
  /\ 8000%Z <> 16000%Z
  /\ read_audio E "/data/bad.wav" = Raise AssertionError
  /\ sf_read E "/data/a.wav" = Ok (5, 16000%Z)
  /\ read_audio E "/data/a.wav" = Ok 5.
Proof.
  assert (Hbad : sf_read E "/data/bad.wav" = Ok (7, 8000%Z)) by reflexivity.
  assert (Hne : 8000%Z <> 16000%Z) by discriminate.
  assert (Hok : sf_read E "/data/a.wav" = Ok (5, 16000%Z)) by reflexivity.
  split; [exact Hbad |]. split; [exact Hne |].
  split; [exact (proj1 (proj1 (proj2 (sample_rate_checked E _ _ _ Hbad)) Hne)) |].
  split; [exact Hok |].
  exact (proj1 (sample_rate_checked E _ _ _ Hok) eq_refl).
Defined.


(** C10, as stated, fails during a run, in the direction the claim
    excludes: in the run of the scenario, at the end of the first
    iteration, the array holds one segment, of 5 rows, and the lengths
    file on disk holds no line. *)
Lemma lengths_on_disk_behind_array :
  let log := log_of (main E args fs) in
  let pre := take 8 log in
  let st := replay E pre (fs, EmptyString) in
  pre `prefix_of` log
  /\ printed lengths pre = [5]
  /\ blocks npy pre = [matrix 5]
  /\ length (rows_of st.1 npy) = 5
  /\ st.1 !! lengths = Some (Text EmptyString)
  /\ read_lengths (text_of st.1 lengths) = Some []
  /\ length (text_lines (text_of st.1 lengths)) < length (blocks npy pre)
  /\ ~ blocks_level_or_one_ahead [] (length (blocks npy pre)).
Proof.
  split; [apply prefix_take |]. split; [reflexivity |].
  split; [reflexivity |]. split; [by vm_compute |].
  split; [by vm_compute |]. split; [by vm_compute |].
  split; [vm_compute; lia |].
  intros [H | H]; vm_compute in H; discriminate H.
Qed.

Lemma lengths_line_first_witness :
  let o := main E args fs in
  let log := log_of o in
  let o' := main E_full args fs in
  take 7 log `prefix_of` log
  /\ level_or_one_ahead
       (printed (lengths_path args) (take 7 log))
       (length (appended (npy_path args) (take 7 log)))
  /\ log = take 7 log ++ EvAppend npy (matrix 5) :: drop 8 log
  /\ (exists pre', take 7 log = pre' ++ [EvPrint (lengths_path args) 5])
  /\ In (EvOpen (lengths_path args)) log
  /\ faultless log
  /\ fs_of o !! lengths_path args
     = Some (Text (String "5" (String Py.LF (String "0" (String Py.LF EmptyString)))))
  /\ level_or_one_ahead (printed (lengths_path args) log)
       (length (rows_of (fs_of o) (npy_path args)))
  /\ In (EvOpen (lengths_path args)) (log_of o')
  /\ res_of o' = Raise (ExternalError 0)
  /\ fs_of o' !! lengths_path args
     = Some (Text (String "5" (String Py.LF EmptyString)))
  /\ blocks (npy_path args) (log_of o') = []
  /\ blocks_level_or_one_ahead (printed (lengths_path args) (log_of o'))
       (length (blocks (npy_path args) (log_of o'))).
Proof.
  intros o log o'.
  assert (Hp : take 7 log `prefix_of` log) by apply prefix_take.
  assert (Hlog : log = take 7 log ++ EvAppend npy (matrix 5) :: drop 8 log)
    by reflexivity.
  assert (Hopen : In (EvOpen (lengths_path args)) log)
    by exact (nth_error_In log 4 eq_refl).
  assert (Hf : faultless log) by (repeat constructor).
  assert (Hopen' : In (EvOpen (lengths_path args)) (log_of o'))
    by exact (nth_error_In (log_of o') 4 eq_refl).
  destruct (lengths_line_first E args fs) as (H1 & H2 & _ & H4 & _).
  destruct (lengths_line_first E_full args fs) as (_ & _ & _ & H4' & _).
  split; [exact Hp |].
  split; [exact (proj1 (H2 (take 7 log) Hp)) |].
  split; [exact Hlog |].
  split; [exact (H1 _ _ _ _ _ (or_introl eq_refl) Hlog) |].
  split; [exact Hopen |]. split; [exact Hf |].
  split; [exact (proj1 (H4 Hopen)) |].
  split; [exact (proj2 (proj2 (proj2 (H4 Hopen))) Hf) |].
  split; [exact Hopen' |]. split; [reflexivity |].
  split; [exact (proj1 (H4' Hopen')) |].
  split; [reflexivity |].
  exact (proj1 (proj2 (proj2 (H4' Hopen')))).
Defined.

End ScenarioRun.

(** ** What a run touches *)

Section Frame.

Context {Row Wav : Type}.
Variable E : Collaborators Row Wav.
Implicit Types (fs : gmap string (file Row)) (args : Args).
Implicit Types (l_f npaa p : string).

(** A run leaves every path but its five outputs as it is. *)
Lemma main_frame args fs (p : string) :
  let dest := Py.osp_join (save_dir args) (split args) in
  dest +:+ ".tsv" <> p -> dest +:+ ".wrd" <> p -> dest +:+ ".phn" <> p ->
  npy_path args <> p -> lengths_path args <> p ->
  fs_of (main E args fs) !! p = fs !! p.
Proof.
  intros dest Ht Hw Hph Hn Hl.
  pose proof (create_files_frame (Row:=Row) args dest p fs Ht Hw Hph Hn) as Hcf.
  destruct (main_cases E args fs)
    as [(e & H)
       | (t & reader & files & st3 & l3 & r & _ & _ & _ & _ & Hloop & H)];
    fold dest in H; rewrite H; Paths.outcome; [done |].
  fold dest in Hloop.
  pose proof (loop_events E reader (lengths_path args) (npy_path args) files
                (open_w (lengths_path args) (fs_of (create_files args dest fs))))
    as [Hev Hst].
  rewrite Hloop in Hev, Hst. revert Hev Hst. Paths.outcome. intros Hev ->.
  unfold close. rewrite lookup_insert_ne by done.
  rewrite (replay_loop_frame E _ _ p _ _ Hev Hl Hn).
  unfold open_w. cbn [fst]. by rewrite lookup_insert_ne.
Qed.

(** X1: whatever its outcome, a run changes no file but its five
    outputs in the output directory: the copies of the manifest and of
    the two label files, the array and the lengths file. *)
Theorem run_writes_outputs_only args fs (p : string) :
  ~ In p (output_paths args) ->
  fs_of (main E args fs) !! p = fs !! p.
Proof.
  unfold output_paths. cbv zeta. intros Hp.
  apply main_frame; intros <-; apply Hp; simpl; tauto.
Qed.

(** X2: a run on a split without manifest raises [FileNotFoundError]
    at the first copy: no file is changed (a stale array stays) and
    there is no event.  A run whose output path is its input path
    raises [SameFileError] at the copy of the manifest, again with no
    file changed. *)
Theorem setup_failures_change_nothing args fs :
  (fs !! tsv_path args = None ->
   main E args fs = (fs, [], Raise FileNotFoundError))
  /\ (is_Some (fs !! tsv_path args) ->
      Py.osp_join (data args) (split args)
      = Py.osp_join (save_dir args) (split args) ->
      main E args fs = (fs, [], Raise SameFileError)).
Proof.
  pose proof (main_unfolded E args fs) as Hu. cbv zeta in Hu.
  split.
  - intros H. by rewrite Hu, H.
  - intros [c H] Heq. rewrite Hu, H. unfold tsv_path. rewrite Heq.
    by rewrite decide_True.
Qed.

(** X3: when the checkpoint cannot be loaded the run raises after the
    setup: the manifest has been copied and a stale array removed, while
    the lengths file has not been opened, so that a lengths file of an
    earlier run stays as it was, now without its array. *)
Theorem checkpoint_failure_after_setup args fs (t : string) (e : exn) :
  fs !! tsv_path args = Some (Text t) ->
  tsv_path args <> Py.osp_join (save_dir args) (split args) +:+ ".tsv" ->
  load_checkpoint E (checkpoint args) = Raise e ->
  let o := main E args fs in
  res_of o = Raise e
  /\ Forall (setup_event (npy_path args)) (log_of o)
  /\ fs_of o !! (Py.osp_join (save_dir args) (split args) +:+ ".tsv")
     = Some (Text t)
  /\ fs_of o !! npy_path args = None
  /\ fs_of o !! lengths_path args = fs !! lengths_path args.
Proof.
  intros Ht Hne Hcp o. subst o.
  set (dest := Py.osp_join (save_dir args) (split args)) in *.
  pose proof (create_files_outputs (Row:=Row) args dest fs _ Ht Hne)
    as (Hres & Htsv & _ & _ & Hnpy).
  pose proof (create_files_facts (Row:=Row) args dest fs) as (Hev & _).
  pose proof (create_files_frame (Row:=Row) args dest (lengths_path args) fs) as Hfr.
  pose proof (main_unfolded E args fs) as Hu. cbv zeta in Hu. fold dest in Hu.
  rewrite Hu, Ht, decide_False by done.
  destruct (manifest_files_eq t) as (first & rest & _ & ->).
  unfold Wav2VecFeatureReader. rewrite Hcp. cbn [rbind]. Paths.outcome.
  split; [done |]. split; [done |]. split; [done |]. split; [done |].
  apply Hfr; unfold lengths_path; fold dest; Paths.ext_ne.
Qed.

End Frame.

(** ** How a run ends *)

Section Outcomes.

Context {Row Wav : Type}.
Variable E : Collaborators Row Wav.
Implicit Types (fs : gmap string (file Row)) (args : Args).

(** X4: a run that has opened the lengths file ends in one of three
    ways.  Either every file of the manifest is done and the run returns;
    or [get_feats] raises at a file, the files before it being done, and
    the run raises the same exception; or the append of the matrix just
    produced fails after its length was printed, and the run raises with
    the lengths file one line ahead of the matrices appended.  In the
    three cases the matrices produced are those of a prefix of the files,
    in order, and the lengths file, once closed, holds one line for each.
    In the first two the array holds the rows appended, or does not exist
    if none was.  In the third the array file is what the failed append
    has left of it: a wreck, or, if the append has failed before it
    touched the file, the rows appended before, or no file. *)
Theorem run_ends_three_ways args fs :
  let o := main E args fs in
  let ms := produced (log_of o) in
  In (EvOpen (lengths_path args)) (log_of o) ->
  exists (t : string) reader (files : list string),
    fs !! tsv_path args = Some (Text t)
    /\ manifest_files t = Ok (files, length files)
    /\ Wav2VecFeatureReader E (checkpoint args) (layer args) = Ok reader
    /\ Forall2 (fun fname m => get_feats E reader fname = Ok m)
         (take (length ms) files) ms
    /\ fs_of o !! lengths_path args
       = Some (Text (lengths_text (map length ms)))
    /\ ((res_of o = Ok tt
         /\ length ms = length files
         /\ fs_of o !! npy_path args = npy_file_of ms)
        \/ (exists fname e,
               files !! length ms = Some fname
               /\ get_feats E reader fname = Raise e
               /\ res_of o = Raise e
               /\ fs_of o !! npy_path args = npy_file_of ms)
        \/ (exists ms' m,
               ms = ms' ++ [m]
               /\ 0 < length m
               /\ append_fault E (concat ms') m = true
               /\ res_of o = Raise (ExternalError 0)
               /\ In (EvFault (npy_path args) m) (log_of o)
               /\ blocks (npy_path args) (log_of o) = nonempty ms'
               /\ fs_of o !! npy_path args
                  = match append_wreck E (concat ms') m with
                    | Some f => Some f
                    | None => npy_file_of ms'
                    end)).
Proof.
  cbv zeta. intros Hopen.
  destruct (main_run E args fs Hopen)
    as (t & reader & files & Ht & Hne & Hm & Hrd & Hnone & Hrun).
  cbv zeta in Hrun.
  destruct Hrun as (Hres & Hlog & Hprod & Hprt & Hblk & Hlen & Hoth).
  pose proof (Paths.lengths_ne_npy args) as Hln.
  pose proof (loop_ends E reader _ _ files
                (open_w (lengths_path args)
                   (fs_of (create_files args
                             (Py.osp_join (save_dir args) (split args)) fs)))
                Hln) as Hends.
  cbv zeta in Hends.
  destruct Hends as (Hall & Hpr & _ & _ & Hcases).
  { unfold open_w. cbn [fst]. by rewrite lookup_insert_ne. }
  exists t, reader, files. split; [done |]. split; [done |]. split; [done |].
  rewrite Hres, Hprod, Hblk, Hlen, Hpr, (Hoth _ Hln).
  split; [done |]. split; [done |].
  destruct Hcases
    as [(Hr & Hl & _ & _ & Hnpy)
       | [(f & e & Hf & He & Hr & _ & _ & Hnpy)
         | (ms' & m & Hms & Hm' & Hft & Hr & Hlast & Hb & Hnpy)]].
  - by left.
  - right. left. by exists f, e.
  - right. right. exists ms', m.
    split; [done |]. split; [done |]. split; [done |]. split; [done |].
    split; [| done].
    rewrite Hlog. apply in_or_app. right. right. apply in_or_app. left.
    destruct (log_of (loop E reader _ _ files _)) as [|e0 l0] using rev_ind;
      [discriminate Hlast |].
    rewrite last_snoc in Hlast. injection Hlast as ->.
    apply in_or_app. right. by left.
Qed.

(** X5: if no append fails, the outputs of every run that has opened the
    lengths file agree with the matrices produced, also when the run is
    stopped by an exception of [get_feats]: the lengths file lists the
    row counts of the files done so far and the array is the
    concatenation of their matrices, so that what was written before the
    failure can be cut back into per-file segments. *)
Theorem embedding_failure_keeps_agreement args fs :
  (forall rows m, append_fault E rows m = false) ->
  let o := main E args fs in
  In (EvOpen (lengths_path args)) (log_of o) ->
  consistent (fs_of o) (lengths_path args) (npy_path args) (produced (log_of o)).
Proof.
  intros Hfault o Hopen. subst o.
  destruct (main_run E args fs Hopen)
    as (t & reader & files & Ht & Hne & Hm & Hrd & Hnone & Hrun).
  cbv zeta in Hrun.
  destruct Hrun as (_ & _ & Hprod & _ & _ & Hlen & Hoth).
  pose proof (Paths.lengths_ne_npy args) as Hln.
  pose proof (loop_ends E reader _ _ files
                (open_w (lengths_path args)
                   (fs_of (create_files args
                             (Py.osp_join (save_dir args) (split args)) fs)))
                Hln) as Hends.
  cbv zeta in Hends.
  destruct Hends as (_ & Hpr & _ & _ & Hcases).
  { unfold open_w. cbn [fst]. by rewrite lookup_insert_ne. }
  rewrite Hprod.
  apply consistent_intro.
  - apply rows_of_npy_file_of. rewrite (Hoth _ Hln).
    destruct Hcases
      as [(_ & _ & _ & _ & Hnpy)
         | [(f & e & _ & _ & _ & _ & _ & Hnpy)
           | (ms' & m & _ & _ & Hft & _)]];
      [done | done |].
    by rewrite Hfault in Hft.
  - unfold text_of. by rewrite Hlen, Hpr.
Qed.

(** X6: after a run that ends normally the array file exists if and only
    if some matrix has a row: a run on a manifest without entries, or
    whose files all give matrices without rows, leaves a lengths file
    and no array file. *)
Theorem array_file_iff_rows args fs fs' (log : list (event Row)) :
  main E args fs = (fs', log, Ok tt) ->
  (is_Some (fs' !! npy_path args)
   <-> Exists (fun m : list Row => 0 < length m) (produced log))
  /\ is_Some (fs' !! lengths_path args).
Proof.
  intros Hmain.
  destruct (main_completed E args fs fs' log Hmain)
    as (t & reader & files & _ & _ & _ & _ & _ & _ & _ & Hlen & Hnpy & _).
  split; [| by rewrite Hlen].
  rewrite Hnpy. unfold npy_file_of, nonempty.
  rewrite Exists_exists. split.
  - destruct (filter _ _) as [|m ms] eqn:Hf; [by intros [? ?] |].
    intros _. exists m.
    assert (Hin : m ∈ filter (fun m : list Row => 0 < length m) (produced log))
      by (rewrite Hf; left).
    apply list_elem_of_filter in Hin as [H1 H2].
    by split.
  - intros (m & Hin & Hm).
    assert (Hin' : m ∈ filter (fun m : list Row => 0 < length m) (produced log))
      by (by apply list_elem_of_filter).
    destruct (filter _ _); [by apply elem_of_nil in Hin' | done].
Qed.

End Outcomes.

(** ** Running again *)

Section Rerun.

Context {Row Wav : Type}.
Variable E : Collaborators Row Wav.
Implicit Types (fs : gmap string (file Row)) (args : Args).

(** The copies a run that ends normally leaves in the output
    directory. *)
Lemma completed_copies args fs fs' (log : list (event Row)) :
  main E args fs = (fs', log, Ok tt) ->
  let dest := Py.osp_join (save_dir args) (split args) in
  let src := Py.osp_join (data args) (split args) in
  fs' !! (dest +:+ ".tsv") = fs !! (src +:+ ".tsv")
  /\ fs' !! (dest +:+ ".wrd")
     = match fs !! (src +:+ ".wrd") with
       | Some w => Some w
       | None => fs !! (dest +:+ ".wrd")
       end
  /\ fs' !! (dest +:+ ".phn")
     = match fs !! (src +:+ ".phn") with
       | Some w => Some w
       | None => fs !! (dest +:+ ".phn")
       end.
Proof.
  intros Hmain dest src.
  destruct (main_completed E args fs fs' log Hmain)
    as (t & reader & files & Ht & Hne & _ & _ & _ & _ & _ & _ & _ & Hframe).
  fold dest in Hne, Hframe.
  pose proof (create_files_outputs (Row:=Row) args dest fs _ Ht Hne)
    as (_ & Htsv & Hwrd & Hphn & _).
  fold src in Hwrd, Hphn. unfold tsv_path in Ht. fold src in Ht.
  rewrite !Hframe by (unfold lengths_path, npy_path; fold dest; Paths.ext_ne).
  by rewrite Htsv, Hwrd, Hphn, Ht.
Qed.

(** X7: after a run that ends normally the output manifest is the input
    manifest, byte for byte; each label file ([.wrd], [.phn]) is the one
    beside the input manifest if there is one, and otherwise whatever
    the output directory held before: a stale label file is not
    removed, unlike a stale array. *)
Theorem completed_run_copies args fs fs' (log : list (event Row)) :
  main E args fs = (fs', log, Ok tt) ->
  let dest := Py.osp_join (save_dir args) (split args) in
  let src := Py.osp_join (data args) (split args) in
  fs' !! (dest +:+ ".tsv") = fs !! (src +:+ ".tsv")
  /\ (forall ext w, ext = ".wrd" \/ ext = ".phn" ->
        fs !! (src +:+ ext) = Some w -> fs' !! (dest +:+ ext) = Some w)
  /\ (forall ext, ext = ".wrd" \/ ext = ".phn" ->
        fs !! (src +:+ ext) = None ->
        fs' !! (dest +:+ ext) = fs !! (dest +:+ ext)).
Proof.
  intros Hmain dest src.
  destruct (completed_copies args fs fs' log Hmain) as (Htsv & Hwrd & Hphn).
  fold dest src in Htsv, Hwrd, Hphn.
  split; [done |].
  split.
  - intros ext w [-> | ->] Hsrc; by rewrite ?Hwrd, ?Hphn, Hsrc.
  - intros ext [-> | ->] Hsrc; by rewrite ?Hwrd, ?Hphn, Hsrc.
Qed.

(** X8: running the script a second time on the files the first run
    left, with the same arguments and with the checkpoint and the audio
    reading as before, ends normally again, computes the same feature
    matrices and leaves every file as it was: the stale array is
    removed and rebuilt, the lengths file rewritten from empty. *)
Theorem rerun_reproduces args fs fs1 (log1 : list (event Row)) :
  main E args fs = (fs1, log1, Ok tt) ->
  exists log2,
    main E args fs1 = (fs1, log2, Ok tt)
    /\ produced log2 = produced log1.
Proof.
  intros Hmain.
  set (dest := Py.osp_join (save_dir args) (split args)).
  set (src := Py.osp_join (data args) (split args)).
  pose proof (Paths.lengths_ne_npy args) as Hln.
  pose proof (main_ok_opened E _ _ _ _ Hmain) as Hopen.
  destruct (main_run E args fs Hopen)
    as (t & reader & files & Ht & Hne & Hm & Hrd & Hn0 & Hrun).
  fold dest in Hne, Hn0, Hrun. cbv zeta in Hrun.
  destruct Hrun as (Hres & _ & Hprod & _).
  assert (Hsrc : forall ext : string,
             ext = ".tsv" \/ ext = ".wrd" \/ ext = ".phn" ->
             fs1 !! (src +:+ ext) = fs !! (src +:+ ext)).
  { intros ext Hext.
    assert (Hsd : src <> dest).
    { intros Heq. apply Hne. unfold tsv_path. fold src. by rewrite Heq. }
    pose proof (main_frame E args fs (src +:+ ext)) as Hframe.
    cbv zeta in Hframe. rewrite Hmain in Hframe. Paths.outcome_in Hframe.
    fold dest in Hframe.
    apply Hframe; unfold npy_path, lengths_path; fold dest;
      destruct Hext as [-> | [-> | ->]];
      first [ Paths.ext_ne
            | intros Heq; apply Hsd; symmetry;
              exact (Paths.app_cancel_r _ _ _ Heq) ]. }
  assert (Ht1 : fs1 !! tsv_path args = Some (Text t)).
  { unfold tsv_path in *. fold src in Ht |- *.
    rewrite Hsrc; [done | by left]. }
  pose proof (create_files_outputs (Row:=Row) args dest fs1 _ Ht1 Hne)
    as (_ & _ & _ & _ & Hn1).
  cbv zeta in Hn1.
  assert (Hrows :
            rows_of (open_w (lengths_path args)
                       (fs_of (create_files args dest fs1))).1 (npy_path args)
            = rows_of (open_w (lengths_path args)
                         (fs_of (create_files args dest fs))).1 (npy_path args)).
  { unfold rows_of, open_w. cbn [fst]. rewrite !lookup_insert_ne by done.
    change (dest +:+ ".npy") with (npy_path args) in Hn1.
    by rewrite Hn0, Hn1. }
  destruct (loop_depends E reader _ _ files _ _ Hln Hrows) as [Hlog Hr].
  assert (Hopen2 : In (EvOpen (lengths_path args)) (log_of (main E args fs1))).
  { pose proof (main_unfolded E args fs1) as Hu. cbv zeta in Hu. fold dest in Hu.
    rewrite Ht1, decide_False in Hu by done. rewrite Hm, Hrd in Hu.
    cbv beta iota in Hu.
    destruct (loop E reader _ _ files
                (open_w (lengths_path args) (fs_of (create_files args dest fs1))))
      as [[st3 l3] r].
    rewrite Hu. Paths.outcome. apply in_elt. }
  destruct (main_run E args fs1 Hopen2)
    as (t' & reader' & files' & Ht' & _ & Hm' & Hrd' & _ & Hrun').
  fold dest in Hrun'. cbv zeta in Hrun'.
  destruct Hrun' as (Hres' & _ & Hprod' & _).
  assert (t' = t) by congruence. subst t'.
  assert (reader' = reader) by congruence. subst reader'.
  assert (files' = files) by congruence. subst files'.
  rewrite Hr, <- Hres, Hmain in Hres'. Paths.outcome_in Hres'.
  rewrite Hlog, <- Hprod, Hmain in Hprod'. Paths.outcome_in Hprod'.
  destruct (main E args fs1) as [[fs2 log2] r2] eqn:Hmain2.
  Paths.outcome_in Hres'. Paths.outcome_in Hprod'. subst r2.
  exists log2. split; [| done].
  f_equal. f_equal.
  destruct (main_completed E args fs fs1 log1 Hmain)
    as (t0 & r0 & f0 & _ & _ & _ & _ & _ & _ & _ & Hlen & Hnpy & _).
  destruct (main_completed E args fs1 fs2 log2 Hmain2)
    as (t' & r' & f' & _ & _ & _ & _ & _ & _ & _ & Hlen' & Hnpy' & _).
  destruct (completed_copies args fs fs1 log1 Hmain) as (Htsv & Hwrd & Hphn).
  destruct (completed_copies args fs1 fs2 log2 Hmain2) as (Htsv' & Hwrd' & Hphn').
  fold dest src in Htsv, Hwrd, Hphn, Htsv', Hwrd', Hphn'.
  rewrite Hprod' in Hnpy', Hlen'.
  rewrite Hsrc in Htsv', Hwrd', Hphn' by tauto.
  apply map_eq. intros p.
  destruct (decide (dest +:+ ".tsv" = p)) as [<- | H1]; [congruence |].
  destruct (decide (dest +:+ ".wrd" = p)) as [<- | H2].
  { rewrite Hwrd', Hwrd. by destruct (fs !! (src +:+ ".wrd")). }
  destruct (decide (dest +:+ ".phn" = p)) as [<- | H3].
  { rewrite Hphn', Hphn. by destruct (fs !! (src +:+ ".phn")). }
  destruct (decide (npy_path args = p)) as [<- | H4]; [congruence |].
  destruct (decide (lengths_path args = p)) as [<- | H5]; [congruence |].
  pose proof (main_frame E args fs1 p) as Hframe. cbv zeta in Hframe.
  rewrite Hmain2 in Hframe. Paths.outcome_in Hframe.
  by apply Hframe.
Qed.

End Rerun.

(** ** The feature reader *)

Section FeatureReader.

Context {Row Wav : Type}.
Implicit Types (E : Collaborators Row Wav) (reader : Reader Row Wav).

Lemma nth_error_lookup {A} (l : list A) (k : nat) : nth_error l k = l !! k.
Proof. revert k. induction l as [|a l IH]; intros [|k]; simpl; auto. Qed.

(** Indexing with an index that is not negative. *)
Lemma py_index_nat {A} (seq : list A) (k : nat) :
  py_index seq (Z.of_nat k)
  = match seq !! k with
    | Some a => Ok a
    | None => Raise IndexError
    end.
Proof.
  unfold py_index. cbv zeta.
  destruct (Z.ltb_spec (Z.of_nat k) 0) as [Hneg | _]; [lia |].
  destruct (Z.leb_spec 0 (Z.of_nat k)) as [_ | Hneg]; [| lia].
  rewrite Nat2Z.id, nth_error_lookup. simpl.
  destruct (Z.ltb_spec (Z.of_nat k) (Z.of_nat (length seq))) as [Hlt | Hge];
    [done |].
  rewrite lookup_ge_None_2; [done | lia].
Qed.

(** Below [2^53] the division in floats is exact. *)
Lemma floor_half_small (n : Z) :
  (0 <= n < 2 ^ 53)%Z -> Py.floor_half n = Some (n / 2)%Z.
Proof.
  intros [H0 H1]. unfold Py.floor_half.
  rewrite Z.abs_eq by done.
  destruct (Z.ltb_spec n (2 ^ 53)) as [_ | Hge]; [done | lia].
Qed.

(** From [2^1025] on the quotient is beyond the floats. *)
Lemma floor_half_overflow (n : Z) :
  (2 ^ 1025 <= n)%Z -> Py.floor_half n = None.
Proof.
  intros Hn. unfold Py.floor_half.
  assert (Hpos : (0 < n)%Z) by (pose proof (Z.pow_pos_nonneg 2 1025); lia).
  rewrite Z.abs_eq by lia.
  assert (Hlog : (1025 <= Z.log2 n)%Z).
  { rewrite <- (Z.log2_pow2 1025) by lia. by apply Z.log2_le_mono. }
  destruct (Z.log2_spec n Hpos) as [Hlo _].
  destruct (Z.ltb_spec n (2 ^ 53)) as [Hlt | _].
  { pose proof (Z.pow_le_mono_r 2 53 1025). lia. }
  cbv zeta.
  set (shift := (Z.log2 n - 52)%Z).
  set (q := (n / 2 ^ shift)%Z).
  assert (Hq : (2 ^ 52 <= q)%Z).
  { unfold q. apply Z.div_le_lower_bound; [apply Z.pow_pos_nonneg; lia |].
    rewrite <- Z.pow_add_r by lia.
    by replace (shift + 52)%Z with (Z.log2 n) by lia. }
  set (q' := if (n mod 2 ^ shift <? 2 ^ (shift - 1))%Z then q
             else if (2 ^ (shift - 1) <? n mod 2 ^ shift)%Z then (q + 1)%Z
                  else if Z.even q then q else (q + 1)%Z).
  assert (Hq' : (q <= q')%Z)
    by (unfold q';
        repeat match goal with
               | |- context [if ?b then _ else _] => destruct b
               end; lia).
  destruct (Z.ltb_spec (q' * 2 ^ (shift - 1)) (2 ^ 1024)) as [Hlt | _]; [| done].
  exfalso.
  assert (H1 : (2 ^ 1024 <= 2 ^ 52 * 2 ^ (shift - 1))%Z).
  { rewrite <- Z.pow_add_r by lia. apply Z.pow_le_mono_r; lia. }
  assert (H2 : (2 ^ 52 * 2 ^ (shift - 1) <= q' * 2 ^ (shift - 1))%Z).
  { apply Z.mul_le_mono_nonneg_r; [apply Z.pow_nonneg; lia | lia]. }
  lia.
Qed.

(** X9: the layer chooses a tuple of the model's layer results and an
    item of that tuple.  For a layer below [2^53], layers [2k] and
    [2k+1] both read tuple [k], the even one its item 0 and the odd one
    its item 2; item 1 of a tuple is never read; a tuple or an item that
    is not there raises [IndexError].  The tuple index is computed in
    floats: for a layer of [2^1025] or more the division raises
    [OverflowError], after the model has been run. *)
Theorem layer_picks_tuple_item E reader (loc : string) (x source : Wav)
    (results : list (list (list Row))) :
  read_audio E loc = Ok x ->
  to_device E x = Ok source ->
  (normalize reader = true -> dim E source = 1) ->
  model reader (if normalize reader then layer_norm E source else source)
  = Ok results ->
  (forall (k : nat) (odd : bool),
      reader_layer reader = (2 * Z.of_nat k + (if odd then 1 else 0))%Z ->
      (reader_layer reader < 2 ^ 53)%Z ->
      get_feats E reader loc
      = match results !! k with
        | None => Raise IndexError
        | Some tuple =>
            match tuple !! (if odd then 2 else 0) with
            | None => Raise IndexError
            | Some m => Ok m
            end
        end)
  /\ ((2 ^ 1025 <= reader_layer reader)%Z ->
      get_feats E reader loc = Raise OverflowError).
Proof.
  intros Hx Hs Hdim Hmodel.
  assert (Hnorm :
            (if normalize reader
             then if dim E source =? 1
                  then Ok (layer_norm E source)
                  else Raise AssertionError
             else Ok source)
            = Ok (if normalize reader then layer_norm E source else source)).
  { destruct (normalize reader); [| done].
    by rewrite (Hdim eq_refl). }
  split.
  - intros k odd Hlayer Hsmall. unfold get_feats.
    rewrite Hx. cbn [rbind]. rewrite Hs. cbn [rbind].
    rewrite Hnorm. cbn [rbind]. rewrite Hmodel. cbn [rbind].
    assert (Hdiv : (reader_layer reader / 2)%Z = Z.of_nat k)
      by (rewrite Hlayer; destruct odd; Z.div_mod_to_equations; lia).
    assert (Hmod : ((reader_layer reader mod 2) * 2)%Z
                   = Z.of_nat (if odd then 2 else 0))
      by (rewrite Hlayer; destruct odd; Z.div_mod_to_equations; lia).
    unfold floor_half. rewrite floor_half_small by (destruct odd; lia).
    cbn [rbind]. rewrite Hdiv, Hmod, py_index_nat.
    destruct (results !! k) as [tuple|]; [| done]. cbn [rbind].
    by rewrite py_index_nat.
  - intros Hhuge. unfold get_feats.
    rewrite Hx. cbn [rbind]. rewrite Hs. cbn [rbind].
    rewrite Hnorm. cbn [rbind]. rewrite Hmodel. cbn [rbind].
    unfold floor_half. by rewrite floor_half_overflow.
Qed.

(** X10: with a task that normalises, audio that is not one-dimensional
    is refused with [AssertionError] before the model is run, whatever
    the model and the layer; with a task that does not, neither the
    number of dimensions nor the normalisation is consulted. *)
Theorem normalisation_checks_mono E reader (loc : string) (x source : Wav) :
  read_audio E loc = Ok x ->
  to_device E x = Ok source ->
  (normalize reader = true -> dim E source <> 1 ->
   get_feats E reader loc = Raise AssertionError)
  /\ (normalize reader = false ->
      forall E',
        sf_read E' = sf_read E -> to_device E' = to_device E ->
        get_feats E' reader loc = get_feats E reader loc).
Proof.
  intros Hx Hs. split.
  - intros Hn Hdim. unfold get_feats. rewrite Hx. simpl. rewrite Hs. simpl.
    rewrite Hn. by destruct (Nat.eqb_spec (dim E source) 1).
  - intros Hn E' Hsf Hdev. unfold get_feats, read_audio.
    by rewrite Hsf, Hdev, Hn.
Qed.

End FeatureReader.

(** ** Manifests with a final newline *)

Section Manifest.

Lemma split_final_sep (sep : ascii) (s : string) :
  Py.split sep (s +:+ String sep EmptyString)
  = Py.split sep s ++ [EmptyString].
Proof.
  induction s as [|c s IH].
  - rewrite PyFacts.app_nil. simpl. by rewrite Ascii.eqb_refl.
  - rewrite PyFacts.app_cons. simpl.
    destruct (Ascii.eqb c sep); [by rewrite IH |]. rewrite IH.
    destruct (PyFacts.split_cons sep s) as (w & ws & ->). done.
Qed.

(** X11: a newline at the end of the manifest adds no entry: the empty
    piece after it is skipped like any empty line, so a manifest gives
    the same paths and the same count with and without it. *)
Theorem final_newline_adds_nothing (text : string) :
  manifest_files (text +:+ String Py.LF EmptyString) = manifest_files text.
Proof.
  unfold manifest_files. cbv zeta. rewrite split_final_sep.
  destruct (PyFacts.split_cons Py.LF text) as (first & rest & ->).
  simpl. by rewrite filter_app, !map_app, !List.app_nil_r.
Qed.

End Manifest.

(** ** The further properties on the scenario *)

Section CasesRun.

Import Scenario Cases.

Lemma run_writes_outputs_only_witness :
  ~ In "/in/train.tsv" (output_paths args)
  /\ fs_of (main E args fs) !! "/in/train.tsv" = fs !! "/in/train.tsv".
Proof.
  assert (H : ~ In "/in/train.tsv" (output_paths args)).
  { vm_compute. intros [H | [H | [H | [H | [H | []]]]]]; discriminate H. }
  split; [exact H |].
  exact (run_writes_outputs_only E args fs "/in/train.tsv" H).
Defined.

Lemma setup_failures_change_nothing_witness :
  (∅ : gmap string (file Row)) !! tsv_path args = None
  /\ main E args ∅ = (∅, [], Raise FileNotFoundError)
  /\ is_Some (fs !! tsv_path args_in_place)
  /\ Py.osp_join (data args_in_place) (split args_in_place)
     = Py.osp_join (save_dir args_in_place) (split args_in_place)
  /\ main E args_in_place fs = (fs, [], Raise SameFileError).
Proof.
  assert (H0 : (∅ : gmap string (file Row)) !! tsv_path args = None)
    by reflexivity.
  assert (H1 : is_Some (fs !! tsv_path args_in_place))
    by (exists (Text manifest); reflexivity).
  assert (H2 : Py.osp_join (data args_in_place) (split args_in_place)
               = Py.osp_join (save_dir args_in_place) (split args_in_place))
    by reflexivity.
  split; [exact H0 |].
  split; [exact (proj1 (setup_failures_change_nothing E args ∅) H0) |].
  split; [exact H1 |]. split; [exact H2 |].
  exact (proj2 (setup_failures_change_nothing E args_in_place fs) H1 H2).
Defined.

Lemma checkpoint_failure_after_setup_witness :
  let o := main E_no_checkpoint args fs in
  fs !! tsv_path args = Some (Text manifest)
  /\ tsv_path args <> Py.osp_join (save_dir args) (split args) +:+ ".tsv"
  /\ load_checkpoint E_no_checkpoint (checkpoint args) = Raise (ExternalError 1)
  /\ res_of o = Raise (ExternalError 1)
  /\ Forall (setup_event (npy_path args)) (log_of o)
  /\ fs_of o !! (Py.osp_join (save_dir args) (split args) +:+ ".tsv")
     = Some (Text manifest)
  /\ fs_of o !! npy_path args = None
  /\ fs_of o !! lengths_path args = fs !! lengths_path args.
Proof.
  intros o.
  assert (H0 : fs !! tsv_path args = Some (Text manifest)) by reflexivity.
  assert (H1 : tsv_path args
               <> Py.osp_join (save_dir args) (split args) +:+ ".tsv")
    by (vm_compute; discriminate).
  assert (H2 : load_checkpoint E_no_checkpoint (checkpoint args)
               = Raise (ExternalError 1)) by reflexivity.
  split; [exact H0 |]. split; [exact H1 |]. split; [exact H2 |].
  exact (checkpoint_failure_after_setup E_no_checkpoint args fs manifest
           (ExternalError 1) H0 H1 H2).
Defined.

(** X4 on a run whose second file cannot be read and on a run whose
    first append fails, leaving a wreck at the path of the array. *)
Lemma run_ends_three_ways_witness :
  (let o := main E args fs_bad in
   let ms := produced (log_of o) in
   In (EvOpen (lengths_path args)) (log_of o)
   /\ res_of o = Raise FileNotFoundError
   /\ ms = [matrix 5]
   /\ fs_of o !! npy_path args = Some (Npy (matrix 5))
   /\ exists (t : string) reader (files : list string),
       fs_bad !! tsv_path args = Some (Text t)
       /\ manifest_files t = Ok (files, length files)
       /\ Wav2VecFeatureReader E (checkpoint args) (layer args) = Ok reader
       /\ Forall2 (fun fname m => get_feats E reader fname = Ok m)
            (take (length ms) files) ms
       /\ fs_of o !! lengths_path args
          = Some (Text (lengths_text (map length ms)))
       /\ ((res_of o = Ok tt
            /\ length ms = length files
            /\ fs_of o !! npy_path args = npy_file_of ms)
           \/ (exists fname e,
                  files !! length ms = Some fname
                  /\ get_feats E reader fname = Raise e
                  /\ res_of o = Raise e
                  /\ fs_of o !! npy_path args = npy_file_of ms)
           \/ (exists ms' m,
                  ms = ms' ++ [m]
                  /\ 0 < length m
                  /\ append_fault E (concat ms') m = true
                  /\ res_of o = Raise (ExternalError 0)
                  /\ In (EvFault (npy_path args) m) (log_of o)
                  /\ blocks (npy_path args) (log_of o) = nonempty ms'
                  /\ fs_of o !! npy_path args
                     = match append_wreck E (concat ms') m with
                       | Some f => Some f
                       | None => npy_file_of ms'
                       end)))
  /\ (let o := main E_full args fs in
      let ms := produced (log_of o) in
      In (EvOpen (lengths_path args)) (log_of o)
      /\ res_of o = Raise (ExternalError 0)
      /\ ms = [matrix 5]
      /\ fs_of o !! npy_path args = Some (Text "NUMPY")
      /\ fs_of o !! lengths_path args
         = Some (Text (String "5" (String Py.LF EmptyString)))
      /\ exists (t : string) reader (files : list string),
          fs !! tsv_path args = Some (Text t)
          /\ manifest_files t = Ok (files, length files)
          /\ Wav2VecFeatureReader E_full (checkpoint args) (layer args) = Ok reader
          /\ Forall2 (fun fname m => get_feats E_full reader fname = Ok m)
               (take (length ms) files) ms
          /\ fs_of o !! lengths_path args
             = Some (Text (lengths_text (map length ms)))
          /\ ((res_of o = Ok tt
               /\ length ms = length files
               /\ fs_of o !! npy_path args = npy_file_of ms)
              \/ (exists fname e,
                     files !! length ms = Some fname
                     /\ get_feats E_full reader fname = Raise e
                     /\ res_of o = Raise e
                     /\ fs_of o !! npy_path args = npy_file_of ms)
              \/ (exists ms' m,
                     ms = ms' ++ [m]
                     /\ 0 < length m
                     /\ append_fault E_full (concat ms') m = true
                     /\ res_of o = Raise (ExternalError 0)
                     /\ In (EvFault (npy_path args) m) (log_of o)
                     /\ blocks (npy_path args) (log_of o) = nonempty ms'
                     /\ fs_of o !! npy_path args
                        = match append_wreck E_full (concat ms') m with
                          | Some f => Some f
                          | None => npy_file_of ms'
                          end))).
Proof.
  split.
  - intros o ms.
    assert (H : In (EvOpen (lengths_path args)) (log_of o))
      by exact (nth_error_In (log_of o) 4 eq_refl).
    split; [exact H |]. split; [reflexivity |]. split; [reflexivity |].
    split; [reflexivity |].
    exact (run_ends_three_ways E args fs_bad H).
  - intros o ms.
    assert (H : In (EvOpen (lengths_path args)) (log_of o))
      by exact (nth_error_In (log_of o) 4 eq_refl).
    split; [exact H |]. split; [reflexivity |]. split; [reflexivity |].
    split; [reflexivity |]. split; [reflexivity |].
    exact (run_ends_three_ways E_full args fs H).
Defined.

Lemma embedding_failure_keeps_agreement_witness :
  let o := main E args fs_bad in
  (forall rows m, append_fault E rows m = false)
  /\ In (EvOpen (lengths_path args)) (log_of o)
  /\ res_of o = Raise FileNotFoundError
  /\ consistent (fs_of o) (lengths_path args) (npy_path args)
       (produced (log_of o)).
Proof.
  intros o.
  assert (H0 : forall rows m, append_fault E rows m = false)
    by (intros rows m; reflexivity).
  assert (H1 : In (EvOpen (lengths_path args)) (log_of o))
    by exact (nth_error_In (log_of o) 4 eq_refl).
  split; [exact H0 |]. split; [exact H1 |]. split; [reflexivity |].
  exact (embedding_failure_keeps_agreement E args fs_bad H0 H1).
Defined.

Lemma array_file_iff_rows_witness :
  let o := main E args fs_empty in
  o = (fs_of o, log_of o, Ok tt)
  /\ (is_Some (fs_of o !! npy_path args)
      <-> Exists (fun m : list Row => 0 < length m) (produced (log_of o)))
  /\ is_Some (fs_of o !! lengths_path args).
Proof.
  intros o.
  assert (H : o = (fs_of o, log_of o, Ok tt)) by reflexivity.
  split; [exact H |].
  exact (array_file_iff_rows E args fs_empty (fs_of o) (log_of o) H).
Defined.

Lemma completed_run_copies_witness :
  let o := main E args fs in
  let dest := Py.osp_join (save_dir args) (split args) in
  let src := Py.osp_join (data args) (split args) in
  o = (fs_of o, log_of o, Ok tt)
  /\ fs_of o !! (dest +:+ ".tsv") = fs !! (src +:+ ".tsv")
  /\ (forall ext w, ext = ".wrd" \/ ext = ".phn" ->
        fs !! (src +:+ ext) = Some w -> fs_of o !! (dest +:+ ext) = Some w)
  /\ (forall ext, ext = ".wrd" \/ ext = ".phn" ->
        fs !! (src +:+ ext) = None ->
        fs_of o !! (dest +:+ ext) = fs !! (dest +:+ ext)).
Proof.
  intros o dest src.
  assert (H : o = (fs_of o, log_of o, Ok tt)) by reflexivity.
  split; [exact H |].
  exact (completed_run_copies E args fs (fs_of o) (log_of o) H).
Defined.

Lemma rerun_reproduces_witness :
  let o := main E args fs in
  o = (fs_of o, log_of o, Ok tt)
  /\ exists log2,
      main E args (fs_of o) = (fs_of o, log2, Ok tt)
      /\ produced log2 = produced (log_of o).
Proof.
  intros o.
  assert (H : o = (fs_of o, log_of o, Ok tt)) by reflexivity.
  split; [exact H |].
  exact (rerun_reproduces E args fs (fs_of o) (log_of o) H).
Defined.

Lemma layer_picks_tuple_item_witness :
  let results := repeat [matrix 5; []; matrix 6] 12 in
  read_audio E "/data/a.wav" = Ok 5
  /\ to_device E 5 = Ok 5
  /\ (normalize reader_odd = true -> dim E 5 = 1)
  /\ model reader_odd (if normalize reader_odd then layer_norm E 5 else 5)
     = Ok results
  /\ reader_layer reader_odd = (2 * Z.of_nat 6 + 1)%Z
  /\ (reader_layer reader_odd < 2 ^ 53)%Z
  /\ get_feats E reader_odd "/data/a.wav" = Ok (matrix 6)
  /\ (normalize reader_huge = true -> dim E 5 = 1)
  /\ model reader_huge (if normalize reader_huge then layer_norm E 5 else 5)
     = Ok (repeat [matrix 5; []; []] 12)
  /\ (2 ^ 1025 <= reader_layer reader_huge)%Z
  /\ get_feats E reader_huge "/data/a.wav" = Raise OverflowError.
Proof.
  intros results.
  assert (H0 : reader_layer reader_odd = (2 * Z.of_nat 6 + 1)%Z)
    by reflexivity.
  assert (H0' : (reader_layer reader_odd < 2 ^ 53)%Z) by reflexivity.
  assert (H1 : read_audio E "/data/a.wav" = Ok 5) by reflexivity.
  assert (H2 : to_device E 5 = Ok 5) by reflexivity.
  assert (H3 : normalize reader_odd = true -> dim E 5 = 1)
    by (intros _; reflexivity).
  assert (H4 : model reader_odd
                 (if normalize reader_odd then layer_norm E 5 else 5)
               = Ok results) by reflexivity.
  assert (H5 : normalize reader_huge = true -> dim E 5 = 1)
    by (intros _; reflexivity).
  assert (H6 : model reader_huge
                 (if normalize reader_huge then layer_norm E 5 else 5)
               = Ok (repeat [matrix 5; []; []] 12)) by reflexivity.
  assert (H7 : (2 ^ 1025 <= reader_layer reader_huge)%Z) by (by vm_compute).
  split; [exact H1 |]. split; [exact H2 |]. split; [exact H3 |].
  split; [exact H4 |]. split; [exact H0 |]. split; [exact H0' |].
  split; [exact (proj1 (layer_picks_tuple_item E reader_odd "/data/a.wav" 5 5
                          results H1 H2 H3 H4) 6 true H0 H0') |].
  split; [exact H5 |].
  split; [exact H6 |]. split; [exact H7 |].
  exact (proj2 (layer_picks_tuple_item E reader_huge "/data/a.wav" 5 5
                  _ H1 H2 H5 H6) H7).
Defined.

Lemma normalisation_checks_mono_witness :
  read_audio E_stereo "/data/a.wav" = Ok 5
  /\ to_device E_stereo 5 = Ok 5
  /\ normalize reader = true
  /\ dim E_stereo 5 <> 1
  /\ get_feats E_stereo reader "/data/a.wav" = Raise AssertionError
  /\ normalize reader_raw = false
  /\ sf_read E = sf_read E_stereo
  /\ to_device E = to_device E_stereo
  /\ get_feats E reader_raw "/data/a.wav"
     = get_feats E_stereo reader_raw "/data/a.wav".
Proof.
  assert (H0 : read_audio E_stereo "/data/a.wav" = Ok 5) by reflexivity.
  assert (H1 : to_device E_stereo 5 = Ok 5) by reflexivity.
  assert (H2 : normalize reader = true) by reflexivity.
  assert (H3 : dim E_stereo 5 <> 1) by (simpl; lia).
  assert (H4 : normalize reader_raw = false) by reflexivity.
  assert (H5 : sf_read E = sf_read E_stereo) by reflexivity.
  assert (H6 : to_device E = to_device E_stereo) by reflexivity.
  split; [exact H0 |]. split; [exact H1 |]. split; [exact H2 |].
  split; [exact H3 |].
  split; [exact (proj1 (normalisation_checks_mono E_stereo reader
                          "/data/a.wav" 5 5 H0 H1) H2 H3) |].
  split; [exact H4 |]. split; [exact H5 |]. split; [exact H6 |].
  exact (proj2 (normalisation_checks_mono E_stereo reader_raw
                  "/data/a.wav" 5 5 H0 H1) H4 E H5 H6).
Defined.

End CasesRun.
